(** * conceptOntology: loader, SPARQL query engine and SHACL report model

    A shallow embedding of the three core modules of the repository

      - [src/ontology/loader.py]    (class [RDFLoader]),
      - [src/ontology/query.py]     (class [SPARQLQueryEngine]),
      - [src/ontology/validator.py] (classes [ValidationResult],
        [ValidationReport], [SHACLValidator]),

    together with the properties that the specification states about them.

    Conventions of the embedding.

      - A Python [str] is a [string] of 8-bit characters.  The string
        methods are given their ASCII meaning: [str.strip] removes the
        code points 9-13 and 28-32, [str.upper] maps [a-z] to [A-Z], and a
        character above 127 is neither white space nor cased.
      - A Python [int] is a [Z]; a [float] number of seconds is a [Q].
      - A [dict] with string keys is a [gmap string _]; where the iteration
        order of a dict is observable an association list is used.
      - An instance's attributes form a record; a method that mutates [self]
        is a computation in a state-and-exception monad whose exceptional
        outcome still carries the state reached when the exception left the
        method.
      - The file system is an environment: what a path names (nothing, a
        regular file with its text, a file that cannot be read, something
        that is no regular file, or a path on which [Path.exists()] itself
        raises an [OSError]), and what a directory listing yields or
        raises.
      - Logging is not modelled. *)

From Stdlib Require Import String Ascii ZArith QArith List Bool Lia DecimalString.
From stdpp Require Import base option list gmap strings.

Import ListNotations.
Local Open Scope string_scope.
Local Open Scope list_scope.

(** ** Python string methods *)

Module PyStr.

(** The double quote character, code point 34. *)
Definition dquote : ascii := ascii_of_nat 34.

(** The backslash character, code point 92. *)
Definition backslash : ascii := ascii_of_nat 92.

(** The line feed character, code point 10. *)
Definition LF : ascii := ascii_of_nat 10.

(** [c.isspace()] on the ASCII range. *)
Definition isspace (c : ascii) : bool :=
  let n := nat_of_ascii c in
  ((9 <=? n)%nat && (n <=? 13)%nat) || ((28 <=? n)%nat && (n <=? 32)%nat).

(** [c.upper()] for one character. *)
Definition upper_char (c : ascii) : ascii :=
  let n := nat_of_ascii c in
  if ((97 <=? n)%nat && (n <=? 122)%nat) then ascii_of_nat (n - 32) else c.

(** [s.upper()] *)
Fixpoint upper (s : string) : string :=
  match s with
  | EmptyString => EmptyString
  | String c r => String (upper_char c) (upper r)
  end.

(** [s.lstrip(chars)], the set of characters given as a predicate. *)
Fixpoint lstrip_by (p : ascii -> bool) (s : string) : string :=
  match s with
  | EmptyString => EmptyString
  | String c r => if p c then lstrip_by p r else s
  end.

(** [s.rstrip(chars)] *)
Fixpoint rstrip_by (p : ascii -> bool) (s : string) : string :=
  match s with
  | EmptyString => EmptyString
  | String c r =>
      match rstrip_by p r with
      | EmptyString => if p c then EmptyString else String c EmptyString
      | r' => String c r'
      end
  end.

(** [s.strip(chars)] *)
Definition strip_by (p : ascii -> bool) (s : string) : string :=
  lstrip_by p (rstrip_by p s).

(** Membership of a character in a set written as a string, as in the
    argument of [s.strip('<>')]. *)
Fixpoint char_in (set : string) (c : ascii) : bool :=
  match set with
  | EmptyString => false
  | String d r => Ascii.eqb c d || char_in r c
  end.

(** [s.strip()], [s.rstrip()] *)
Definition strip (s : string) : string := strip_by isspace s.
Definition rstrip (s : string) : string := rstrip_by isspace s.

(** [s.strip(chars)], [s.rstrip(chars)] *)
Definition strip_chars (chars s : string) : string := strip_by (char_in chars) s.
Definition rstrip_chars (chars s : string) : string := rstrip_by (char_in chars) s.

(** [s.split(sep)] for a one-character separator: never empty, and
    [''.split(sep) = ['']]. *)
Fixpoint split (sep : ascii) (s : string) : list string :=
  match s with
  | EmptyString => [EmptyString]
  | String c r =>
      if Ascii.eqb c sep then EmptyString :: split sep r
      else match split sep r with
           | h :: t => String c h :: t
           | [] => [String c EmptyString]
           end
  end.

(** [s.split()]: the maximal runs of characters that are not white space. *)
Fixpoint split_ws (s : string) : list string :=
  match s with
  | EmptyString => []
  | String c r =>
      if isspace c then split_ws r
      else match r with
           | EmptyString => [String c EmptyString]
           | String c' _ =>
               if isspace c' then String c EmptyString :: split_ws r
               else match split_ws r with
                    | h :: t => String c h :: t
                    | [] => [String c EmptyString]
                    end
           end
  end.

(** [s.split(sep, 1)] when [sep] occurs in [s]: the text before the first
    occurrence and the text after it; [None] when [sep] does not occur (Python
    then returns the one-element list [[s]]). *)
Fixpoint split_once (sep : ascii) (s : string) : option (string * string) :=
  match s with
  | EmptyString => None
  | String c r =>
      if Ascii.eqb c sep then Some (EmptyString, r)
      else match split_once sep r with
           | Some (a, b) => Some (String c a, b)
           | None => None
           end
  end.

(** [sep.join(parts)] *)
Fixpoint join (sep : string) (parts : list string) : string :=
  match parts with
  | [] => EmptyString
  | [p] => p
  | p :: rest => p +:+ sep +:+ join sep rest
  end.

(** [s.startswith(p)] *)
Definition startswith (p s : string) : bool := String.prefix p s.

(** [s.endswith(p)] *)
Definition endswith (p s : string) : bool :=
  let n := String.length s in
  let k := String.length p in
  (k <=? n)%nat && String.eqb (String.substring (n - k) k s) p.

(** [sub in s] *)
Fixpoint contains (sub s : string) : bool :=
  String.prefix sub s ||
  match s with
  | EmptyString => false
  | String _ r => contains sub r
  end.

(** [c in s] for one character. *)
Fixpoint has_char (c : ascii) (s : string) : bool :=
  match s with
  | EmptyString => false
  | String d r => Ascii.eqb d c || has_char c r
  end.

(** [s.count(c)] for one character. *)
Fixpoint count (c : ascii) (s : string) : nat :=
  match s with
  | EmptyString => 0
  | String d r => (if Ascii.eqb d c then 1 else 0) + count c r
  end.

(** [str(n)] for a non-negative integer. *)
Definition of_nat (n : nat) : string := NilEmpty.string_of_uint (Nat.to_uint n).

End PyStr.

(** ** Methods that mutate [self] and may raise *)

Module Exc.

(** How a call ends: it returns a value or an exception leaves it. *)
Inductive outcome (E A : Type) : Type :=
| Return (a : A)
| Raise (e : E).
Arguments Return {E A} a.
Arguments Raise {E A} e.

(** A method on an object of state [S] raising exceptions of type [E]: the
    state after the call is given in both outcomes. *)
Definition M (S E A : Type) : Type := S -> outcome E A * S.

Section Ops.
Context {S E : Type}.

Definition ret {A} (a : A) : M S E A := fun s => (Return a, s).

Definition bind {A B} (c : M S E A) (k : A -> M S E B) : M S E B :=
  fun s =>
    match c s with
    | (Return a, s') => k a s'
    | (Raise e, s') => (Raise e, s')
    end.

Definition raise {A} (e : E) : M S E A := fun s => (Raise e, s).

Definition get : M S E S := fun s => (Return s, s).

Definition modify (f : S -> S) : M S E unit := fun s => (Return tt, f s).

(** A pure computation that may raise, run inside a method. *)
Definition lift {A} (o : outcome E A) : M S E A := fun s => (o, s).

(** [try: c  except ... as e: h e]; the handler sees the state that [c]
    left behind and decides itself which exceptions it lets through. *)
Definition try_except {A} (c : M S E A) (h : E -> M S E A) : M S E A :=
  fun s =>
    match c s with
    | (Return a, s') => (Return a, s')
    | (Raise e, s') => h e s'
    end.

End Ops.

End Exc.

Notation "x <- c ;; k" := (Exc.bind c (fun x => k))
  (at level 90, c at next level, right associativity).
Notation "c ;;; k" := (Exc.bind c (fun _ => k))
  (at level 90, right associativity).

(** ** loader.py *)

Module RDFLoader.
Import PyStr Exc.

(** The exception classes of loader.py; the last three derive from
    [RDFLoaderError].  [BuiltinError] stands for any exception that is not of
    this module ([OSError], [UnicodeDecodeError], ...) with its [str()]. *)
Inductive Exn : Type :=
| BuiltinError (msg : string)
| RDFLoaderError (msg : string)
| TurtleSyntaxError (msg : string)
| FileNotFoundError (msg : string)
| NamespaceError (msg : string).

(** [str(e)] *)
Definition str_exn (e : Exn) : string :=
  match e with
  | BuiltinError m | RDFLoaderError m | TurtleSyntaxError m
  | FileNotFoundError m | NamespaceError m => m
  end.

(** [isinstance(e, RDFLoaderError)] *)
Definition is_RDFLoaderError (e : Exn) : bool :=
  match e with
  | BuiltinError _ => false
  | _ => true
  end.

(** What a path names on disk, as [load_file] observes it. *)
Inductive Node : Type :=
| Absent                       (* [Path.exists()] is false *)
| NotRegular                   (* it exists and [Path.is_file()] is false *)
| Unreadable (err : string)    (* [open]/[read] raises; [err] is its [str()] *)
| Regular (content : string)   (* [read()] returns [content] *)
| StatError (err : string).    (* [Path.exists()] itself raises an [OSError]
                                  (name too long, permission denied);
                                  [err] is its [str()] *)

(** The environment of the loader: the file system and [str(Path(p))]. *)
Record Env : Type := {
  node : string -> Node;
  path_str : string -> string
}.

(** One element of [self.triples]: the dict with keys ['file'] and
    ['content']. *)
Record Entry : Type := {
  file : string;
  content : string
}.

(** The attributes of an [RDFLoader]. *)
Record t : Type := {
  triples : list Entry;
  loaded_files : list string;
  namespaces : gmap string string
}.

(** [RDFLoader()] *)
Definition init : t :=
  {| triples := []; loaded_files := []; namespaces := ∅ |}.

(** The three double quotes that open a long string. *)
Definition triple_quote : string :=
  String dquote (String dquote (String dquote EmptyString)).

(** The body of the loop of [_validate_turtle_syntax] for one line. *)
Definition validate_line (file_path : string) (line_num : nat) (line : string)
  : outcome Exn unit :=
  let line := strip line in
  if String.eqb line "" || startswith "#" line then Return tt
  else
    if negb (Nat.even (count dquote line))
       && negb (endswith (String backslash EmptyString) line)
       && negb (contains triple_quote line)
    then
      Raise (TurtleSyntaxError
               ("Syntax error in " +:+ file_path +:+ " at line " +:+
                of_nat line_num +:+ ": " +:+ "Unclosed string"))
    else
      if startswith "@prefix" line then
        let parts := split_ws line in
        let bad :=
          match parts with
          | _ :: _ :: p2 :: _ =>
              negb (startswith "<" p2) || negb (endswith "." (rstrip line))
          | _ => true
          end in
        if bad then
          Raise (TurtleSyntaxError
                   ("Syntax error in " +:+ file_path +:+ " at line " +:+
                    of_nat line_num +:+ ": " +:+ "Invalid @prefix declaration"))
        else Return tt
      else Return tt.

(** The loop over [enumerate(lines, line_num)]. *)
Fixpoint validate_lines (file_path : string) (line_num : nat) (lines : list string)
  : outcome Exn unit :=
  match lines with
  | [] => Return tt
  | line :: rest =>
      match validate_line file_path line_num line with
      | Return _ => validate_lines file_path (S line_num) rest
      | Raise e => Raise e
      end
  end.

(** [_validate_turtle_syntax(content, file_path)]; it reads no attribute. *)
Definition _validate_turtle_syntax (content file_path : string) : outcome Exn unit :=
  validate_lines file_path 1 (split LF content).

(** The body of the loop of [_extract_namespaces] for one line, on
    [self.namespaces].  Nothing in the [try] block can raise, since
    [parts[1]] and [parts[2]] are read only when [len(parts) >= 3]. *)
Definition register_line (ns : gmap string string) (line : string) : gmap string string :=
  let line := strip line in
  if startswith "@prefix" line then
    match split_ws line with
    | _ :: p1 :: p2 :: _ =>
        let prefix := rstrip_chars ":" p1 in
        let namespace := rstrip_chars "." (strip_chars "<>" p2) in
        <[prefix := namespace]> ns
    | _ => ns
    end
  else ns.

(** [_extract_namespaces(content)] *)
Definition _extract_namespaces (content : string) : M t Exn unit :=
  modify (fun self =>
    {| triples := triples self;
       loaded_files := loaded_files self;
       namespaces := fold_left register_line (split LF content) (namespaces self) |}).

(** [self.triples.append({'file': f, 'content': c})] *)
Definition append_triples (f c : string) : M t Exn unit :=
  modify (fun self =>
    {| triples := triples self ++ [{| file := f; content := c |}];
       loaded_files := loaded_files self;
       namespaces := namespaces self |}).

(** [self.loaded_files.append(f)] *)
Definition append_loaded_file (f : string) : M t Exn unit :=
  modify (fun self =>
    {| triples := triples self;
       loaded_files := loaded_files self ++ [f];
       namespaces := namespaces self |}).

(** [with open(file_path) as f: content = f.read()] *)
Definition read_text (env : Env) (file_path : string) : M t Exn string :=
  match node env file_path with
  | Regular c => ret c
  | Unreadable err => raise (BuiltinError err)
  | Absent => raise (BuiltinError ("No such file or directory: " +:+ file_path))
  | NotRegular => raise (BuiltinError ("Is a directory: " +:+ file_path))
  | StatError err => raise (BuiltinError err)
  end.

(** [load_file(file_path, validate)].  The two tests on the path stand
    before the [try]: an [OSError] that [exists()] raises leaves the method
    as it is. *)
Definition load_file (env : Env) (file_path : string) (validate : bool) : M t Exn bool :=
  let file_path := path_str env file_path in
  match node env file_path with
  | StatError err => raise (BuiltinError err)
  | Absent => raise (FileNotFoundError ("File not found: " +:+ file_path))
  | NotRegular => raise (FileNotFoundError ("Path is not a file: " +:+ file_path))
  | _ =>
      try_except
        (content <- read_text env file_path ;;
         (if validate then lift (_validate_turtle_syntax content file_path)
          else ret tt) ;;;
         _extract_namespaces content ;;;
         append_triples file_path content ;;;
         append_loaded_file file_path ;;;
         ret true)
        (fun e =>
           match e with
           | TurtleSyntaxError _ => raise e
           | _ => raise (RDFLoaderError
                           ("Error loading file " +:+ file_path +:+ ": " +:+ str_exn e))
           end)
  end.

(** The [for] loop of [load_files], with its two local lists. *)
Fixpoint load_files_loop (env : Env) (file_paths : list string)
    (validate continue_on_error : bool) (successful_files failed_files : list string)
  : M t Exn (list string * list string) :=
  match file_paths with
  | [] => ret (successful_files, failed_files)
  | file_path :: rest =>
      lists <- try_except
                 (load_file env file_path validate ;;;
                  ret (successful_files ++ [file_path], failed_files))
                 (fun e =>
                    if is_RDFLoaderError e then
                      if negb continue_on_error then raise e
                      else ret (successful_files, failed_files ++ [file_path])
                    else raise e) ;;
      load_files_loop env rest validate continue_on_error (fst lists) (snd lists)
  end.

(** [load_files(file_paths, validate, continue_on_error)] *)
Definition load_files (env : Env) (file_paths : list string)
    (validate continue_on_error : bool) : M t Exn (list string * list string) :=
  load_files_loop env file_paths validate continue_on_error [] [].

(** [get_namespace(prefix)] *)
Definition get_namespace (self : t) (prefix : string) : option string :=
  namespaces self !! prefix.

(** [resolve_uri(prefixed_uri)]; it does not change [self].  The unpacking
    of [split(':', 1)] cannot fail once [':' in prefixed_uri]. *)
Definition resolve_uri (self : t) (prefixed_uri : string) : outcome Exn string :=
  if negb (has_char ":" prefixed_uri) then Return prefixed_uri
  else
    match split_once ":" prefixed_uri with
    | Some (prefix, local_name) =>
        match namespaces self !! prefix with
        | None => Raise (NamespaceError ("Undefined namespace prefix: " +:+ prefix))
        | Some ns => Return (ns +:+ local_name)
        end
    | None => Raise (BuiltinError "not enough values to unpack (expected 2, got 1)")
    end.

(** [get_loaded_files()] *)
Definition get_loaded_files (self : t) : list string := loaded_files self.

(** [clear()] *)
Definition clear : M t Exn unit := modify (fun _ => init).

(** [get_triple_count()]: the number of loaded files. *)
Definition get_triple_count (self : t) : Z := Z.of_nat (length (loaded_files self)).

End RDFLoader.

(** ** query.py *)

Module SPARQLQueryEngine.
Import PyStr Exc.

(** [class QueryType(Enum)] *)
Inductive QueryType : Type := SELECT | CONSTRUCT | ASK | DESCRIBE | UNKNOWN.

(** [query_type.value] *)
Definition value (q : QueryType) : string :=
  match q with
  | SELECT => "SELECT"
  | CONSTRUCT => "CONSTRUCT"
  | ASK => "ASK"
  | DESCRIBE => "DESCRIBE"
  | UNKNOWN => "UNKNOWN"
  end.

(** [str(query_type)] *)
Definition str_QueryType (q : QueryType) : string := "QueryType." +:+ value q.

Definition QueryType_eqb (a b : QueryType) : bool :=
  match a, b with
  | SELECT, SELECT | CONSTRUCT, CONSTRUCT | ASK, ASK
  | DESCRIBE, DESCRIBE | UNKNOWN, UNKNOWN => true
  | _, _ => false
  end.

(** The exception classes of query.py; the last three derive from
    [SPARQLQueryError].  [BuiltinError] is any other exception. *)
Inductive Exn : Type :=
| BuiltinError (msg : string)
| SPARQLQueryError (msg : string)
| QuerySyntaxError (msg : string)
| QueryTimeoutError (msg : string)
| QueryExecutionError (msg : string).

(** [str(e)] *)
Definition str_exn (e : Exn) : string :=
  match e with
  | BuiltinError m | SPARQLQueryError m | QuerySyntaxError m
  | QueryTimeoutError m | QueryExecutionError m => m
  end.

(** The attributes of a [SPARQLQueryEngine]. *)
Record t : Type := {
  rdf_loader : option RDFLoader.t;
  default_timeout : Q;
  query_count : Z;
  total_query_time : Q
}.

(** [SPARQLQueryEngine(rdf_loader, default_timeout)] *)
Definition init (rdf_loader : option RDFLoader.t) (default_timeout : Q) : t :=
  {| rdf_loader := rdf_loader;
     default_timeout := default_timeout;
     query_count := 0%Z;
     total_query_time := 0%Q |}.

(** The default of the constructor's [default_timeout] argument, [30.0]. *)
Definition default_default_timeout : Q := 30%Q.

(** [_detect_query_type(query)] *)
Definition _detect_query_type (query : string) : QueryType :=
  let query_upper := upper (strip query) in
  let lines := List.map (fun line => List.hd "" (split "#" line)) (split LF query_upper) in
  let query_clean := strip (join " " lines) in
  if startswith "SELECT" query_clean then SELECT
  else if startswith "CONSTRUCT" query_clean then CONSTRUCT
  else if startswith "ASK" query_clean then ASK
  else if startswith "DESCRIBE" query_clean then DESCRIBE
  else UNKNOWN.

(** [_validate_query_syntax(query)]; it reads no attribute. *)
Definition _validate_query_syntax (query : string) : outcome Exn unit :=
  let query_stripped := strip query in
  if String.eqb query_stripped "" then
    Raise (QuerySyntaxError "Query cannot be empty")
  else
    let query_type := _detect_query_type query in
    if QueryType_eqb query_type UNKNOWN then
      Raise (QuerySyntaxError
        "Unknown query type. Query must start with SELECT, CONSTRUCT, ASK, or DESCRIBE")
    else if (QueryType_eqb query_type SELECT || QueryType_eqb query_type CONSTRUCT)
            && negb (contains "WHERE" (upper query)) then
      Raise (QuerySyntaxError (value query_type +:+ " query must contain a WHERE clause"))
    else if QueryType_eqb query_type ASK
            && (negb (contains "WHERE" (upper query)) && negb (has_char "{" query)) then
      Raise (QuerySyntaxError "ASK query must contain a WHERE clause or graph pattern")
    else if negb (Nat.eqb (count "{" query) (count "}" query)) then
      Raise (QuerySyntaxError "Unbalanced braces in query")
    else Return tt.

(** [_calculate_timeout(triple_count)] *)
Definition _calculate_timeout (self : t) (triple_count : option Z) : Q :=
  match triple_count with
  | None => default_timeout self
  | Some triple_count =>
      if (triple_count <? 10000)%Z then 5%Q
      else if (triple_count <? 100000)%Z then 15%Q
      else default_timeout self
  end.

(** A solution of a SELECT query and a triple of a result graph. *)
Definition Binding : Type := list (string * string).
Definition Triple : Type := (string * string * string)%type.

(** What [execute] can return. *)
Inductive Value : Type :=
| VBindings (bindings : list Binding)
| VSparqlJson (vars : list string) (bindings : list Binding)
| VTriples (triples : list Triple)
| VBool (b : bool)
| VStr (s : string).

(** A JSON string literal. *)
Definition jstr (s : string) : string :=
  String dquote (s +:+ String dquote EmptyString).

(** [json.dumps(results, indent=2)] of the empty SELECT result. *)
Definition select_json : string :=
  join (String LF EmptyString)
    [ "{";
      "  " +:+ jstr "head" +:+ ": {";
      "    " +:+ jstr "vars" +:+ ": []";
      "  },";
      "  " +:+ jstr "results" +:+ ": {";
      "    " +:+ jstr "bindings" +:+ ": []";
      "  }";
      "}" ].

(** [json.dumps({'triples': []}, indent=2)] *)
Definition triples_json : string :=
  join (String LF EmptyString) [ "{"; "  " +:+ jstr "triples" +:+ ": []"; "}" ].

(** [_execute_select_internal(query, timeout, output_format)] *)
Definition _execute_select_internal (query : string) (timeout : Q) (output_format : string)
  : M t Exn Value :=
  try_except
    (if String.eqb output_format "json" then ret (VStr select_json)
     else if String.eqb output_format "sparql_json" then ret (VSparqlJson [] [])
     else if String.eqb output_format "turtle" then
       raise (QueryExecutionError "Turtle format not supported for SELECT queries")
     else ret (VBindings []))
    (fun e => raise (QueryExecutionError
                       ("Error executing SELECT query: " +:+ str_exn e))).

(** [_execute_construct_internal(query, timeout, output_format)] *)
Definition _execute_construct_internal (query : string) (timeout : Q) (output_format : string)
  : M t Exn Value :=
  try_except
    (if String.eqb output_format "json" then ret (VStr triples_json)
     else if String.eqb output_format "turtle" then
       ret (VStr ("# Constructed triples" +:+ String LF EmptyString))
     else ret (VTriples []))
    (fun e => raise (QueryExecutionError
                       ("Error executing CONSTRUCT query: " +:+ str_exn e))).

(** [_execute_ask_internal(query, timeout)]; there is no format argument. *)
Definition _execute_ask_internal (query : string) (timeout : Q) : M t Exn Value :=
  try_except
    (ret (VBool false))
    (fun e => raise (QueryExecutionError
                       ("Error executing ASK query: " +:+ str_exn e))).

(** [_execute_describe_internal(query, timeout, output_format)] *)
Definition _execute_describe_internal (query : string) (timeout : Q) (output_format : string)
  : M t Exn Value :=
  try_except
    (if String.eqb output_format "json" then ret (VStr triples_json)
     else if String.eqb output_format "turtle" then
       ret (VStr ("# Description triples" +:+ String LF EmptyString))
     else ret (VTriples []))
    (fun e => raise (QueryExecutionError
                       ("Error executing DESCRIBE query: " +:+ str_exn e))).

(** The statistics update at the end of a successful [execute]. *)
Definition track (execution_time : Q) : M t Exn unit :=
  modify (fun self =>
    {| rdf_loader := rdf_loader self;
       default_timeout := default_timeout self;
       query_count := (query_count self + 1)%Z;
       total_query_time := (total_query_time self + execution_time)%Q |}).

(** [execute(query, timeout, output_format, validate)].  [start_time] and
    [end_time] are the two readings of [time.time()]. *)
Definition execute (start_time end_time : Q) (query : string) (timeout : option Q)
    (output_format : string) (validate : bool) : M t Exn Value :=
  try_except
    ((if validate then lift (_validate_query_syntax query) else ret tt) ;;;
     let query_type := _detect_query_type query in
     self <- get ;;
     let timeout :=
       match timeout with
       | None =>
           let triple_count :=
             match rdf_loader self with
             | Some loader => Some (RDFLoader.get_triple_count loader)
             | None => None
             end in
           _calculate_timeout self triple_count
       | Some timeout => timeout
       end in
     result <- match query_type with
               | SELECT => _execute_select_internal query timeout output_format
               | CONSTRUCT => _execute_construct_internal query timeout output_format
               | ASK => _execute_ask_internal query timeout
               | DESCRIBE => _execute_describe_internal query timeout output_format
               | UNKNOWN =>
                   raise (QuerySyntaxError
                            ("Unsupported query type: " +:+ str_QueryType query_type))
               end ;;
     let execution_time := (end_time - start_time)%Q in
     track execution_time ;;;
     ret result)
    (fun e =>
       match e with
       | QuerySyntaxError _ | QueryTimeoutError _ | QueryExecutionError _ => raise e
       | _ => raise (QueryExecutionError
                       ("Unexpected error executing query: " +:+ str_exn e))
       end).

End SPARQLQueryEngine.

(** ** validator.py *)

(** [class SeverityLevel] *)
Module SeverityLevel.

Definition VIOLATION : string := "http://www.w3.org/ns/shacl#Violation".
Definition WARNING : string := "http://www.w3.org/ns/shacl#Warning".
Definition INFO : string := "http://www.w3.org/ns/shacl#Info".

(** [get_label(severity_uri)] *)
Definition get_label (severity_uri : string) : string :=
  if String.eqb severity_uri VIOLATION then "Violation"
  else if String.eqb severity_uri WARNING then "Warning"
  else if String.eqb severity_uri INFO then "Info"
  else "Unknown".

(** [all_levels()] *)
Definition all_levels : list string := [VIOLATION; WARNING; INFO].

End SeverityLevel.

(** [class ValidationResult]; [timestamp] is the reading of
    [datetime.now()] taken by the constructor. *)
Module ValidationResult.

Record t : Type := {
  focus_node : string;
  result_path : option string;
  value : option string;
  message : string;
  severity : string;
  source_constraint : option string;
  source_shape : option string;
  timestamp : Z
}.

End ValidationResult.

(** [class ValidationReport] *)
Module ValidationReport.

Record t : Type := {
  conforms : bool;
  results : list ValidationResult.t;
  timestamp : Z;
  shapes_loaded : list string;
  data_sources : list string
}.

(** [ValidationReport(conforms)], built at time [now]. *)
Definition init (conforms : bool) (now : Z) : t :=
  {| conforms := conforms;
     results := [];
     timestamp := now;
     shapes_loaded := [];
     data_sources := [] |}.

(** [self.results.append(result)] *)
Definition append_result (self : t) (result : ValidationResult.t) : t :=
  {| conforms := conforms self;
     results := results self ++ [result];
     timestamp := timestamp self;
     shapes_loaded := shapes_loaded self;
     data_sources := data_sources self |}.

(** [self.conforms = b] *)
Definition set_conforms (self : t) (b : bool) : t :=
  {| conforms := b;
     results := results self;
     timestamp := timestamp self;
     shapes_loaded := shapes_loaded self;
     data_sources := data_sources self |}.

(** [add_result(result)] *)
Definition add_result (self : t) (result : ValidationResult.t) : t :=
  let self := append_result self result in
  if String.eqb (ValidationResult.severity result) SeverityLevel.VIOLATION
  then set_conforms self false
  else self.

(** A sequence of [add_result] calls, in order. *)
Definition add_results (self : t) (rs : list ValidationResult.t) : t :=
  fold_left add_result rs self.

(** [get_results_by_severity(severity)] *)
Definition get_results_by_severity (self : t) (severity : string) : list ValidationResult.t :=
  List.filter (fun r => String.eqb (ValidationResult.severity r) severity) (results self).

Definition get_violations (self : t) : list ValidationResult.t :=
  get_results_by_severity self SeverityLevel.VIOLATION.

Definition get_warnings (self : t) : list ValidationResult.t :=
  get_results_by_severity self SeverityLevel.WARNING.

Definition get_info (self : t) : list ValidationResult.t :=
  get_results_by_severity self SeverityLevel.INFO.

(** The dict returned by [get_summary()]; the entry ['timestamp'] keeps the
    time instead of its ISO rendering. *)
Record Summary : Type := {
  s_conforms : bool;
  total_results : Z;
  violation_count : Z;
  warning_count : Z;
  info_count : Z;
  s_timestamp : Z;
  s_shapes_loaded : Z;
  s_data_sources : Z
}.

(** [len(l)] *)
Definition len {A} (l : list A) : Z := Z.of_nat (length l).

(** [get_summary()] *)
Definition get_summary (self : t) : Summary :=
  {| s_conforms := conforms self;
     total_results := len (results self);
     violation_count := len (get_violations self);
     warning_count := len (get_warnings self);
     info_count := len (get_info self);
     s_timestamp := timestamp self;
     s_shapes_loaded := len (shapes_loaded self);
     s_data_sources := len (data_sources self) |}.

End ValidationReport.

(** [class SHACLValidator]: the methods that read a report. *)
Module SHACLValidator.

(** [is_valid(report)] *)
Definition is_valid (report : ValidationReport.t) : bool :=
  ValidationReport.conforms report
  && (ValidationReport.len (ValidationReport.get_violations report) =? 0)%Z.

(** [focus_nodes[k] += 1] on a [defaultdict(int)]; the dict keeps its keys
    in the order of their first insertion. *)
Fixpoint incr (k : string) (d : list (string * Z)) : list (string * Z) :=
  match d with
  | [] => [(k, (0 + 1)%Z)]
  | (k', n) :: d' =>
      if String.eqb k' k then (k', (n + 1)%Z) :: d' else (k', n) :: incr k d'
  end.

(** The loop that counts the results of each focus node. *)
Definition count_focus_nodes (rs : list ValidationResult.t) : list (string * Z) :=
  fold_left (fun d r => incr (ValidationResult.focus_node r) d) rs [].

(** [max(items, key=lambda x: x[1])] with [best] the largest so far: a later
    item replaces it only when strictly larger. *)
Fixpoint max_from (best : string * Z) (items : list (string * Z)) : string * Z :=
  match items with
  | [] => best
  | x :: rest => if (snd best <? snd x)%Z then max_from x rest else max_from best rest
  end.

(** [max(d.items(), key=...)[0] if d else None] *)
Definition most_affected (d : list (string * Z)) : option string :=
  match d with
  | [] => None
  | x :: rest => Some (fst (max_from x rest))
  end.

(** The dict returned by [get_summary(report)]: the report's own summary
    and the added entries.  The two percentage entries are rounded floating
    point quotients and are left out. *)
Record Summary : Type := {
  base : ValidationReport.Summary;
  affected_nodes : Z;
  most_affected_node : option string
}.

(** [get_summary(report)] *)
Definition get_summary (report : ValidationReport.t) : Summary :=
  let summary := ValidationReport.get_summary report in
  let focus_nodes := count_focus_nodes (ValidationReport.results report) in
  {| base := summary;
     affected_nodes := ValidationReport.len focus_nodes;
     most_affected_node := most_affected focus_nodes |}.

End SHACLValidator.

(** * Properties *)

(** ** Validation reports *)

Section ReportFacts.
Import ValidationReport.

Implicit Types (rep : ValidationReport.t) (r v w : ValidationResult.t).
Implicit Types (rs : list ValidationResult.t).

Lemma add_result_results rep r :
  results (add_result rep r) = results rep ++ [r].
Proof.
  unfold add_result.
  destruct (String.eqb _ _); reflexivity.
Qed.

Lemma add_result_violation rep v :
  ValidationResult.severity v = SeverityLevel.VIOLATION ->
  conforms (add_result rep v) = false.
Proof.
  intros Hv. unfold add_result. rewrite Hv. reflexivity.
Qed.

Lemma add_result_other rep r :
  ValidationResult.severity r <> SeverityLevel.VIOLATION ->
  conforms (add_result rep r) = conforms rep.
Proof.
  intros Hr. unfold add_result.
  destruct (String.eqb_spec (ValidationResult.severity r) SeverityLevel.VIOLATION) as [E|_].
  - contradiction.
  - reflexivity.
Qed.

(** [add_result] never raises the flag: a false flag stays false. *)
Lemma add_result_keeps_false rep r :
  conforms rep = false -> conforms (add_result rep r) = false.
Proof.
  intros Hc. unfold add_result.
  destruct (String.eqb _ _); simpl; [reflexivity | exact Hc].
Qed.

Lemma add_results_keeps_false rs : forall rep,
  conforms rep = false -> conforms (add_results rep rs) = false.
Proof.
  induction rs as [|r rs IH]; intros rep Hc; simpl.
  - exact Hc.
  - apply IH, add_result_keeps_false, Hc.
Qed.

Lemma add_results_app rep rs1 rs2 :
  add_results rep (rs1 ++ rs2) = add_results (add_results rep rs1) rs2.
Proof. unfold add_results. apply fold_left_app. Qed.

Lemma add_results_results rs : forall rep,
  results (add_results rep rs) = results rep ++ rs.
Proof.
  induction rs as [|r rs IH]; intros rep; simpl.
  - symmetry. apply app_nil_r.
  - rewrite IH, add_result_results, <- app_assoc. reflexivity.
Qed.

End ReportFacts.

(** C1.  In any sequence of [add_result] calls on any report, once a result
    whose severity is the Violation IRI has been added the flag [conforms] is
    false, and it is still false after every further call; every call
    appends exactly its argument to [results] (so adding the same result
    twice makes the list two longer); and adding a result of Warning or Info
    severity leaves [conforms] as it was. *)
Theorem add_result_conforms_invariant
    (rep : ValidationReport.t) (before after : list ValidationResult.t)
    (v w : ValidationResult.t)
    (Hv : ValidationResult.severity v = SeverityLevel.VIOLATION)
    (Hw : ValidationResult.severity w = SeverityLevel.WARNING \/
          ValidationResult.severity w = SeverityLevel.INFO) :
  ValidationReport.conforms
    (ValidationReport.add_results rep (before ++ v :: after)) = false
  /\ ValidationReport.conforms
       (ValidationReport.add_result (ValidationReport.add_result rep v) v) = false
  /\ length (ValidationReport.results
       (ValidationReport.add_result (ValidationReport.add_result rep v) v))
     = S (S (length (ValidationReport.results rep)))
  /\ (forall r, ValidationReport.results (ValidationReport.add_result rep r)
                = ValidationReport.results rep ++ [r])
  /\ ValidationReport.conforms (ValidationReport.add_result rep w)
     = ValidationReport.conforms rep.
Proof.
  repeat split.
  - rewrite add_results_app. simpl.
    apply add_results_keeps_false, add_result_violation, Hv.
  - apply add_result_keeps_false, add_result_violation, Hv.
  - rewrite !add_result_results, !length_app. simpl. lia.
  - intros r. apply add_result_results.
  - apply add_result_other.
    destruct Hw as [E|E]; rewrite E; discriminate.
Qed.

(** A Violation and a Warning on the node [ex:Alice]. *)
Definition sample_violation : ValidationResult.t :=
  {| ValidationResult.focus_node := "http://example.org/Alice";
     ValidationResult.result_path := Some "http://example.org/age";
     ValidationResult.value := None;
     ValidationResult.message := "Missing required property";
     ValidationResult.severity := SeverityLevel.VIOLATION;
     ValidationResult.source_constraint := None;
     ValidationResult.source_shape := Some "http://example.org/PersonShape";
     ValidationResult.timestamp := 1%Z |}.

Definition sample_warning : ValidationResult.t :=
  {| ValidationResult.focus_node := "http://example.org/Alice";
     ValidationResult.result_path := None;
     ValidationResult.value := Some "x";
     ValidationResult.message := "Label is recommended";
     ValidationResult.severity := SeverityLevel.WARNING;
     ValidationResult.source_constraint := None;
     ValidationResult.source_shape := None;
     ValidationResult.timestamp := 2%Z |}.

Lemma add_result_conforms_invariant_witness :
  ValidationReport.conforms
    (ValidationReport.add_results (ValidationReport.init true 0)
       ([sample_warning] ++ sample_violation :: [sample_warning; sample_violation]))
  = false.
Proof.
  apply (add_result_conforms_invariant (ValidationReport.init true 0)
           [sample_warning] [sample_warning; sample_violation]
           sample_violation sample_warning).
  - reflexivity.
  - left. reflexivity.
Defined.

(** C8.  A report built from an empty one by adding one Violation and one
    Warning on the same focus node, in either order, has the summary
    [total_results = 2], [violation_count = 1], [warning_count = 1],
    [affected_nodes = 1] and [conforms = False]. *)
Theorem get_summary_violation_and_warning
    (rep0 : ValidationReport.t) (v w : ValidationResult.t)
    (Hempty : ValidationReport.results rep0 = [])
    (Hv : ValidationResult.severity v = SeverityLevel.VIOLATION)
    (Hw : ValidationResult.severity w = SeverityLevel.WARNING)
    (Hnode : ValidationResult.focus_node v = ValidationResult.focus_node w) :
  forall rs, rs = [v; w] \/ rs = [w; v] ->
  let summary := SHACLValidator.get_summary (ValidationReport.add_results rep0 rs) in
  ValidationReport.total_results (SHACLValidator.base summary) = 2%Z
  /\ ValidationReport.violation_count (SHACLValidator.base summary) = 1%Z
  /\ ValidationReport.warning_count (SHACLValidator.base summary) = 1%Z
  /\ SHACLValidator.affected_nodes summary = 1%Z
  /\ ValidationReport.s_conforms (SHACLValidator.base summary) = false.
Proof.
  intros rs Hrs summary. subst summary.
  unfold SHACLValidator.get_summary, ValidationReport.get_summary,
    ValidationReport.get_violations, ValidationReport.get_warnings,
    ValidationReport.get_results_by_severity, SHACLValidator.count_focus_nodes.
  cbn [SHACLValidator.base SHACLValidator.affected_nodes
       ValidationReport.total_results ValidationReport.violation_count
       ValidationReport.warning_count ValidationReport.s_conforms].
  rewrite add_results_results, Hempty. cbn [app].
  assert (Hc : ValidationReport.conforms (ValidationReport.add_results rep0 rs) = false).
  { destruct Hrs as [-> | ->].
    - apply (add_results_keeps_false [w]), add_result_violation, Hv.
    - change [w; v] with ([w] ++ [v]). rewrite add_results_app.
      apply add_result_violation, Hv. }
  destruct Hrs as [-> | ->];
    cbn [List.filter fold_left SHACLValidator.incr];
    rewrite Hv, Hw, Hnode, !String.eqb_refl; cbn; repeat split; exact Hc.
Qed.

Lemma get_summary_violation_and_warning_witness :
  SHACLValidator.affected_nodes
    (SHACLValidator.get_summary
       (ValidationReport.add_results (ValidationReport.init true 0)
          [sample_violation; sample_warning])) = 1%Z.
Proof.
  apply (get_summary_violation_and_warning (ValidationReport.init true 0)
           sample_violation sample_warning eq_refl eq_refl eq_refl eq_refl
           [sample_violation; sample_warning] (or_introl eq_refl)).
Defined.

(** ** Query engine: timeout policy *)

(** C2.  [_calculate_timeout] of any engine: a count below 10000 gives 5
    seconds, a count from 10000 up to but not including 100000 gives 15, a
    count of 100000 or more and an unknown count give the engine's default
    timeout; on an engine built with the constructor's default of 30 seconds
    the values at 9999, 10000, 99999, 100000 and [None] are 5, 15, 15, 30
    and 30. *)
Theorem calculate_timeout_tiers (self : SPARQLQueryEngine.t) (n : Z) :
  ((n < 10000)%Z -> SPARQLQueryEngine._calculate_timeout self (Some n) = 5%Q)
  /\ ((10000 <= n < 100000)%Z ->
      SPARQLQueryEngine._calculate_timeout self (Some n) = 15%Q)
  /\ ((100000 <= n)%Z ->
      SPARQLQueryEngine._calculate_timeout self (Some n)
      = SPARQLQueryEngine.default_timeout self)
  /\ SPARQLQueryEngine._calculate_timeout self None
     = SPARQLQueryEngine.default_timeout self
  /\ (forall loader,
        let engine :=
          SPARQLQueryEngine.init loader SPARQLQueryEngine.default_default_timeout in
        SPARQLQueryEngine._calculate_timeout engine (Some 9999%Z) = 5%Q
        /\ SPARQLQueryEngine._calculate_timeout engine (Some 10000%Z) = 15%Q
        /\ SPARQLQueryEngine._calculate_timeout engine (Some 99999%Z) = 15%Q
        /\ SPARQLQueryEngine._calculate_timeout engine (Some 100000%Z) = 30%Q
        /\ SPARQLQueryEngine._calculate_timeout engine None = 30%Q).
Proof.
  unfold SPARQLQueryEngine._calculate_timeout.
  split; [|split; [|split; [|split]]].
  - intros H. apply Z.ltb_lt in H. rewrite H. reflexivity.
  - intros [Hlo Hhi].
    destruct (Z.ltb_spec n 10000) as [Hlt|_]; [lia|].
    apply Z.ltb_lt in Hhi. rewrite Hhi. reflexivity.
  - intros Hge.
    destruct (Z.ltb_spec n 10000) as [Hlt|_]; [lia|].
    destruct (Z.ltb_spec n 100000) as [Hlt|_]; [lia|].
    reflexivity.
  - reflexivity.
  - intros loader. cbn. repeat split.
Qed.

Lemma calculate_timeout_tiers_witness :
  SPARQLQueryEngine._calculate_timeout
    (SPARQLQueryEngine.init None 30%Q) (Some 5000%Z) = 5%Q
  /\ SPARQLQueryEngine._calculate_timeout
       (SPARQLQueryEngine.init None 30%Q) (Some 50000%Z) = 15%Q
  /\ SPARQLQueryEngine._calculate_timeout
       (SPARQLQueryEngine.init None 30%Q) (Some 150000%Z) = 30%Q.
Proof.
  split; [|split].
  - apply (proj1 (calculate_timeout_tiers (SPARQLQueryEngine.init None 30%Q) 5000)).
    reflexivity.
  - apply (proj1 (proj2 (calculate_timeout_tiers (SPARQLQueryEngine.init None 30%Q) 50000))).
    split; [discriminate | reflexivity].
  - apply (proj1 (proj2 (proj2
             (calculate_timeout_tiers (SPARQLQueryEngine.init None 30%Q) 150000)))).
    discriminate.
Defined.

(** ** Query engine: syntax validation *)

Section ValidateFacts.
Import PyStr Exc SPARQLQueryEngine.

(** The five grounds on which [_validate_query_syntax] rejects a query. *)
Definition rejected (query : string) : Prop :=
  strip query = ""
  \/ _detect_query_type query = UNKNOWN
  \/ ((_detect_query_type query = SELECT \/ _detect_query_type query = CONSTRUCT)
      /\ contains "WHERE" (upper query) = false)
  \/ (_detect_query_type query = ASK
      /\ contains "WHERE" (upper query) = false
      /\ has_char "{" query = false)
  \/ count "{" query <> count "}" query.

Lemma validate_query_syntax_cases query :
  (rejected query /\ exists msg, _validate_query_syntax query = Raise (QuerySyntaxError msg))
  \/ (~ rejected query /\ _validate_query_syntax query = Return tt).
Proof.
  unfold rejected, _validate_query_syntax.
  destruct (String.eqb_spec (strip query) "") as [He|He].
  { left. split; [left; exact He | eexists; reflexivity]. }
  destruct (_detect_query_type query) eqn:Ht; cbn [QueryType_eqb orb andb].
  5: { left. split; [right; left; reflexivity | eexists; reflexivity]. }
  all: destruct (contains "WHERE" (upper query)) eqn:Hw; cbn [negb andb].
  all: try (left; split; [ do 2 right; left; split; [auto | reflexivity]
                         | eexists; reflexivity ]).
  all: try destruct (has_char "{" query) eqn:Hb; cbn [negb andb].
  all: try (left; split; [ do 3 right; left; repeat split; reflexivity
                         | eexists; reflexivity ]).
  all: destruct (Nat.eqb_spec (count "{" query) (count "}" query)) as [Hc|Hc];
    cbn [negb].
  all: try (left; split; [ do 4 right; exact Hc | eexists; reflexivity ]).
  all: right; split; [ | reflexivity ].
  all: intros [H | [H | [[[H | H] H'] | [[H [H' H'']] | H]]]];
    congruence.
Qed.

End ValidateFacts.

(** C4.  [_validate_query_syntax] raises a [QuerySyntaxError] exactly when
    the query is empty after stripping, or classifies as UNKNOWN, or is a
    SELECT or CONSTRUCT query whose upper-cased text does not contain WHERE,
    or is an ASK query with neither WHERE (in the upper-cased text) nor an
    opening brace, or has different numbers of opening and closing braces;
    otherwise it returns normally. *)
Theorem validate_query_syntax_raises_iff (query : string) :
  (rejected query <->
   exists msg, SPARQLQueryEngine._validate_query_syntax query
               = Exc.Raise (SPARQLQueryEngine.QuerySyntaxError msg))
  /\ (~ rejected query <->
      SPARQLQueryEngine._validate_query_syntax query = Exc.Return tt).
Proof.
  destruct (validate_query_syntax_cases query) as [[Hr [msg Hm]] | [Hn Hok]].
  - split; split.
    + intros _. exists msg. exact Hm.
    + intros _. exact Hr.
    + intros Hn. contradiction.
    + intros Hok. rewrite Hok in Hm. discriminate.
  - split; split.
    + intros Hr. contradiction.
    + intros [msg Hm]. rewrite Hok in Hm. discriminate.
    + intros _. exact Hok.
    + intros _. exact Hn.
Qed.

Lemma validate_query_syntax_raises_iff_witness :
  exists msg, SPARQLQueryEngine._validate_query_syntax "SELECT ?s ?p ?o"
              = Exc.Raise (SPARQLQueryEngine.QuerySyntaxError msg).
Proof.
  apply (proj1 (proj1 (validate_query_syntax_raises_iff "SELECT ?s ?p ?o"))).
  right. right. left. split; [left|]; reflexivity.
Defined.

(** ** Query engine: classification *)

Section ClassifyFacts.
Import PyStr Exc SPARQLQueryEngine.

(** The text that [_detect_query_type] tests: upper-cased, comments removed,
    lines joined and stripped ([query_clean] in the source). *)
Definition query_clean (query : string) : string :=
  strip (join " " (List.map (fun line => List.hd "" (split "#" line))
                            (split LF (upper (strip query))))).

(** The first white-space delimited token of a text, [""] if there is none. *)
Definition first_token (s : string) : string := List.hd "" (split_ws s).

(** The four query forms. *)
Definition keywords : list string := ["SELECT"; "CONSTRUCT"; "ASK"; "DESCRIBE"].

Lemma isspace_upper_char c : isspace (upper_char c) = isspace c.
Proof. destruct c as [[] [] [] [] [] [] [] []]; reflexivity. Qed.

Lemma upper_lstrip s : upper (lstrip_by isspace s) = lstrip_by isspace (upper s).
Proof.
  induction s as [|c s IH]; simpl; [reflexivity|].
  rewrite isspace_upper_char. destruct (isspace c); [exact IH | reflexivity].
Qed.

Lemma upper_rstrip s : upper (rstrip_by isspace s) = rstrip_by isspace (upper s).
Proof.
  induction s as [|c s IH]; simpl; [reflexivity|].
  rewrite <- IH, isspace_upper_char.
  destruct (rstrip_by isspace s); simpl; [destruct (isspace c)|]; reflexivity.
Qed.

Lemma upper_strip s : upper (strip s) = strip (upper s).
Proof. unfold strip, strip_by. rewrite upper_lstrip, upper_rstrip. reflexivity. Qed.

Lemma prefix_nil t : String.prefix "" t = true.
Proof. destruct t; reflexivity. Qed.

(** What [lstrip] returns does not start with a stripped character. *)
Lemma lstrip_by_head p s c r : lstrip_by p s = String c r -> p c = false.
Proof.
  induction s as [|d s IH]; simpl; [discriminate|].
  destruct (p d) eqn:Hd; [exact IH|].
  intros H. injection H as -> _. exact Hd.
Qed.

(** The first token of a text that does not start with white space is a
    prefix of the text. *)
Lemma first_token_prefix s :
  match s with String c _ => isspace c = false | EmptyString => True end ->
  String.prefix (first_token s) s = true.
Proof.
  unfold first_token.
  induction s as [|c s IH]; [reflexivity|].
  intros Hc. cbn [split_ws]. rewrite Hc.
  assert (Hcc : forall t, String.prefix (String c "") (String c t) = true).
  { intros t. simpl. destruct (ascii_dec c c); [apply prefix_nil | contradiction]. }
  destruct s as [|c' s']; [apply Hcc|].
  destruct (isspace c') eqn:Hc'; [apply Hcc|].
  specialize (IH eq_refl).
  destruct (split_ws (String c' s')) as [|h t]; [apply Hcc|].
  cbn [List.hd] in *. cbn [String.prefix].
  destruct (ascii_dec c c); [exact IH | contradiction].
Qed.

Lemma first_token_clean_prefix query :
  String.prefix (first_token (query_clean query)) (query_clean query) = true.
Proof.
  apply first_token_prefix.
  destruct (query_clean query) as [|c r] eqn:E; [exact I|].
  unfold query_clean, strip, strip_by in E.
  exact (lstrip_by_head _ _ _ _ E).
Qed.

(** A prefix of a prefix. *)
Lemma prefix_trans a b c :
  String.prefix a b = true -> String.prefix b c = true -> String.prefix a c = true.
Proof.
  revert b c. induction a as [|x a IH]; intros b c; [intros; apply prefix_nil|].
  destruct b as [|y b]; [simpl; discriminate|].
  destruct c as [|z c]; [simpl; intros _ H; discriminate H|].
  simpl. destruct (ascii_dec x y) as [->|]; [|discriminate].
  destruct (ascii_dec y z) as [->|]; [|discriminate].
  destruct (ascii_dec z z); [apply IH | contradiction].
Qed.

Lemma prefix_refl a : String.prefix a a = true.
Proof.
  induction a as [|x a IH]; [reflexivity|].
  simpl. destruct (ascii_dec x x); [exact IH | contradiction].
Qed.

(** [_detect_query_type] as a function of the cleaned text. *)
Lemma detect_query_type_unfold query :
  _detect_query_type query =
  if startswith "SELECT" (query_clean query) then SELECT
  else if startswith "CONSTRUCT" (query_clean query) then CONSTRUCT
  else if startswith "ASK" (query_clean query) then ASK
  else if startswith "DESCRIBE" (query_clean query) then DESCRIBE
  else UNKNOWN.
Proof. reflexivity. Qed.

(** The prefix test decides the class: no keyword starts like another. *)
Lemma detect_query_type_startswith query (t : QueryType) :
  t <> UNKNOWN ->
  startswith (value t) (query_clean query) = true ->
  _detect_query_type query = t.
Proof.
  intros Ht. rewrite detect_query_type_unfold. unfold startswith.
  destruct (query_clean query) as [|c r]; [destruct t; discriminate|].
  destruct t; try contradiction; cbn [value]; intros H;
    cbn [String.prefix] in H;
    match type of H with
    | match ascii_dec ?a c with _ => _ end = true =>
        destruct (ascii_dec a c) as [<-|]; [|discriminate]
    end;
    cbn [String.prefix] in *; cbn [String.prefix]; 
    repeat match goal with
    | |- context [ascii_dec ?a ?b] => 
        match a with
        | b => fail 1
        | _ => let E := fresh in destruct (ascii_dec a b) as [E|E]; [discriminate E|]
        end
    end; try rewrite H; try reflexivity.
  all: destruct (ascii_dec _ _); [rewrite H; reflexivity | contradiction].
Qed.

Lemma detect_query_type_unknown query :
  _detect_query_type query = UNKNOWN <->
  Forall (fun kw => startswith kw (query_clean query) = false) keywords.
Proof.
  rewrite detect_query_type_unfold. unfold keywords. split.
  - destruct (startswith "SELECT" _) eqn:E1; [discriminate|].
    destruct (startswith "CONSTRUCT" _) eqn:E2; [discriminate|].
    destruct (startswith "ASK" _) eqn:E3; [discriminate|].
    destruct (startswith "DESCRIBE" _) eqn:E4; [discriminate|].
    intros _. repeat constructor; assumption.
  - intros H.
    inversion_clear H as [|? ? E1 H1]. inversion_clear H1 as [|? ? E2 H2].
    inversion_clear H2 as [|? ? E3 H3]. inversion_clear H3 as [|? ? E4 _].
    rewrite E1, E2, E3, E4. reflexivity.
Qed.

(** The class depends on the upper-cased text only. *)
Lemma detect_query_type_case query query' :
  upper query' = upper query -> _detect_query_type query' = _detect_query_type query.
Proof.
  intros H. rewrite !detect_query_type_unfold. unfold query_clean.
  rewrite !upper_strip, H. reflexivity.
Qed.

End ClassifyFacts.

(** A query whose first token only starts with a keyword. *)
Definition selected_query : string := "SELECTED ?s WHERE { ?s ?p ?o }".

(** C3, as stated, fails: the first token of [selected_query] is SELECTED,
    which is none of the four keywords, yet the query classifies as SELECT
    and not as UNKNOWN, and [_validate_query_syntax] accepts it. *)
Lemma detect_query_type_first_token_counterexample :
  first_token (query_clean selected_query) = "SELECTED"
  /\ ~ In (first_token (query_clean selected_query)) keywords
  /\ SPARQLQueryEngine._detect_query_type selected_query = SPARQLQueryEngine.SELECT
  /\ SPARQLQueryEngine._detect_query_type selected_query <> SPARQLQueryEngine.UNKNOWN
  /\ SPARQLQueryEngine._validate_query_syntax selected_query = Exc.Return tt.
Proof.
  repeat split; try reflexivity; try discriminate.
  cbv. intros [H|[H|[H|[H|[]]]]]; discriminate H.
Qed.

(** C3, amended.  [_detect_query_type] is a function of the query string
    (one class for every string), and it matches by prefix: with the text
    stripped, upper-cased, freed of comments, joined and stripped again, a
    text that starts with the characters of SELECT, CONSTRUCT, ASK or
    DESCRIBE has that class, whether or not the keyword ends the first
    token; in particular a text whose first token is the keyword has that
    class.  The class is UNKNOWN exactly when the text starts with none of
    the four keywords.  Two queries with the same upper-cased text have the
    same class, and ["ask where { ?s ?p ?o }"] is ASK.  A query of class
    UNKNOWN is rejected by [_validate_query_syntax] with a
    [QuerySyntaxError]. *)
Theorem detect_query_type_prefix_classification (query : string) :
  (exists t, SPARQLQueryEngine._detect_query_type query = t
             /\ forall t', SPARQLQueryEngine._detect_query_type query = t' -> t' = t)
  /\ (forall t, t <> SPARQLQueryEngine.UNKNOWN ->
        PyStr.startswith (SPARQLQueryEngine.value t) (query_clean query) = true ->
        SPARQLQueryEngine._detect_query_type query = t)
  /\ (forall t, t <> SPARQLQueryEngine.UNKNOWN ->
        first_token (query_clean query) = SPARQLQueryEngine.value t ->
        SPARQLQueryEngine._detect_query_type query = t)
  /\ (SPARQLQueryEngine._detect_query_type query = SPARQLQueryEngine.UNKNOWN <->
      Forall (fun kw => PyStr.startswith kw (query_clean query) = false) keywords)
  /\ (forall query', PyStr.upper query' = PyStr.upper query ->
        SPARQLQueryEngine._detect_query_type query'
        = SPARQLQueryEngine._detect_query_type query)
  /\ SPARQLQueryEngine._detect_query_type "ask where { ?s ?p ?o }"
     = SPARQLQueryEngine.ASK
  /\ (SPARQLQueryEngine._detect_query_type query = SPARQLQueryEngine.UNKNOWN ->
      exists msg, SPARQLQueryEngine._validate_query_syntax query
                  = Exc.Raise (SPARQLQueryEngine.QuerySyntaxError msg)).
Proof.
  split; [|split; [|split; [|split; [|split; [|split]]]]].
  - eexists. split; [reflexivity | intros t' H; symmetry; exact H].
  - intros t Ht H. apply detect_query_type_startswith; assumption.
  - intros t Ht H. apply detect_query_type_startswith; [assumption|].
    unfold PyStr.startswith. rewrite <- H. apply first_token_clean_prefix.
  - apply detect_query_type_unknown.
  - intros query' H. apply detect_query_type_case, H.
  - reflexivity.
  - intros H.
    destruct (validate_query_syntax_cases query) as [[_ Hm] | [Hn _]];
      [exact Hm|].
    exfalso. apply Hn. right. left. exact H.
Qed.

Lemma detect_query_type_prefix_classification_witness :
  SPARQLQueryEngine._detect_query_type "  Select ?s where { ?s ?p ?o }"
  = SPARQLQueryEngine.SELECT
  /\ exists msg, SPARQLQueryEngine._validate_query_syntax "INVALID ?s WHERE { ?s ?p ?o }"
                 = Exc.Raise (SPARQLQueryEngine.QuerySyntaxError msg).
Proof.
  split.
  - apply (proj1 (proj2 (proj2
      (detect_query_type_prefix_classification "  Select ?s where { ?s ?p ?o }")))).
    + discriminate.
    + reflexivity.
  - apply (proj2 (proj2 (proj2 (proj2 (proj2 (proj2
      (detect_query_type_prefix_classification "INVALID ?s WHERE { ?s ?p ?o }"))))))).
    reflexivity.
Defined.

(** ** Loader: resolving prefixed names *)

Section ResolveFacts.
Import PyStr Exc RDFLoader.

Lemma has_char_app c p r : has_char c (p +:+ String c r) = true.
Proof.
  induction p as [|d p IH]; simpl.
  - rewrite Ascii.eqb_refl. reflexivity.
  - rewrite IH. apply orb_true_r.
Qed.

(** [split(':', 1)] cuts at the first separator. *)
Lemma split_once_app c p r :
  has_char c p = false -> split_once c (p +:+ String c r) = Some (p, r).
Proof.
  induction p as [|d p IH]; simpl.
  - intros _. rewrite Ascii.eqb_refl. reflexivity.
  - intros H. apply orb_false_iff in H as [Hd Hp].
    rewrite Hd, (IH Hp). reflexivity.
Qed.

(** A text with a separator has a first one. *)
Lemma has_char_split c s :
  has_char c s = true -> exists p r, s = p +:+ String c r /\ has_char c p = false.
Proof.
  induction s as [|d s IH]; simpl; [discriminate|].
  destruct (Ascii.eqb_spec d c) as [->|Hd].
  - intros _. exists "", s. split; reflexivity.
  - simpl. intros H. destruct (IH H) as (p & r & -> & Hp).
    exists (String d p), r. split; [reflexivity|].
    simpl. rewrite Hp. destruct (Ascii.eqb_spec d c); [contradiction | reflexivity].
Qed.

Lemma resolve_uri_no_colon self s :
  has_char ":" s = false -> resolve_uri self s = Return s.
Proof. intros H. unfold resolve_uri. rewrite H. reflexivity. Qed.

Lemma resolve_uri_registered self p r ns :
  has_char ":" p = false -> namespaces self !! p = Some ns ->
  resolve_uri self (p +:+ ":" +:+ r) = Return (ns +:+ r).
Proof.
  intros Hp Hns. unfold resolve_uri.
  change (":" +:+ r) with (String ":" r).
  rewrite has_char_app, (split_once_app _ _ _ Hp), Hns. reflexivity.
Qed.

Lemma resolve_uri_unregistered self p r :
  has_char ":" p = false -> namespaces self !! p = None ->
  resolve_uri self (p +:+ ":" +:+ r)
  = Raise (NamespaceError ("Undefined namespace prefix: " +:+ p)).
Proof.
  intros Hp Hns. unfold resolve_uri.
  change (":" +:+ r) with (String ":" r).
  rewrite has_char_app, (split_once_app _ _ _ Hp), Hns. reflexivity.
Qed.

End ResolveFacts.

(** C9.  An input [prefix:rest], where [prefix] is the text before the first
    colon, makes [resolve_uri] raise a [NamespaceError] whenever [prefix] is
    not a key of the namespace table; so do ["http://example.org/x"] when
    [http] is not registered and ["_:b1"] when [_] is not.  Every input with
    a colon has that form, and an input without a colon is returned
    unchanged. *)
Theorem resolve_uri_unregistered_prefix_raises
    (self : RDFLoader.t) (prefix rest : string)
    (Hprefix : PyStr.has_char ":" prefix = false)
    (Hunregistered : RDFLoader.namespaces self !! prefix = None) :
  RDFLoader.resolve_uri self (prefix +:+ ":" +:+ rest)
  = Exc.Raise (RDFLoader.NamespaceError ("Undefined namespace prefix: " +:+ prefix))
  /\ (RDFLoader.namespaces self !! "http" = None ->
      RDFLoader.resolve_uri self "http://example.org/x"
      = Exc.Raise (RDFLoader.NamespaceError "Undefined namespace prefix: http"))
  /\ (RDFLoader.namespaces self !! "_" = None ->
      RDFLoader.resolve_uri self "_:b1"
      = Exc.Raise (RDFLoader.NamespaceError "Undefined namespace prefix: _"))
  /\ (forall s, PyStr.has_char ":" s = true ->
        exists p r, s = p +:+ ":" +:+ r /\ PyStr.has_char ":" p = false)
  /\ (forall s, PyStr.has_char ":" s = false ->
        RDFLoader.resolve_uri self s = Exc.Return s).
Proof.
  split; [|split; [|split; [|split]]].
  - apply resolve_uri_unregistered; assumption.
  - intros H. apply (resolve_uri_unregistered self "http" "//example.org/x" eq_refl H).
  - intros H. apply (resolve_uri_unregistered self "_" "b1" eq_refl H).
  - intros s H. apply has_char_split, H.
  - intros s H. apply resolve_uri_no_colon, H.
Qed.

Lemma resolve_uri_unregistered_prefix_raises_witness :
  RDFLoader.resolve_uri RDFLoader.init ("urn" +:+ ":" +:+ "isbn:0451450523")
  = Exc.Raise (RDFLoader.NamespaceError ("Undefined namespace prefix: " +:+ "urn")).
Proof.
  apply (resolve_uri_unregistered_prefix_raises RDFLoader.init "urn" "isbn:0451450523").
  - reflexivity.
  - reflexivity.
Defined.

(** ** Loader: loading files *)

Section LoadFacts.
Import PyStr Exc RDFLoader.

Variable env : Env.
Variable validate : bool.

(** What [load_file] makes of a path, as far as the file system decides it:
    the content it will commit, or the exception it will raise. *)
Definition file_outcome (file_path : string) : outcome Exn string :=
  let file_path := path_str env file_path in
  match node env file_path with
  | Absent => Raise (FileNotFoundError ("File not found: " +:+ file_path))
  | NotRegular => Raise (FileNotFoundError ("Path is not a file: " +:+ file_path))
  | Unreadable err =>
      Raise (RDFLoaderError ("Error loading file " +:+ file_path +:+ ": " +:+ err))
  | Regular c =>
      if validate then
        match _validate_turtle_syntax c file_path with
        | Return _ => Return c
        | Raise e => Raise e
        end
      else Return c
  | StatError err => Raise (BuiltinError err)
  end.

(** The loader after a successful [load_file] of [content] under the name
    [file_path]. *)
Definition commit (file_path content : string) (self : t) : t :=
  {| triples := triples self ++ [{| file := file_path; content := content |}];
     loaded_files := loaded_files self ++ [file_path];
     namespaces := fold_left register_line (split LF content) (namespaces self) |}.

(** The loader after [load_file] has been called on each path in order. *)
Definition load_all (file_paths : list string) (self : t) : t :=
  fold_left (fun st p => snd (load_file env p validate st)) file_paths self.

(** Whether a path loads. *)
Definition loads (file_path : string) : bool :=
  match file_outcome file_path with
  | Return _ => true
  | Raise _ => false
  end.

(** Whether [Path.exists()] answers on a path, instead of raising. *)
Definition stats (file_path : string) : bool :=
  match node env (path_str env file_path) with
  | StatError _ => false
  | _ => true
  end.

(** The paths before the first one on which [exists()] raises. *)
Fixpoint until_stat_error (file_paths : list string) : list string :=
  match file_paths with
  | [] => []
  | p :: rest => if stats p then p :: until_stat_error rest else []
  end.

Lemma validate_line_raises f n l e :
  validate_line f n l = Raise e -> exists m, e = TurtleSyntaxError m.
Proof.
  unfold validate_line.
  repeat match goal with
         | |- context [if ?b then _ else _] => destruct b
         end;
    intros H; try discriminate H; injection H as <-; eexists; reflexivity.
Qed.

Lemma validate_lines_raises f ls : forall n e,
  validate_lines f n ls = Raise e -> exists m, e = TurtleSyntaxError m.
Proof.
  induction ls as [|l ls IH]; intros n e; simpl; [discriminate|].
  destruct (validate_line f n l) eqn:E.
  - apply IH.
  - intros H. injection H as <-. exact (validate_line_raises _ _ _ _ E).
Qed.

(** [load_file] either commits the whole file or raises and leaves the
    loader as it found it. *)
Lemma load_file_spec file_path self :
  load_file env file_path validate self =
  match file_outcome file_path with
  | Return c => (Return true, commit (path_str env file_path) c self)
  | Raise e => (Raise e, self)
  end.
Proof.
  unfold load_file, file_outcome, read_text.
  destruct (node env (path_str env file_path)) as [| |err|c|err] eqn:E;
    try reflexivity.
  unfold try_except, bind, ret, lift.
  destruct validate; [|reflexivity].
  destruct (_validate_turtle_syntax c (path_str env file_path)) as [[]|e] eqn:V;
    [reflexivity|].
  destruct (validate_lines_raises _ _ _ _ V) as [m ->]. reflexivity.
Qed.

Lemma file_outcome_error_class file_path e :
  stats file_path = true ->
  file_outcome file_path = Raise e -> is_RDFLoaderError e = true.
Proof.
  unfold file_outcome, stats.
  destruct (node env (path_str env file_path)) as [| |err|c|err];
    intros Hs; try discriminate Hs;
    try (intros H; injection H as <-; reflexivity).
  destruct validate; [|discriminate].
  destruct (_validate_turtle_syntax c (path_str env file_path)) as [[]|e'] eqn:V;
    [discriminate|].
  intros H. injection H as <-.
  destruct (validate_lines_raises _ _ _ _ V) as [m ->]. reflexivity.
Qed.

Lemma load_all_cons p ps self :
  load_all (p :: ps) self = load_all ps (snd (load_file env p validate self)).
Proof. reflexivity. Qed.

Lemma load_all_app ps qs self :
  load_all (ps ++ qs) self = load_all qs (load_all ps self).
Proof. unfold load_all. apply fold_left_app. Qed.

Lemma file_outcome_stat_error file_path :
  stats file_path = false ->
  exists err,
    node env (path_str env file_path) = StatError err
    /\ file_outcome file_path = Raise (BuiltinError err).
Proof.
  unfold file_outcome, stats.
  destruct (node env (path_str env file_path)) as [| |err|c|err];
    try discriminate.
  intros _. exists err. split; reflexivity.
Qed.

(** With [continue_on_error], and when [exists()] answers on every path, the
    loop does not raise and sorts the paths. *)
Lemma load_files_loop_continue ps : forall succ failed self,
  Forall (fun p => stats p = true) ps ->
  load_files_loop env ps validate true succ failed self =
  (Return (succ ++ List.filter loads ps,
           failed ++ List.filter (fun p => negb (loads p)) ps),
   load_all ps self).
Proof.
  induction ps as [|p ps IH]; intros succ failed self Hps.
  - simpl. unfold ret. rewrite !app_nil_r. reflexivity.
  - inversion_clear Hps as [|? ? Hp Hps'].
    rewrite load_all_cons. cbn [load_files_loop List.filter].
    unfold bind at 1. unfold try_except, bind at 1.
    rewrite load_file_spec.
    destruct (file_outcome p) as [c|e] eqn:E.
    + assert (Hl : loads p = true) by (unfold loads; rewrite E; reflexivity).
      rewrite Hl. cbn. rewrite (IH _ _ _ Hps'), <- app_assoc. reflexivity.
    + assert (Hl : loads p = false) by (unfold loads; rewrite E; reflexivity).
      rewrite Hl, (file_outcome_error_class _ _ Hp E). cbn.
      rewrite (IH _ _ _ Hps'), <- app_assoc. reflexivity.
Qed.

(** With [continue_on_error] the loop ends at the first path on which
    [exists()] raises: the [OSError] is no loader error and is not caught. *)
Lemma load_files_loop_escape pre p post err : forall succ failed self,
  Forall (fun q => stats q = true) pre ->
  node env (path_str env p) = StatError err ->
  load_files_loop env (pre ++ p :: post) validate true succ failed self =
  (Raise (BuiltinError err), load_all pre self).
Proof.
  induction pre as [|q pre IH]; intros succ failed self Hpre Hp.
  - cbn [app load_files_loop]. unfold bind at 1. unfold try_except, bind at 1.
    rewrite load_file_spec. unfold file_outcome. rewrite Hp. reflexivity.
  - inversion_clear Hpre as [|? ? Hq Hpre'].
    cbn [app load_files_loop]. rewrite load_all_cons.
    unfold bind at 1. unfold try_except, bind at 1.
    rewrite load_file_spec.
    destruct (file_outcome q) as [c|e] eqn:E; cbn.
    + apply IH; assumption.
    + rewrite (file_outcome_error_class _ _ Hq E). cbn. apply IH; assumption.
Qed.

Lemma until_stat_error_all ps :
  Forall (fun p => stats p = true) ps -> until_stat_error ps = ps.
Proof.
  induction 1 as [|p ps Hp _ IH]; [reflexivity|].
  cbn [until_stat_error]. rewrite Hp, IH. reflexivity.
Qed.

Lemma until_stat_error_split ps :
  Forall (fun p => stats p = true) ps
  \/ exists p post,
       ps = until_stat_error ps ++ p :: post /\ stats p = false.
Proof.
  induction ps as [|q ps IH]; [left; constructor|].
  cbn [until_stat_error]. destruct (stats q) eqn:Hq.
  - destruct IH as [IH | (p & post & Heq & Hp)].
    + left. constructor; assumption.
    + right. exists p, post. split; [|exact Hp]. cbn [app]. f_equal. exact Heq.
  - right. exists q, ps. split; [reflexivity | exact Hq].
Qed.

Lemma until_stat_error_stats ps :
  Forall (fun p => stats p = true) (until_stat_error ps).
Proof.
  induction ps as [|q ps IH]; [constructor|].
  cbn [until_stat_error]. destruct (stats q) eqn:Hq; constructor; assumption.
Qed.

(** The loader that the loop leaves behind with [continue_on_error], whether
    it returns or not. *)
Lemma load_files_loop_state ps succ failed self :
  snd (load_files_loop env ps validate true succ failed self)
  = load_all (until_stat_error ps) self.
Proof.
  destruct (until_stat_error_split ps) as [Hall | (p & post & Heq & Hp)].
  - rewrite (load_files_loop_continue _ _ _ _ Hall), (until_stat_error_all _ Hall).
    reflexivity.
  - destruct (file_outcome_stat_error _ Hp) as (err & Hn & _).
    pose proof (load_files_loop_escape _ p post err succ failed self
                  (until_stat_error_stats ps) Hn) as Hrun.
    rewrite <- Heq in Hrun. rewrite Hrun. reflexivity.
Qed.

(** Without it the loop stops at the first path that does not load. *)
Lemma load_files_loop_abort pre p post e : forall succ failed self,
  Forall (fun q => loads q = true) pre ->
  file_outcome p = Raise e ->
  load_files_loop env (pre ++ p :: post) validate false succ failed self =
  (Raise e, load_all pre self).
Proof.
  induction pre as [|q pre IH]; intros succ failed self Hpre Hp.
  - cbn [app load_files_loop]. unfold bind at 1. unfold try_except, bind at 1.
    rewrite load_file_spec, Hp. destruct (is_RDFLoaderError e); reflexivity.
  - inversion_clear Hpre as [|? ? Hq Hpre'].
    cbn [app load_files_loop]. rewrite load_all_cons.
    unfold bind at 1. unfold try_except, bind at 1.
    rewrite load_file_spec. unfold loads in Hq.
    destruct (file_outcome q) as [c|]; [|discriminate]. cbn.
    apply IH; assumption.
Qed.

Lemma load_files_loop_all ps : forall coe succ failed self,
  Forall (fun q => loads q = true) ps ->
  load_files_loop env ps validate coe succ failed self =
  (Return (succ ++ ps, failed), load_all ps self).
Proof.
  induction ps as [|q ps IH]; intros coe succ failed self Hps.
  - simpl. unfold ret. rewrite app_nil_r. reflexivity.
  - inversion_clear Hps as [|? ? Hq Hps'].
    cbn [load_files_loop]. rewrite load_all_cons.
    unfold bind at 1. unfold try_except, bind at 1.
    rewrite load_file_spec. unfold loads in Hq.
    destruct (file_outcome q) as [c|]; [|discriminate]. cbn.
    rewrite IH by assumption. rewrite <- app_assoc. reflexivity.
Qed.

(** Paths that load are all recorded, in order. *)
Lemma load_all_loaded_files ps : forall self,
  Forall (fun q => loads q = true) ps ->
  loaded_files (load_all ps self) = loaded_files self ++ List.map (path_str env) ps
  /\ List.map file (triples (load_all ps self))
     = List.map file (triples self) ++ List.map (path_str env) ps.
Proof.
  induction ps as [|q ps IH]; intros self Hps.
  - simpl. rewrite !app_nil_r. split; reflexivity.
  - inversion_clear Hps as [|? ? Hq Hps'].
    rewrite load_all_cons, load_file_spec. unfold loads in Hq.
    destruct (file_outcome q) as [c|]; [|discriminate]. cbn [snd].
    destruct (IH (commit (path_str env q) c self) Hps') as [-> ->].
    cbn [commit loaded_files triples List.map].
    rewrite List.map_app, <- !app_assoc. split; reflexivity.
Qed.

End LoadFacts.

(** A small file system: [core.ttl] is well formed, [bad.ttl] has a
    malformed [@prefix] line, [data] is a directory, nothing else exists. *)
Definition core_ttl : string :=
  "@prefix ex: <http://example.org/> ." +:+
  String PyStr.LF "ex:Alice a ex:Person .".

Definition sample_env : RDFLoader.Env :=
  {| RDFLoader.node := fun p =>
       if String.eqb p "core.ttl" then RDFLoader.Regular core_ttl
       else if String.eqb p "bad.ttl" then
         RDFLoader.Regular "@prefix ex <http://example.org/>"
       else if String.eqb p "data" then RDFLoader.NotRegular
       else RDFLoader.Absent;
     RDFLoader.path_str := fun p => p |}.

(** C10.  Whenever [load_file] raises, the loader is the one it was called
    on: [triples], [loaded_files] and [namespaces] are unchanged.  It raises
    only for a missing path, a path that is not a file, a read failure,
    with [validate] a content that [_validate_turtle_syntax] rejects, or
    when [exists()] itself raises on the path; the loader is unchanged in
    that last case too. *)
Theorem load_file_atomic_on_error
    (env : RDFLoader.Env) (file_path : string) (validate : bool)
    (self self' : RDFLoader.t) (e : RDFLoader.Exn)
    (Hraise : RDFLoader.load_file env file_path validate self = (Exc.Raise e, self')) :
  self' = self
  /\ RDFLoader.triples self' = RDFLoader.triples self
  /\ RDFLoader.loaded_files self' = RDFLoader.loaded_files self
  /\ RDFLoader.namespaces self' = RDFLoader.namespaces self
  /\ (RDFLoader.node env (RDFLoader.path_str env file_path) = RDFLoader.Absent
      \/ RDFLoader.node env (RDFLoader.path_str env file_path) = RDFLoader.NotRegular
      \/ (exists err, RDFLoader.node env (RDFLoader.path_str env file_path)
                      = RDFLoader.Unreadable err)
      \/ (validate = true /\
          exists c, RDFLoader.node env (RDFLoader.path_str env file_path)
                    = RDFLoader.Regular c
                    /\ RDFLoader._validate_turtle_syntax c
                         (RDFLoader.path_str env file_path) = Exc.Raise e)
      \/ (exists err, RDFLoader.node env (RDFLoader.path_str env file_path)
                      = RDFLoader.StatError err
                      /\ e = RDFLoader.BuiltinError err)).
Proof.
  rewrite load_file_spec in Hraise.
  assert (Hself : self' = self).
  { destruct (file_outcome env validate file_path); congruence. }
  subst self'. repeat split.
  unfold file_outcome in Hraise.
  destruct (RDFLoader.node env (RDFLoader.path_str env file_path)) as [| |err|c|err];
    [left; reflexivity | right; left; reflexivity
    | right; right; left; exists err; reflexivity | |].
  - right; right; right; left.
    destruct validate; [|discriminate].
    split; [reflexivity|]. exists c. split; [reflexivity|].
    destruct (RDFLoader._validate_turtle_syntax c (RDFLoader.path_str env file_path));
      [discriminate | congruence].
  - right; right; right; right. exists err. split; [reflexivity | congruence].
Qed.

Lemma load_file_atomic_on_error_witness :
  snd (RDFLoader.load_file sample_env "bad.ttl" true RDFLoader.init) = RDFLoader.init.
Proof.
  apply (load_file_atomic_on_error sample_env "bad.ttl" true RDFLoader.init
           (snd (RDFLoader.load_file sample_env "bad.ttl" true RDFLoader.init))
           (RDFLoader.TurtleSyntaxError
              "Syntax error in bad.ttl at line 1: Invalid @prefix declaration")).
  reflexivity.
Defined.

(** [load_files] calls [load_file] on the paths in list order, and whether
    a path loads does not depend on the loader.  With [continue_on_error],
    and when [exists()] answers on every path, the call returns the pair of
    the paths that loaded and the paths that failed, each in list order, and
    the loader is the one left by all the calls.  Without it, the first path
    that fails ends the call with that path's own exception, and the loader
    is the one left by the calls before it: every earlier path is still in
    [loaded_files] and [triples]; when no path fails the call returns all
    the paths and an empty list. *)
Theorem load_files_partial_success
    (env : RDFLoader.Env) (validate : bool) (self : RDFLoader.t) :
  (forall p st, loads env validate p = true <->
                exists st', RDFLoader.load_file env p validate st = (Exc.Return true, st'))
  /\ (forall paths,
        Forall (fun p => stats env p = true) paths ->
        RDFLoader.load_files env paths validate true self =
        (Exc.Return (List.filter (loads env validate) paths,
                     List.filter (fun p => negb (loads env validate p)) paths),
         load_all env validate paths self))
  /\ (forall pre p post e,
        Forall (fun q => loads env validate q = true) pre ->
        fst (RDFLoader.load_file env p validate (load_all env validate pre self))
        = Exc.Raise e ->
        RDFLoader.load_files env (pre ++ p :: post) validate false self =
        (Exc.Raise e, load_all env validate pre self)
        /\ RDFLoader.loaded_files (load_all env validate pre self)
           = RDFLoader.loaded_files self ++ List.map (RDFLoader.path_str env) pre
        /\ List.map RDFLoader.file (RDFLoader.triples (load_all env validate pre self))
           = List.map RDFLoader.file (RDFLoader.triples self)
             ++ List.map (RDFLoader.path_str env) pre)
  /\ (forall paths,
        Forall (fun q => loads env validate q = true) paths ->
        RDFLoader.load_files env paths validate false self =
        (Exc.Return (paths, []), load_all env validate paths self)).
Proof.
  split; [|split; [|split]].
  - intros p st. rewrite load_file_spec. unfold loads.
    destruct (file_outcome env validate p); split.
    + intros _. eexists. reflexivity.
    + reflexivity.
    + discriminate.
    + intros [st' H]. discriminate H.
  - intros paths Hps. apply load_files_loop_continue, Hps.
  - intros pre p post e Hpre Hp.
    rewrite load_file_spec in Hp.
    assert (Hout : file_outcome env validate p = Exc.Raise e).
    { destruct (file_outcome env validate p); cbn [fst] in Hp;
        [discriminate Hp | injection Hp as ->; reflexivity]. }
    split; [apply load_files_loop_abort; assumption|].
    apply load_all_loaded_files, Hpre.
  - intros paths Hps. apply (load_files_loop_all env validate paths false [] [] self Hps).
Qed.

Lemma load_files_partial_success_witness :
  fst (RDFLoader.load_files sample_env (["core.ttl"] ++ "bad.ttl" :: ["core.ttl"])
         true false RDFLoader.init)
  = Exc.Raise (RDFLoader.TurtleSyntaxError
                 "Syntax error in bad.ttl at line 1: Invalid @prefix declaration")
  /\ RDFLoader.loaded_files
       (snd (RDFLoader.load_files sample_env (["core.ttl"] ++ "bad.ttl" :: ["core.ttl"])
               true false RDFLoader.init))
     = ["core.ttl"].
Proof.
  destruct (proj1 (proj2 (proj2
    (load_files_partial_success sample_env true RDFLoader.init)))
    ["core.ttl"] "bad.ttl" ["core.ttl"]
    (RDFLoader.TurtleSyntaxError
       "Syntax error in bad.ttl at line 1: Invalid @prefix declaration"))
    as (Hrun & Hfiles & _).
  - repeat constructor.
  - reflexivity.
  - rewrite Hrun. split; [reflexivity | exact Hfiles].
Defined.

(** The same file system where, as on Linux, a name of more than 255
    characters cannot be examined: [exists()] raises an [OSError]. *)
Definition posix_env : RDFLoader.Env :=
  {| RDFLoader.node := fun p =>
       if (255 <? String.length p)%nat
       then RDFLoader.StatError ("[Errno 36] File name too long: '" +:+ p +:+ "'")
       else RDFLoader.node sample_env p;
     RDFLoader.path_str := fun p => p |}.

(** A file name of 260 characters. *)
Definition long_name : string :=
  string_of_list_ascii (List.repeat "a"%char 256) +:+ ".ttl".

(** C6.  With [continue_on_error] not every failure is collected.  On a
    path on which [exists()] raises, [load_file] lets the [OSError] out: the
    test stands before its [try], whose handler would have made an
    [RDFLoaderError] of it.  The [except] clause of [load_files] catches
    loader errors only, so the call ends with that [OSError] instead of
    returning the two lists; the paths before it stay loaded and the paths
    after it are not tried. *)
Theorem load_files_continue_oserror_escapes
    (env : RDFLoader.Env) (validate : bool) (self : RDFLoader.t)
    (pre : list string) (p : string) (post : list string) (err : string)
    (Hpre : Forall (fun q => stats env q = true) pre)
    (Hstat : RDFLoader.node env (RDFLoader.path_str env p) = RDFLoader.StatError err) :
  (forall st,
     RDFLoader.load_file env p validate st = (Exc.Raise (RDFLoader.BuiltinError err), st))
  /\ RDFLoader.is_RDFLoaderError (RDFLoader.BuiltinError err) = false
  /\ RDFLoader.load_files env (pre ++ p :: post) validate true self
     = (Exc.Raise (RDFLoader.BuiltinError err), load_all env validate pre self)
  /\ RDFLoader.loaded_files (load_all env validate pre self)
     = RDFLoader.loaded_files self
       ++ List.map (RDFLoader.path_str env) (List.filter (loads env validate) pre).
Proof.
  split; [|split; [reflexivity|split]].
  - intros st. rewrite load_file_spec. unfold file_outcome. rewrite Hstat. reflexivity.
  - apply load_files_loop_escape; assumption.
  - clear Hpre Hstat. revert self.
    induction pre as [|q qs IH]; intros self.
    + cbn. rewrite app_nil_r. reflexivity.
    + rewrite load_all_cons, IH, load_file_spec. cbn [List.filter]. unfold loads.
      destruct (file_outcome env validate q) as [c|e]; cbn [snd]; [|reflexivity].
      cbn [commit RDFLoader.loaded_files List.map]. rewrite <- app_assoc. reflexivity.
Qed.

Lemma load_files_continue_oserror_escapes_witness :
  RDFLoader.load_files posix_env ["core.ttl"; long_name; "bad.ttl"] true true
    RDFLoader.init
  = (Exc.Raise (RDFLoader.BuiltinError
                  ("[Errno 36] File name too long: '" +:+ long_name +:+ "'")),
     load_all posix_env true ["core.ttl"] RDFLoader.init).
Proof.
  assert (Hpre : Forall (fun q => stats posix_env q = true) ["core.ttl"])
    by (repeat constructor).
  assert (Hstat : RDFLoader.node posix_env (RDFLoader.path_str posix_env long_name)
                  = RDFLoader.StatError
                      ("[Errno 36] File name too long: '" +:+ long_name +:+ "'"))
    by reflexivity.
  exact (proj1 (proj2 (proj2
           (load_files_continue_oserror_escapes posix_env true RDFLoader.init
              ["core.ttl"] long_name ["bad.ttl"] _ Hpre Hstat)))).
Defined.

(** ** Loader: namespaces declared by a source *)

Section NamespaceFacts.
Import PyStr Exc RDFLoader.


(** The line that declares [ex], with anything after the IRI. *)
Lemma register_line_ex (ns : gmap string string) line tail :
  strip line = "@prefix ex: <http://example.org/> " +:+ tail ->
  register_line ns line !! "ex" = Some "http://example.org/".
Proof.
  intros H. unfold register_line. rewrite H. cbn.
  destruct (split_ws tail); apply lookup_insert_eq.
Qed.



End NamespaceFacts.






(** ** Query engine: the Turtle output format *)

(** The engine after one more successful [execute]. *)
Definition counted (self : SPARQLQueryEngine.t) (start_time end_time : Q)
  : SPARQLQueryEngine.t :=
  {| SPARQLQueryEngine.rdf_loader := SPARQLQueryEngine.rdf_loader self;
     SPARQLQueryEngine.default_timeout := SPARQLQueryEngine.default_timeout self;
     SPARQLQueryEngine.query_count := (SPARQLQueryEngine.query_count self + 1)%Z;
     SPARQLQueryEngine.total_query_time :=
       (SPARQLQueryEngine.total_query_time self + (end_time - start_time))%Q |}.

(** C7, as stated, fails: [execute] on an ASK query with the format
    ["turtle"] is not rejected, it returns [False] and counts the query; on a
    SELECT query it is rejected with a [QueryExecutionError], the class of
    every other execution failure. *)
Lemma execute_turtle_counterexample :
  SPARQLQueryEngine._detect_query_type "ASK { ?s ?p ?o }" = SPARQLQueryEngine.ASK
  /\ SPARQLQueryEngine.execute 0 1 "ASK { ?s ?p ?o }" None "turtle" true
       (SPARQLQueryEngine.init None 30%Q)
     = (Exc.Return (SPARQLQueryEngine.VBool false),
        counted (SPARQLQueryEngine.init None 30%Q) 0 1)
  /\ SPARQLQueryEngine._detect_query_type "SELECT ?s WHERE { ?s ?p ?o }"
     = SPARQLQueryEngine.SELECT
  /\ SPARQLQueryEngine.execute 0 1 "SELECT ?s WHERE { ?s ?p ?o }" None "turtle" true
       (SPARQLQueryEngine.init None 30%Q)
     = (Exc.Raise (SPARQLQueryEngine.QueryExecutionError
          "Error executing SELECT query: Turtle format not supported for SELECT queries"),
        SPARQLQueryEngine.init None 30%Q).
Proof. repeat split. Qed.

(** C7, amended.  For a query that passes the syntax check when the check is
    requested: if it is a SELECT query, [execute] with the format ["turtle"]
    raises [QueryExecutionError] (the general execution error; the engine has
    no separate class for an unsupported format) and leaves the statistics
    alone; if it is an ASK query, [execute] ignores the output format, so
    with ["turtle"] as with any other format it returns [False] and counts
    the query. *)
Theorem execute_turtle_select_ask
    (self : SPARQLQueryEngine.t) (start_time end_time : Q) (query : string)
    (timeout : option Q) (validate : bool)
    (Hvalid : validate = true ->
              SPARQLQueryEngine._validate_query_syntax query = Exc.Return tt) :
  (SPARQLQueryEngine._detect_query_type query = SPARQLQueryEngine.SELECT ->
   SPARQLQueryEngine.execute start_time end_time query timeout "turtle" validate self
   = (Exc.Raise (SPARQLQueryEngine.QueryExecutionError
        "Error executing SELECT query: Turtle format not supported for SELECT queries"),
      self))
  /\ (SPARQLQueryEngine._detect_query_type query = SPARQLQueryEngine.ASK ->
      forall output_format,
        SPARQLQueryEngine.execute start_time end_time query timeout output_format
          validate self
        = (Exc.Return (SPARQLQueryEngine.VBool false), counted self start_time end_time)).
Proof.
  split; intros Ht; [|intros output_format];
    unfold SPARQLQueryEngine.execute, Exc.try_except, Exc.bind at 1;
    (destruct validate;
      [rewrite (Hvalid eq_refl); unfold Exc.lift | unfold Exc.ret at 1]);
    rewrite Ht; reflexivity.
Qed.

Lemma execute_turtle_select_ask_witness :
  SPARQLQueryEngine.execute 0 1 "select ?s where { ?s ?p ?o }" (Some 2%Q) "turtle" true
    (SPARQLQueryEngine.init None 30%Q)
  = (Exc.Raise (SPARQLQueryEngine.QueryExecutionError
       "Error executing SELECT query: Turtle format not supported for SELECT queries"),
     SPARQLQueryEngine.init None 30%Q).
Proof.
  apply (proj1 (execute_turtle_select_ask (SPARQLQueryEngine.init None 30%Q) 0 1
                  "select ?s where { ?s ?p ?o }" (Some 2%Q) true (fun _ => eq_refl))).
  reflexivity.
Defined.

(** ** Worked examples *)

Example strip_ex : PyStr.strip "  ask x  " = "ask x".
Proof. reflexivity. Qed.

Example split_ex : PyStr.split "#" "a#b#" = ["a"; "b"; ""].
Proof. reflexivity. Qed.

Example split_ws_ex :
  PyStr.split_ws "  @prefix ex:  <x> . " = ["@prefix"; "ex:"; "<x>"; "."].
Proof. reflexivity. Qed.

Example join_ex : PyStr.join " " ["a"; ""; "b"] = "a  b".
Proof. reflexivity. Qed.

Example endswith_ex : PyStr.endswith "." "abc ." = true /\ PyStr.endswith "." "" = false.
Proof. split; reflexivity. Qed.

Example of_nat_ex : PyStr.of_nat 0 = "0" /\ PyStr.of_nat 120 = "120".
Proof. split; reflexivity. Qed.

Example upper_ex : PyStr.upper "ask Where {z}" = "ASK WHERE {Z}".
Proof. reflexivity. Qed.

(** A comment line before the keyword does not hide it; a keyword inside a
    comment does not count. *)
Example detect_after_comment :
  SPARQLQueryEngine._detect_query_type
    ("# find all" +:+ String PyStr.LF "select ?s where { ?s ?p ?o }")
  = SPARQLQueryEngine.SELECT
  /\ SPARQLQueryEngine._detect_query_type "# select" = SPARQLQueryEngine.UNKNOWN.
Proof. split; reflexivity. Qed.

(** The scenario of the specification: a SELECT query without WHERE. *)
Example validate_missing_where :
  SPARQLQueryEngine._validate_query_syntax "SELECT ?s ?p ?o"
  = Exc.Raise (SPARQLQueryEngine.QuerySyntaxError
                 "SELECT query must contain a WHERE clause").
Proof. reflexivity. Qed.

(** The declaration and the triple on one line register the same prefix. *)
Example register_one_line :
  RDFLoader.register_line ∅ "@prefix ex: <http://example.org/> . ex:Alice a ex:Person ."
    !! "ex" = Some "http://example.org/".
Proof. apply (register_line_ex ∅ _ ". ex:Alice a ex:Person ."). reflexivity. Qed.

(** A later declaration of the same prefix replaces the earlier one. *)
Example register_last_wins :
  fold_left RDFLoader.register_line
    ["@prefix ex: <http://example.org/> ."; "@prefix ex: <http://other.org/> ."] ∅
    !! "ex" = Some "http://other.org/".
Proof. cbn. apply lookup_insert_eq. Qed.

(** With [continue_on_error] the batch goes on after a failure. *)
Example load_files_continue :
  fst (RDFLoader.load_files sample_env ["core.ttl"; "bad.ttl"; "nope.ttl"; "data"; "core.ttl"]
         true true RDFLoader.init)
  = Exc.Return (["core.ttl"; "core.ttl"], ["bad.ttl"; "nope.ttl"; "data"]).
Proof.
  unfold RDFLoader.load_files.
  rewrite load_files_loop_continue by (repeat constructor). reflexivity.
Qed.

(** A report filled as in the repository's tests. *)
Example summary_most_affected :
  SHACLValidator.most_affected_node
    (SHACLValidator.get_summary
       (ValidationReport.add_results (ValidationReport.init true 0)
          [sample_violation; sample_warning]))
  = Some "http://example.org/Alice".
Proof. reflexivity. Qed.

(** * Further properties of the loader *)

Section SyntaxCheckFacts.
Import PyStr Exc RDFLoader.

(** Whether a line passes does not depend on the file name or line number,
    which only go into the message. *)
Lemma validate_line_accepts f n f' n' l :
  validate_line f n l = Return tt -> validate_line f' n' l = Return tt.
Proof.
  unfold validate_line.
  repeat match goal with
         | |- context [if ?b then _ else _] => destruct b
         end; intros H; try discriminate H; reflexivity.
Qed.

(** The two messages of the check. *)
Lemma validate_line_message f n l e :
  validate_line f n l = Raise e ->
  exists reason,
    (reason = "Unclosed string" \/ reason = "Invalid @prefix declaration")
    /\ e = TurtleSyntaxError
             ("Syntax error in " +:+ f +:+ " at line " +:+ of_nat n +:+ ": " +:+ reason).
Proof.
  unfold validate_line.
  repeat match goal with
         | |- context [if ?b then _ else _] => destruct b
         end; intros H; try discriminate H; injection H as <-;
    eexists; (split; [|reflexivity]); auto.
Qed.

Lemma validate_lines_accepts f ls : forall n,
  validate_lines f n ls = Return tt <->
  Forall (fun l => validate_line f 0 l = Return tt) ls.
Proof.
  induction ls as [|l ls IH]; intros n; simpl.
  - split; [constructor | reflexivity].
  - destruct (validate_line f n l) as [[]|e] eqn:E.
    + rewrite IH. split.
      * intros H. constructor; [exact (validate_line_accepts _ _ _ _ _ E) | exact H].
      * intros H. inversion H; assumption.
    + split; [discriminate|].
      intros H. inversion_clear H as [|? ? Hl _].
      rewrite (validate_line_accepts _ _ f n _ Hl) in E. discriminate E.
Qed.

Lemma validate_lines_first_error f ls : forall n e,
  validate_lines f n ls = Raise e <->
  exists pre l post,
    ls = pre ++ l :: post
    /\ Forall (fun l => validate_line f 0 l = Return tt) pre
    /\ validate_line f (n + length pre) l = Raise e.
Proof.
  induction ls as [|l ls IH]; intros n e; simpl.
  - split; [discriminate|].
    intros (pre & l & post & H & _). destruct pre; discriminate H.
  - destruct (validate_line f n l) as [[]|e'] eqn:E.
    + rewrite IH. split.
      * intros (pre & l' & post & -> & Hpre & Hl).
        exists (l :: pre), l', post. split; [reflexivity|]. split.
        -- constructor; [exact (validate_line_accepts _ _ _ _ _ E) | exact Hpre].
        -- simpl. rewrite Nat.add_succ_r. exact Hl.
      * intros (pre & l' & post & Heq & Hpre & Hl).
        destruct pre as [|p pre]; simpl in Heq; injection Heq as <- ->.
        -- rewrite Nat.add_0_r in Hl. rewrite Hl in E. discriminate E.
        -- inversion_clear Hpre as [|? ? _ Hpre'].
           exists pre, l', post. split; [reflexivity|]. split; [exact Hpre'|].
           simpl in Hl. rewrite Nat.add_succ_r in Hl. exact Hl.
    + split.
      * intros H. injection H as <-. exists [], l, ls.
        split; [reflexivity|]. split; [constructor|].
        simpl. rewrite Nat.add_0_r. exact E.
      * intros (pre & l' & post & Heq & Hpre & Hl).
        destruct pre as [|p pre]; simpl in Heq; injection Heq as <- ->.
        -- rewrite Nat.add_0_r in Hl. congruence.
        -- inversion_clear Hpre as [|? ? Hp _].
           rewrite (validate_line_accepts _ _ f n _ Hp) in E. discriminate E.
Qed.

End SyntaxCheckFacts.

(** X1.  [_validate_turtle_syntax] accepts a content exactly when each of its
    lines passes the check, and otherwise raises the [TurtleSyntaxError] of
    the first line that does not: the message names the file and that
    line's number, counted from 1, with one of the two reasons. *)
Theorem validate_turtle_syntax_first_error (content file_path : string) :
  (RDFLoader._validate_turtle_syntax content file_path = Exc.Return tt <->
   Forall (fun l => RDFLoader.validate_line file_path 0 l = Exc.Return tt)
          (PyStr.split PyStr.LF content))
  /\ (forall e,
        RDFLoader._validate_turtle_syntax content file_path = Exc.Raise e <->
        exists pre l post,
          PyStr.split PyStr.LF content = pre ++ l :: post
          /\ Forall (fun l => RDFLoader.validate_line file_path 0 l = Exc.Return tt) pre
          /\ RDFLoader.validate_line file_path (S (length pre)) l = Exc.Raise e)
  /\ (forall e,
        RDFLoader._validate_turtle_syntax content file_path = Exc.Raise e ->
        exists n reason,
          (1 <= n <= length (PyStr.split PyStr.LF content))%nat
          /\ (reason = "Unclosed string" \/ reason = "Invalid @prefix declaration")
          /\ e = RDFLoader.TurtleSyntaxError
                   ("Syntax error in " +:+ file_path +:+ " at line " +:+
                    PyStr.of_nat n +:+ ": " +:+ reason)).
Proof.
  unfold RDFLoader._validate_turtle_syntax. split; [|split].
  - apply validate_lines_accepts.
  - intros e. apply (validate_lines_first_error file_path _ 1 e).
  - intros e H.
    apply (validate_lines_first_error file_path _ 1 e) in H
      as (pre & l & post & Heq & _ & Hl).
    destruct (validate_line_message _ _ _ _ Hl) as (reason & Hr & ->).
    exists (S (length pre)), reason. split; [|split; [exact Hr | reflexivity]].
    rewrite Heq, length_app. simpl. lia.
Qed.

Lemma validate_turtle_syntax_first_error_witness :
  exists n reason,
    (1 <= n <= 3)%nat
    /\ (reason = "Unclosed string" \/ reason = "Invalid @prefix declaration")
    /\ RDFLoader.TurtleSyntaxError
         "Syntax error in a.ttl at line 3: Invalid @prefix declaration"
       = RDFLoader.TurtleSyntaxError
           ("Syntax error in " +:+ "a.ttl" +:+ " at line " +:+
            PyStr.of_nat n +:+ ": " +:+ reason).
Proof.
  apply (proj2 (proj2 (validate_turtle_syntax_first_error
           ("# shapes" +:+ String PyStr.LF ("" +:+ String PyStr.LF "@prefix ex <x>"))
           "a.ttl"))).
  reflexivity.
Defined.

Section NamespaceTableFacts.
Import PyStr Exc RDFLoader.

(** The prefix and namespace that a line registers, if it registers any. *)
Definition declaration (line : string) : option (string * string) :=
  let line := strip line in
  if startswith "@prefix" line then
    match split_ws line with
    | _ :: p1 :: p2 :: _ =>
        Some (rstrip_chars ":" p1, rstrip_chars "." (strip_chars "<>" p2))
    | _ => None
    end
  else None.

(** The namespace of the last line among [lines] that registers [prefix]. *)
Definition last_declared (prefix : string) (lines : list string) : option string :=
  fold_left
    (fun acc line =>
       match declaration line with
       | Some (k, v) => if String.eqb k prefix then Some v else acc
       | None => acc
       end)
    lines None.

Lemma register_line_declaration (ns : gmap string string) line :
  register_line ns line =
  match declaration line with
  | Some (k, v) => <[k := v]> ns
  | None => ns
  end.
Proof.
  unfold register_line, declaration.
  destruct (startswith "@prefix" (strip line)); [|reflexivity].
  destruct (split_ws (strip line)) as [|p0 [|p1 [|p2 rest]]]; reflexivity.
Qed.

Lemma fold_register_lookup lines : forall (ns : gmap string string) prefix,
  fold_left register_line lines ns !! prefix =
  match last_declared prefix lines with
  | Some v => Some v
  | None => ns !! prefix
  end.
Proof.
  induction lines as [|l lines IH] using rev_ind; intros ns prefix.
  - reflexivity.
  - unfold last_declared. rewrite !fold_left_app. cbn [fold_left].
    fold (last_declared prefix lines).
    rewrite register_line_declaration.
    destruct (declaration l) as [[k v]|]; [|apply IH].
    destruct (String.eqb_spec k prefix) as [->|Hk].
    + apply lookup_insert_eq.
    + rewrite lookup_insert_ne by exact Hk. apply IH.
Qed.

(** Extracting the namespaces of the same lines again changes nothing. *)
Lemma fold_register_idempotent lines (ns : gmap string string) :
  fold_left register_line lines (fold_left register_line lines ns)
  = fold_left register_line lines ns.
Proof.
  apply map_eq. intros k. rewrite (fold_register_lookup lines (fold_left _ _ _)).
  destruct (last_declared k lines) as [v|] eqn:E; [|reflexivity].
  rewrite fold_register_lookup, E. reflexivity.
Qed.

(** A registered prefix stays registered. *)
Lemma fold_register_keeps_keys lines (ns : gmap string string) k :
  is_Some (ns !! k) -> is_Some (fold_left register_line lines ns !! k).
Proof.
  intros H. rewrite fold_register_lookup.
  destruct (last_declared k lines); [eexists; reflexivity | exact H].
Qed.

End NamespaceTableFacts.

(** X2.  After [_extract_namespaces] the entry of a prefix is the namespace
    of the last line of the content that declares it; a prefix that no line
    declares keeps the entry it had, so no prefix is ever removed. *)
Theorem extract_namespaces_last_wins
    (content : string) (self : RDFLoader.t) (prefix : string) :
  RDFLoader.namespaces (snd (RDFLoader._extract_namespaces content self)) !! prefix
  = match last_declared prefix (PyStr.split PyStr.LF content) with
    | Some v => Some v
    | None => RDFLoader.namespaces self !! prefix
    end.
Proof. cbn. apply fold_register_lookup. Qed.

(** X3.  Loading the same file a second time succeeds again and leaves the
    namespace table as the first load made it, but it is recorded a second
    time: [loaded_files] and [triples] get a second entry for it and
    [get_triple_count] goes up by two in all. *)
Theorem load_file_twice
    (env : RDFLoader.Env) (file_path : string) (validate : bool)
    (self once : RDFLoader.t)
    (Hfirst : RDFLoader.load_file env file_path validate self = (Exc.Return true, once)) :
  exists twice,
    RDFLoader.load_file env file_path validate once = (Exc.Return true, twice)
    /\ RDFLoader.namespaces twice = RDFLoader.namespaces once
    /\ RDFLoader.loaded_files twice
       = RDFLoader.loaded_files self
         ++ [RDFLoader.path_str env file_path; RDFLoader.path_str env file_path]
    /\ List.map RDFLoader.file (RDFLoader.triples twice)
       = List.map RDFLoader.file (RDFLoader.triples self)
         ++ [RDFLoader.path_str env file_path; RDFLoader.path_str env file_path]
    /\ RDFLoader.get_triple_count twice = (RDFLoader.get_triple_count self + 2)%Z.
Proof.
  rewrite load_file_spec in Hfirst. rewrite load_file_spec.
  destruct (file_outcome env validate file_path) as [c|e]; [|discriminate].
  injection Hfirst as <-. eexists. split; [reflexivity|].
  unfold RDFLoader.get_triple_count.
  cbn [commit RDFLoader.namespaces RDFLoader.loaded_files RDFLoader.triples].
  rewrite fold_register_idempotent, !List.map_app, <- !app_assoc, !length_app.
  cbn [app List.map RDFLoader.file length]. repeat split. lia.
Qed.

Lemma load_file_twice_witness :
  exists twice,
    RDFLoader.load_file sample_env "core.ttl" true
      (snd (RDFLoader.load_file sample_env "core.ttl" true RDFLoader.init))
    = (Exc.Return true, twice)
    /\ RDFLoader.get_triple_count twice = 2%Z.
Proof.
  destruct (load_file_twice sample_env "core.ttl" true RDFLoader.init
              (snd (RDFLoader.load_file sample_env "core.ttl" true RDFLoader.init))
              eq_refl) as (twice & Hload & _ & _ & _ & Hcount).
  exists twice. split; [exact Hload | exact Hcount].
Defined.

Section LoaderInvariants.
Import PyStr Exc RDFLoader.

(** [st] holds everything [self] holds, and possibly more at the end. *)
Definition extends (self st : t) : Prop :=
  exists entries,
    triples st = triples self ++ entries
    /\ loaded_files st = loaded_files self ++ List.map file entries
    /\ forall k, is_Some (namespaces self !! k) -> is_Some (namespaces st !! k).

Lemma extends_refl self : extends self self.
Proof.
  exists []. rewrite !app_nil_r. repeat split. intros k H. exact H.
Qed.

Lemma extends_trans a b c : extends a b -> extends b c -> extends a c.
Proof.
  intros (e1 & T1 & L1 & N1) (e2 & T2 & L2 & N2). exists (e1 ++ e2).
  rewrite T2, T1, L2, L1, List.map_app, <- !app_assoc. repeat split.
  intros k H. apply N2, N1, H.
Qed.

Lemma load_file_extends env p validate self :
  extends self (snd (load_file env p validate self)).
Proof.
  rewrite load_file_spec.
  destruct (file_outcome env validate p) as [c|e]; [|apply extends_refl].
  exists [{| file := path_str env p; content := c |}]. repeat split.
  intros k H. apply fold_register_keeps_keys, H.
Qed.

Lemma load_files_loop_extends env validate coe ps : forall succ failed self,
  extends self (snd (load_files_loop env ps validate coe succ failed self)).
Proof.
  induction ps as [|p ps IH]; intros succ failed self; [apply extends_refl|].
  cbn [load_files_loop]. unfold bind at 1. unfold try_except, bind at 1.
  pose proof (load_file_extends env p validate self) as Hp.
  rewrite load_file_spec in *.
  destruct (file_outcome env validate p) as [c|e] eqn:E; cbn [snd] in *.
  - cbn. eapply extends_trans; [exact Hp | apply IH].
  - destruct (is_RDFLoaderError e); [|apply extends_refl].
    destruct coe; cbn; [apply IH | apply extends_refl].
Qed.

(** Paths that fail leave no trace in the loader. *)
Lemma load_all_loaded env validate ps : forall self,
  loaded_files (load_all env validate ps self)
  = loaded_files self ++ List.map (path_str env) (List.filter (loads env validate) ps).
Proof.
  induction ps as [|p ps IH]; intros self.
  - simpl. rewrite app_nil_r. reflexivity.
  - rewrite load_all_cons, load_file_spec, IH. cbn [List.filter]. unfold loads at 2.
    destruct (file_outcome env validate p) as [c|e]; cbn; [|reflexivity].
    rewrite <- app_assoc. reflexivity.
Qed.

Lemma filter_partition_length {A} (f : A -> bool) l :
  (length (List.filter f l) + length (List.filter (fun x => negb (f x)) l)
   = length l)%nat.
Proof.
  induction l as [|x l IH]; [reflexivity|]. cbn [List.filter].
  destruct (f x); cbn [negb length]; lia.
Qed.

End LoaderInvariants.

(** X4.  Whatever [load_files] does (any paths, either flag, returning or
    raising), the loader afterwards holds all it held before: [triples] and
    [loaded_files] have only grown at the end, by entries for the same
    files, and every registered prefix is still registered.  So a loader
    whose [loaded_files] names the files of its [triples] stays that way,
    and [get_triple_count] never goes down. *)
Theorem load_files_only_appends
    (env : RDFLoader.Env) (file_paths : list string) (validate continue_on_error : bool)
    (self : RDFLoader.t) :
  let st := snd (RDFLoader.load_files env file_paths validate continue_on_error self) in
  extends self st
  /\ (List.map RDFLoader.file (RDFLoader.triples self) = RDFLoader.loaded_files self ->
      List.map RDFLoader.file (RDFLoader.triples st) = RDFLoader.loaded_files st)
  /\ (RDFLoader.get_triple_count self <= RDFLoader.get_triple_count st)%Z.
Proof.
  intros st.
  assert (H : extends self st) by apply load_files_loop_extends.
  split; [exact H|].
  destruct H as (entries & HT & HL & _). split.
  - intros Hc. rewrite HT, HL, List.map_app, Hc. reflexivity.
  - unfold RDFLoader.get_triple_count. rewrite HL, length_app. lia.
Qed.

Lemma load_files_only_appends_witness :
  List.map RDFLoader.file
    (RDFLoader.triples
       (snd (RDFLoader.load_files sample_env ["core.ttl"; "bad.ttl"] true true
               RDFLoader.init)))
  = RDFLoader.loaded_files
      (snd (RDFLoader.load_files sample_env ["core.ttl"; "bad.ttl"] true true
              RDFLoader.init)).
Proof.
  apply (proj1 (proj2 (load_files_only_appends sample_env ["core.ttl"; "bad.ttl"]
                         true true RDFLoader.init))).
  reflexivity.
Defined.

(** X5.  [load_files] with [continue_on_error] returns exactly when
    [exists()] answers on every path.  When it returns the lists
    [(successful, failed)], every path is in exactly one of them,
    [loaded_files] has grown by the successful paths in order (as
    [str(Path(p))]), and [get_triple_count] by their number. *)
Theorem load_files_continue_counts
    (env : RDFLoader.Env) (file_paths : list string) (validate : bool)
    (self : RDFLoader.t) :
  ((exists lists st,
      RDFLoader.load_files env file_paths validate true self = (Exc.Return lists, st))
   <-> Forall (fun p => stats env p = true) file_paths)
  /\ (forall successful failed st,
        RDFLoader.load_files env file_paths validate true self
        = (Exc.Return (successful, failed), st) ->
        (length successful + length failed = length file_paths)%nat
        /\ (forall p, In p file_paths -> (In p successful <-> ~ In p failed))
        /\ RDFLoader.loaded_files st
           = RDFLoader.loaded_files self ++ List.map (RDFLoader.path_str env) successful
        /\ RDFLoader.get_triple_count st
           = (RDFLoader.get_triple_count self + Z.of_nat (length successful))%Z).
Proof.
  unfold RDFLoader.load_files.
  destruct (until_stat_error_split env file_paths) as [Hall | (q & post & Heq & Hq)].
  - rewrite (load_files_loop_continue env validate _ _ _ _ Hall). cbn [app].
    split; [split; [intros _; exact Hall | intros _; do 2 eexists; reflexivity]|].
    intros successful failed st H. injection H as <- <- <-.
    split; [apply filter_partition_length|]. split.
    + intros p Hp. rewrite !List.filter_In.
      destruct (loads env validate p); cbn [negb]; split.
      * intros _ [_ H]. discriminate H.
      * intros _. split; [exact Hp | reflexivity].
      * intros [_ H]. discriminate H.
      * intros H. exfalso. apply H. split; [exact Hp | reflexivity].
    + split; [apply load_all_loaded|].
      unfold RDFLoader.get_triple_count.
      rewrite load_all_loaded, length_app, length_map. lia.
  - destruct (file_outcome_stat_error env validate _ Hq) as (err & Hn & _).
    pose proof (load_files_loop_escape env validate _ q post err [] [] self
                  (until_stat_error_stats env file_paths) Hn) as Hrun.
    rewrite <- Heq in Hrun. rewrite Hrun.
    split; [split|].
    + intros (lists & st & H). discriminate H.
    + intros Hall. exfalso. rewrite Heq in Hall.
      apply Forall_app in Hall as [_ Hall]. inversion_clear Hall as [|? ? Hq' _].
      rewrite Hq in Hq'. discriminate Hq'.
    + intros successful failed st H. discriminate H.
Qed.

Section DeclareResolve.
Import PyStr Exc RDFLoader.

(** Every character of a text satisfies a test. *)
Fixpoint all_chars (q : ascii -> bool) (s : string) : bool :=
  match s with
  | EmptyString => true
  | String c r => q c && all_chars q r
  end.

Lemma append_nil_r s : s +:+ "" = s.
Proof.
  induction s as [|c s IH]; [reflexivity|].
  change (String c s +:+ "") with (String c (s +:+ "")). rewrite IH. reflexivity.
Qed.

Lemma append_assoc a b c : (a +:+ b) +:+ c = a +:+ (b +:+ c).
Proof.
  induction a as [|x a IH]; [reflexivity|].
  change (String x ((a +:+ b) +:+ c) = String x (a +:+ (b +:+ c))).
  rewrite IH. reflexivity.
Qed.

Lemma all_chars_app q a b :
  all_chars q (a +:+ b) = all_chars q a && all_chars q b.
Proof.
  induction a as [|x a IH]; [reflexivity|].
  change (String x a +:+ b) with (String x (a +:+ b)). cbn [all_chars].
  rewrite IH. apply andb_assoc.
Qed.

Lemma all_chars_impl (q q' : ascii -> bool) s :
  (forall c, q c = true -> q' c = true) ->
  all_chars q s = true -> all_chars q' s = true.
Proof.
  intros Hq. induction s as [|c s IH]; simpl; [reflexivity|].
  intros H. apply andb_true_iff in H as [Hc Hs].
  rewrite (Hq _ Hc), (IH Hs). reflexivity.
Qed.

(** [rstrip] goes past no character that it does not strip. *)
Lemma rstrip_by_app_keep q k r :
  all_chars (fun c => negb (q c)) k = true ->
  rstrip_by q (k +:+ r) = k +:+ rstrip_by q r.
Proof.
  induction k as [|c k IH]; [reflexivity|].
  cbn [all_chars]. intros H. apply andb_true_iff in H as [Hc Hk].
  apply negb_true_iff in Hc.
  change (String c k +:+ r) with (String c (k +:+ r)).
  change (String c k +:+ rstrip_by q r) with (String c (k +:+ rstrip_by q r)).
  cbn [rstrip_by]. rewrite (IH Hk), Hc.
  destruct (k +:+ rstrip_by q r); reflexivity.
Qed.

Lemma rstrip_by_all q s : all_chars q s = true -> rstrip_by q s = "".
Proof.
  induction s as [|c s IH]; simpl; [reflexivity|].
  intros H. apply andb_true_iff in H as [Hc Hs].
  rewrite (IH Hs), Hc. reflexivity.
Qed.

Lemma lstrip_by_keep q s :
  all_chars (fun c => negb (q c)) s = true -> lstrip_by q s = s.
Proof.
  destruct s as [|c s]; simpl; [reflexivity|].
  intros H. apply andb_true_iff in H as [Hc _].
  apply negb_true_iff in Hc. rewrite Hc. reflexivity.
Qed.

(** A run of characters that are not white space, followed by white space, is
    the first item of [split()]. *)
Lemma split_ws_cons_space c r : isspace c = true -> split_ws (String c r) = split_ws r.
Proof. intros H. cbn [split_ws]. rewrite H. reflexivity. Qed.

Lemma split_ws_cons_last a c r :
  isspace a = false -> isspace c = true ->
  split_ws (String a (String c r)) = String a "" :: split_ws r.
Proof.
  intros Ha Hc. rewrite <- (split_ws_cons_space c r Hc).
  cbn [split_ws]. rewrite Ha, Hc. reflexivity.
Qed.

Lemma split_ws_cons_more a b r h t :
  isspace a = false -> isspace b = false ->
  split_ws (String b r) = h :: t ->
  split_ws (String a (String b r)) = String a h :: t.
Proof.
  intros Ha Hb H.
  change (split_ws (String a (String b r)))
    with (if isspace a then split_ws (String b r)
          else if isspace b then String a "" :: split_ws (String b r)
               else match split_ws (String b r) with
                    | h :: t => String a h :: t
                    | [] => [String a ""]
                    end).
  rewrite Ha, Hb, H. reflexivity.
Qed.

Lemma split_ws_token t c r :
  t <> "" -> all_chars (fun c => negb (isspace c)) t = true -> isspace c = true ->
  split_ws (t +:+ String c r) = t :: split_ws r.
Proof.
  intros Ht Hall Hc.
  induction t as [|a t IH]; [contradiction|].
  cbn [all_chars] in Hall. apply andb_true_iff in Hall as [Ha Hall].
  apply negb_true_iff in Ha.
  destruct t as [|b t].
  - apply split_ws_cons_last; assumption.
  - assert (Hb : isspace b = false).
    { cbn [all_chars] in Hall. apply andb_true_iff in Hall as [Hb _].
      apply negb_true_iff in Hb. exact Hb. }
    specialize (IH ltac:(discriminate) Hall).
    change (String a (String b t) +:+ String c r)
      with (String a (String b (t +:+ String c r))).
    change (String b t +:+ String c r) with (String b (t +:+ String c r)) in IH.
    apply split_ws_cons_more; assumption.
Qed.

(** The characters allowed in the prefix and in the IRI of a declaration
    that is read back as written. *)
Definition prefix_char (c : ascii) : bool := negb (isspace c) && negb (Ascii.eqb c ":").
Definition iri_char (c : ascii) : bool := negb (isspace c) && negb (char_in "<>" c).

Lemma declaration_well_formed line p iri :
  strip line = "@prefix " +:+ (p +:+ ":") +:+ " " +:+ ("<" +:+ iri +:+ ">") +:+ " ." ->
  all_chars prefix_char p = true ->
  all_chars iri_char iri = true ->
  rstrip_chars "." iri = iri ->
  declaration line = Some (p, iri).
Proof.
  intros Hline Hp Hiri Hdot. unfold declaration. rewrite Hline.
  change (startswith "@prefix"
            ("@prefix " +:+ (p +:+ ":") +:+ " " +:+ ("<" +:+ iri +:+ ">") +:+ " ."))
    with true. cbn iota.
  change ("@prefix " +:+ (p +:+ ":") +:+ " " +:+ ("<" +:+ iri +:+ ">") +:+ " .")
    with ("@prefix" +:+ String " "
            ((p +:+ ":") +:+ String " " (("<" +:+ iri +:+ ">") +:+ String " " "."))).
  rewrite (split_ws_token "@prefix") by (discriminate || reflexivity).
  rewrite (split_ws_token (p +:+ ":")).
  2: { destruct p; discriminate. }
  2: { rewrite all_chars_app, andb_true_iff. split; [|reflexivity].
       revert Hp. apply all_chars_impl. intros c H.
       apply andb_true_iff in H as [H _]. exact H. }
  2: reflexivity.
  rewrite (split_ws_token ("<" +:+ iri +:+ ">")).
  2: discriminate.
  2: { change ("<" +:+ iri +:+ ">") with (String "<" (iri +:+ ">")).
       cbn [all_chars]. rewrite all_chars_app, !andb_true_iff.
       repeat split.
       revert Hiri. apply all_chars_impl. intros c H.
       apply andb_true_iff in H as [H _]. exact H. }
  2: reflexivity.
  f_equal. f_equal.
  - unfold rstrip_chars. rewrite rstrip_by_app_keep.
    + change (rstrip_by (char_in ":") ":") with "". apply append_nil_r.
    + revert Hp. apply all_chars_impl. intros c H.
      apply andb_true_iff in H as [_ H]. cbn. rewrite orb_false_r. exact H.
  - assert (Hq : all_chars (fun c => negb (char_in "<>" c)) iri = true).
    { revert Hiri. apply all_chars_impl. intros c H.
      apply andb_true_iff in H as [_ H]. exact H. }
    assert (Hs : strip_chars "<>" ("<" +:+ iri +:+ ">") = iri).
    { unfold strip_chars, strip_by.
      change ("<" +:+ iri +:+ ">") with (String "<" (iri +:+ ">")).
      cbn [rstrip_by]. rewrite (rstrip_by_app_keep _ _ _ Hq).
      change (rstrip_by (char_in "<>") ">") with "". rewrite append_nil_r.
      destruct iri as [|c iri]; [reflexivity|].
      change (char_in "<>" "<") with true. cbn [lstrip_by].
      change (char_in "<>" "<") with true. cbn iota.
      apply (lstrip_by_keep _ _ Hq). }
    rewrite Hs. exact Hdot.
Qed.

End DeclareResolve.

(** X6.  A declaration line [@prefix p: <iri> .] is read back as written:
    when [p] has no white space and no colon, [iri] has no white space and
    no angle bracket and does not end in a dot, the line registers [iri]
    under [p], whatever the table held, so [get_namespace(p)] is [iri] and
    [resolve_uri("p:local")] is [iri] followed by [local]. *)
Theorem declare_resolve_round_trip
    (self self' : RDFLoader.t) (line p iri local_name : string)
    (Hline : PyStr.strip line
             = "@prefix " +:+ (p +:+ ":") +:+ " " +:+ ("<" +:+ iri +:+ ">") +:+ " .")
    (Hp : all_chars prefix_char p = true)
    (Hiri : all_chars iri_char iri = true)
    (Hdot : PyStr.rstrip_chars "." iri = iri)
    (Hself : RDFLoader.namespaces self'
             = RDFLoader.register_line (RDFLoader.namespaces self) line) :
  RDFLoader.get_namespace self' p = Some iri
  /\ RDFLoader.resolve_uri self' (p +:+ ":" +:+ local_name)
     = Exc.Return (iri +:+ local_name).
Proof.
  assert (Hns : RDFLoader.namespaces self' !! p = Some iri).
  { rewrite Hself, register_line_declaration,
      (declaration_well_formed _ _ _ Hline Hp Hiri Hdot).
    apply lookup_insert_eq. }
  split; [exact Hns|].
  apply resolve_uri_registered; [|exact Hns].
  clear -Hp. induction p as [|c p IH]; [reflexivity|].
  simpl in *. apply andb_true_iff in Hp as [Hc Hp].
  apply andb_true_iff in Hc as [_ Hc]. apply negb_true_iff in Hc.
  rewrite Hc, (IH Hp). reflexivity.
Qed.

Lemma declare_resolve_round_trip_witness :
  RDFLoader.resolve_uri
    (snd (RDFLoader._extract_namespaces "  @prefix : <http://example.org/ns#> ."
            RDFLoader.init))
    ("" +:+ ":" +:+ "Person")
  = Exc.Return ("http://example.org/ns#" +:+ "Person").
Proof.
  apply (declare_resolve_round_trip RDFLoader.init
           (snd (RDFLoader._extract_namespaces "  @prefix : <http://example.org/ns#> ."
                   RDFLoader.init))
           "  @prefix : <http://example.org/ns#> ." "" "http://example.org/ns#" "Person").
  - reflexivity.
  - reflexivity.
  - reflexivity.
  - reflexivity.
  - reflexivity.
Defined.

(** A namespace that ends in a dot is not read back as written: the dot is
    taken for the end of the statement. *)
Example declaration_trailing_dot :
  declaration "@prefix v: <http://example.org/v1.> ." = Some ("v", "http://example.org/v1").
Proof. reflexivity. Qed.

(** ** loader.py: directories *)

Module RDFLoaderDirs.
Import PyStr Exc RDFLoader.

(** The file system with its directories.  [is_dir] is [Path.is_dir()] on a
    path on which [exists()] has answered.  [glob] and [rglob] say what
    [list(Path.glob(pattern))] and [list(Path.rglob(pattern))] do: they
    yield paths, in this order, or they raise (a [ValueError] for an empty
    pattern, a [NotImplementedError] for an absolute one) with the given
    [str()]. *)
Record DirEnv : Type := {
  files : Env;
  is_dir : string -> bool;
  glob : string -> string -> outcome string (list string);
  rglob : string -> string -> outcome string (list string)
}.

(** [Path.exists()] *)
Definition exists_ (env : DirEnv) (p : string) : outcome Exn bool :=
  match node (files env) p with
  | StatError err => Raise (BuiltinError err)
  | Absent => Return false
  | _ => Return true
  end.

(** [list(directory_path.rglob(pattern))] if [recursive], else
    [list(directory_path.glob(pattern))] *)
Definition list_glob (env : DirEnv) (recursive : bool) (directory_path pattern : string)
  : outcome Exn (list string) :=
  match (if recursive then rglob env directory_path pattern
         else glob env directory_path pattern) with
  | Return file_paths => Return file_paths
  | Raise msg => Raise (BuiltinError msg)
  end.

(** [load_directory(directory_path, pattern, recursive, validate,
    continue_on_error)]; nothing in it stands in a [try]. *)
Definition load_directory (env : DirEnv) (directory_path pattern : string)
    (recursive validate continue_on_error : bool)
  : M t Exn (list string * list string) :=
  let directory_path := path_str (files env) directory_path in
  found <- lift (exists_ env directory_path) ;;
  if negb found then
    raise (FileNotFoundError ("Directory not found: " +:+ directory_path))
  else if negb (is_dir env directory_path) then
    raise (FileNotFoundError ("Path is not a directory: " +:+ directory_path))
  else
    file_paths <- lift (list_glob env recursive directory_path pattern) ;;
    match file_paths with
    | [] => ret ([], [])
    | _ => load_files (files env) file_paths validate continue_on_error
    end.

(** One round of the loop of [load_ontology_files]: the test
    [dir_path.exists()] stands outside the [try]; the directory is loaded
    when it exists, and any exception of that is logged and dropped. *)
Definition load_ontology_dir (env : DirEnv) (directory : string) : M t Exn unit :=
  found <- lift (exists_ env (path_str (files env) directory)) ;;
  if found then
    try_except
      (load_directory env directory "*.ttl" false true true ;;; ret tt)
      (fun _ => ret tt)
  else ret tt.

(** [load_ontology_files(ontology_dir, validation_dir, data_dir)]: the
    loader it returns, or the exception that leaves it. *)
Definition load_ontology_files (env : DirEnv)
    (ontology_dir validation_dir data_dir : string) : outcome Exn t :=
  match (load_ontology_dir env ontology_dir ;;;
         load_ontology_dir env validation_dir ;;;
         load_ontology_dir env data_dir) init with
  | (Return _, loader) => Return loader
  | (Raise e, _) => Raise e
  end.

End RDFLoaderDirs.

Section DirectoryFacts.
Import PyStr Exc RDFLoader RDFLoaderDirs.

Variable env : DirEnv.

(** The files that [load_directory] finds: none when the path is no
    directory or the listing raises. *)
Definition listing (directory pattern : string) (recursive : bool) : list string :=
  let d := path_str (files env) directory in
  match exists_ env d with
  | Return true =>
      if is_dir env d then
        match list_glob env recursive d pattern with
        | Return file_paths => file_paths
        | Raise _ => []
        end
      else []
  | _ => []
  end.

Lemma exists_stats directory :
  stats (files env) directory = true <->
  exists b, exists_ env (path_str (files env) directory) = Return b.
Proof.
  unfold stats, exists_.
  destruct (node (files env) _); split; try reflexivity; try discriminate;
    try (intros _; eexists; reflexivity).
  intros [b H]. discriminate H.
Qed.

Lemma exists_stat_error directory err :
  node (files env) (path_str (files env) directory) = StatError err ->
  exists_ env (path_str (files env) directory) = Raise (BuiltinError err).
Proof. unfold exists_. intros ->. reflexivity. Qed.

Lemma load_directory_spec directory pattern recursive validate coe self :
  load_directory env directory pattern recursive validate coe self =
  let d := path_str (files env) directory in
  match exists_ env d with
  | Raise e => (Raise e, self)
  | Return false => (Raise (FileNotFoundError ("Directory not found: " +:+ d)), self)
  | Return true =>
      if negb (is_dir env d) then
        (Raise (FileNotFoundError ("Path is not a directory: " +:+ d)), self)
      else
        match list_glob env recursive d pattern with
        | Raise e => (Raise e, self)
        | Return file_paths => load_files (files env) file_paths validate coe self
        end
  end.
Proof.
  unfold load_directory. cbn zeta. unfold bind at 1. unfold lift at 1.
  destruct (exists_ env _) as [[|]|e]; [|reflexivity|reflexivity].
  cbn [negb]. destruct (is_dir env _); [|reflexivity]. cbn [negb].
  unfold bind, lift.
  destruct (list_glob env recursive _ pattern) as [[|q qs]|e]; reflexivity.
Qed.

Lemma load_ontology_dir_spec directory self :
  load_ontology_dir env directory self =
  match exists_ env (path_str (files env) directory) with
  | Raise e => (Raise e, self)
  | Return _ =>
      (Return tt,
       load_all (files env) true
         (until_stat_error (files env) (listing directory "*.ttl" false)) self)
  end.
Proof.
  unfold load_ontology_dir, listing. cbn zeta. unfold bind at 1. unfold lift at 1.
  destruct (exists_ env _) as [[|]|e] eqn:Hex; [|reflexivity|reflexivity].
  unfold try_except, bind. rewrite load_directory_spec. cbn zeta. rewrite Hex.
  destruct (is_dir env _); [|reflexivity]. cbn [negb].
  destruct (list_glob env false _ "*.ttl") as [file_paths|e]; [|reflexivity].
  pose proof (load_files_loop_state (files env) true file_paths [] [] self) as Hst.
  unfold load_files.
  destruct (load_files_loop (files env) file_paths true true [] [] self) as [[lists|e] st];
    cbn [snd] in Hst; subst st; reflexivity.
Qed.

(** The files that [load_ontology_files] tries in a directory: the ones
    found, up to the first on which [exists()] raises. *)
Definition tried (directory : string) : list string :=
  until_stat_error (files env) (listing directory "*.ttl" false).

Lemma load_ontology_files_spec ontology_dir validation_dir data_dir :
  load_ontology_files env ontology_dir validation_dir data_dir =
  match exists_ env (path_str (files env) ontology_dir) with
  | Raise e => Raise e
  | Return _ =>
      match exists_ env (path_str (files env) validation_dir) with
      | Raise e => Raise e
      | Return _ =>
          match exists_ env (path_str (files env) data_dir) with
          | Raise e => Raise e
          | Return _ =>
              Return (load_all (files env) true
                        (tried ontology_dir ++ tried validation_dir ++ tried data_dir)
                        init)
          end
      end
  end.
Proof.
  unfold load_ontology_files, bind. rewrite !load_ontology_dir_spec.
  destruct (exists_ env (path_str (files env) ontology_dir)); [|reflexivity].
  rewrite !load_ontology_dir_spec.
  destruct (exists_ env (path_str (files env) validation_dir)); [|reflexivity].
  rewrite !load_ontology_dir_spec.
  destruct (exists_ env (path_str (files env) data_dir)); [|reflexivity].
  unfold tried. rewrite !load_all_app. reflexivity.
Qed.

Lemma load_ontology_files_returns ontology_dir validation_dir data_dir :
  Forall (fun name => stats (files env) name = true)
    [ontology_dir; validation_dir; data_dir] ->
  load_ontology_files env ontology_dir validation_dir data_dir
  = Return (load_all (files env) true
              (tried ontology_dir ++ tried validation_dir ++ tried data_dir) init).
Proof.
  intros Hall. rewrite load_ontology_files_spec.
  inversion_clear Hall as [|? ? Ho Hall']. inversion_clear Hall' as [|? ? Hv Hall].
  inversion_clear Hall as [|? ? Hd _].
  apply exists_stats in Ho as [bo ->], Hv as [bv ->], Hd as [bd ->]. reflexivity.
Qed.

Lemma load_ontology_files_stat_error ontology_dir validation_dir data_dir
    before name after err :
  [ontology_dir; validation_dir; data_dir] = before ++ name :: after ->
  Forall (fun name => stats (files env) name = true) before ->
  node (files env) (path_str (files env) name) = StatError err ->
  load_ontology_files env ontology_dir validation_dir data_dir
  = Raise (BuiltinError err).
Proof.
  intros Heq Hbefore Hname. rewrite load_ontology_files_spec.
  apply exists_stat_error in Hname.
  destruct before as [|a [|b [|c before]]]; cbn [app] in Heq.
  - injection Heq as <- _. rewrite Hname. reflexivity.
  - injection Heq as <- <- _. inversion_clear Hbefore as [|? ? Ho _].
    apply exists_stats in Ho as [bo ->]. rewrite Hname. reflexivity.
  - injection Heq as <- <- <- _.
    inversion_clear Hbefore as [|? ? Ho Hb]. inversion_clear Hb as [|? ? Hv _].
    apply exists_stats in Ho as [bo ->], Hv as [bv ->]. rewrite Hname. reflexivity.
  - exfalso. injection Heq as _ _ _ Heq. destruct before; discriminate Heq.
Qed.

End DirectoryFacts.

(** X7.  [load_directory] raises [FileNotFoundError] when the path does not
    exist or is not a directory, and lets out the [OSError] of [exists()]
    and whatever the listing raises (an empty or an absolute pattern); in
    each of these cases the loader is left alone.  Otherwise it is
    [load_files] on the files that the pattern matches, in the order the
    file system yields them (an empty match gives two empty lists), so with
    [continue_on_error] it returns when [exists()] answers on each of
    them. *)
Theorem load_directory_outcomes
    (env : RDFLoaderDirs.DirEnv) (directory pattern : string)
    (recursive validate continue_on_error : bool) (self : RDFLoader.t) :
  let d := RDFLoader.path_str (RDFLoaderDirs.files env) directory in
  let call := RDFLoaderDirs.load_directory env directory pattern recursive validate
                continue_on_error self in
  (forall e, RDFLoaderDirs.exists_ env d = Exc.Raise e -> call = (Exc.Raise e, self))
  /\ (RDFLoaderDirs.exists_ env d = Exc.Return false ->
      call = (Exc.Raise (RDFLoader.FileNotFoundError ("Directory not found: " +:+ d)),
              self))
  /\ (RDFLoaderDirs.exists_ env d = Exc.Return true ->
      RDFLoaderDirs.is_dir env d = false ->
      call = (Exc.Raise (RDFLoader.FileNotFoundError
                           ("Path is not a directory: " +:+ d)), self))
  /\ (RDFLoaderDirs.exists_ env d = Exc.Return true ->
      RDFLoaderDirs.is_dir env d = true ->
      (forall e,
         RDFLoaderDirs.list_glob env recursive d pattern = Exc.Raise e ->
         call = (Exc.Raise e, self))
      /\ (forall found,
            RDFLoaderDirs.list_glob env recursive d pattern = Exc.Return found ->
            call = RDFLoader.load_files (RDFLoaderDirs.files env) found validate
                     continue_on_error self
            /\ (continue_on_error = true ->
                Forall (fun p => stats (RDFLoaderDirs.files env) p = true) found ->
                exists lists st, call = (Exc.Return lists, st)))).
Proof.
  intros d call. subst d call. rewrite load_directory_spec. cbn zeta.
  split; [|split; [|split]].
  - intros e ->. reflexivity.
  - intros ->. reflexivity.
  - intros -> ->. reflexivity.
  - intros -> ->. cbn [negb]. split.
    + intros e ->. reflexivity.
    + intros found ->. split; [reflexivity|].
      intros -> Hall. unfold RDFLoader.load_files.
      rewrite (load_files_loop_continue _ _ _ _ _ _ Hall).
      do 2 eexists. reflexivity.
Qed.

(** A directory [ontology] with the two sample files, and a plain file
    [data]; an empty pattern is refused. *)
Definition sample_dirs : RDFLoaderDirs.DirEnv :=
  {| RDFLoaderDirs.files :=
       {| RDFLoader.node := fun p =>
            if String.eqb p "ontology" then RDFLoader.NotRegular
            else RDFLoader.node sample_env p;
          RDFLoader.path_str := fun p => p |};
     RDFLoaderDirs.is_dir := fun p => String.eqb p "ontology";
     RDFLoaderDirs.glob := fun d pattern =>
       if String.eqb pattern "" then Exc.Raise "Unacceptable pattern: ''"
       else if String.eqb d "ontology" then Exc.Return ["bad.ttl"; "core.ttl"]
       else Exc.Return [];
     RDFLoaderDirs.rglob := fun d pattern =>
       if String.eqb pattern "" then Exc.Raise "Unacceptable pattern: ''"
       else if String.eqb d "ontology" then Exc.Return ["bad.ttl"; "core.ttl"]
       else Exc.Return [] |}.

Lemma load_directory_outcomes_witness :
  RDFLoaderDirs.load_directory sample_dirs "ontology" "" false true true RDFLoader.init
  = (Exc.Raise (RDFLoader.BuiltinError "Unacceptable pattern: ''"), RDFLoader.init).
Proof.
  apply (proj1 (proj2 (proj2 (proj2
           (load_directory_outcomes sample_dirs "ontology" "" false true true
              RDFLoader.init))) eq_refl eq_refl)).
  reflexivity.
Defined.

(** X8.  [load_ontology_files] raises only when [exists()] raises on one of
    the three directory names, the test standing outside the [try]: the
    [OSError] of the first such name leaves the function.  Otherwise it
    returns: a directory that is missing, that is not a directory or whose
    listing raises is passed over, and so is every file that does not load.
    The loader it returns has loaded, in this order, the loadable [*.ttl]
    files of the ontology, validation and data directories, with syntax
    validation on; in each directory the files after one on which
    [exists()] raises are not tried. *)
Theorem load_ontology_files_loads_all
    (env : RDFLoaderDirs.DirEnv) (ontology_dir validation_dir data_dir : string) :
  let names := [ontology_dir; validation_dir; data_dir] in
  let paths := tried env ontology_dir ++ tried env validation_dir ++ tried env data_dir in
  (Forall (fun name => stats (RDFLoaderDirs.files env) name = true) names ->
   exists loader,
     RDFLoaderDirs.load_ontology_files env ontology_dir validation_dir data_dir
     = Exc.Return loader
     /\ loader = load_all (RDFLoaderDirs.files env) true paths RDFLoader.init
     /\ RDFLoader.loaded_files loader
        = List.map (RDFLoader.path_str (RDFLoaderDirs.files env))
            (List.filter (loads (RDFLoaderDirs.files env) true) paths))
  /\ (forall before name after err,
        names = before ++ name :: after ->
        Forall (fun name => stats (RDFLoaderDirs.files env) name = true) before ->
        RDFLoader.node (RDFLoaderDirs.files env)
          (RDFLoader.path_str (RDFLoaderDirs.files env) name) = RDFLoader.StatError err ->
        RDFLoaderDirs.load_ontology_files env ontology_dir validation_dir data_dir
        = Exc.Raise (RDFLoader.BuiltinError err)).
Proof.
  intros names paths. subst names paths. split.
  - intros Hall. rewrite (load_ontology_files_returns env _ _ _ Hall).
    eexists. split; [reflexivity|]. split; [reflexivity|]. apply load_all_loaded.
  - intros before name after err Heq Hbefore Hname.
    apply (load_ontology_files_stat_error env _ _ _ _ _ _ _ Heq Hbefore Hname).
Qed.

(** The sample directories behind names of any length. *)
Definition posix_dirs : RDFLoaderDirs.DirEnv :=
  {| RDFLoaderDirs.files :=
       {| RDFLoader.node := fun p =>
            if (255 <? String.length p)%nat
            then RDFLoader.StatError ("[Errno 36] File name too long: '" +:+ p +:+ "'")
            else RDFLoader.node (RDFLoaderDirs.files sample_dirs) p;
          RDFLoader.path_str := fun p => p |};
     RDFLoaderDirs.is_dir := RDFLoaderDirs.is_dir sample_dirs;
     RDFLoaderDirs.glob := RDFLoaderDirs.glob sample_dirs;
     RDFLoaderDirs.rglob := RDFLoaderDirs.rglob sample_dirs |}.

Lemma load_ontology_files_loads_all_witness :
  RDFLoaderDirs.load_ontology_files posix_dirs "ontology" long_name "data"
  = Exc.Raise (RDFLoader.BuiltinError
                 ("[Errno 36] File name too long: '" +:+ long_name +:+ "'")).
Proof.
  assert (Hbefore : Forall (fun name => stats (RDFLoaderDirs.files posix_dirs) name = true)
                      ["ontology"])
    by (repeat constructor).
  exact (proj2 (load_ontology_files_loads_all posix_dirs "ontology" long_name "data")
           ["ontology"] long_name ["data"] _ eq_refl Hbefore eq_refl).
Defined.

(** * Further properties of the query engine *)

(** ** query.py: the public methods around [execute] *)

Module QueryAPI.
Import PyStr Exc SPARQLQueryEngine.

(** [execute_select(query, timeout, output_format)] *)
Definition execute_select (start_time end_time : Q) (query : string)
    (timeout : option Q) (output_format : string) : M t Exn Value :=
  let query_type := _detect_query_type query in
  if negb (QueryType_eqb query_type SELECT) then
    raise (QuerySyntaxError ("Expected SELECT query, got " +:+ value query_type))
  else execute start_time end_time query timeout output_format true.

(** [execute_construct(query, timeout, output_format)] *)
Definition execute_construct (start_time end_time : Q) (query : string)
    (timeout : option Q) (output_format : string) : M t Exn Value :=
  let query_type := _detect_query_type query in
  if negb (QueryType_eqb query_type CONSTRUCT) then
    raise (QuerySyntaxError ("Expected CONSTRUCT query, got " +:+ value query_type))
  else execute start_time end_time query timeout output_format true.

(** [execute_ask(query, timeout)] *)
Definition execute_ask (start_time end_time : Q) (query : string)
    (timeout : option Q) : M t Exn Value :=
  let query_type := _detect_query_type query in
  if negb (QueryType_eqb query_type ASK) then
    raise (QuerySyntaxError ("Expected ASK query, got " +:+ value query_type))
  else execute start_time end_time query timeout "python" true.

(** The query that [execute_describe] builds for a resource. *)
Definition describe_query (resource_uri : string) : string :=
  if startswith "http://" resource_uri || startswith "https://" resource_uri
  then "DESCRIBE <" +:+ resource_uri +:+ ">"
  else "DESCRIBE " +:+ resource_uri.

(** [execute_describe(resource_uri, timeout, output_format)] *)
Definition execute_describe (start_time end_time : Q) (resource_uri : string)
    (timeout : option Q) (output_format : string) : M t Exn Value :=
  execute start_time end_time (describe_query resource_uri) timeout output_format true.

(** The dict returned by [validate_query]. *)
Record Validity : Type := {
  valid : bool;
  query_type : option string;
  message : string
}.

(** [validate_query(query)]; only [QuerySyntaxError] is caught. *)
Definition validate_query (query : string) : outcome Exn Validity :=
  match _validate_query_syntax query with
  | Return _ =>
      let query_type := _detect_query_type query in
      Return {| valid := true;
                query_type := Some (value query_type);
                message := "Query syntax is valid" |}
  | Raise (QuerySyntaxError m) =>
      Return {| valid := false; query_type := None; message := m |}
  | Raise e => Raise e
  end.

(** The set [supported_features]. *)
Definition supported_features : list string :=
  ["SELECT"; "CONSTRUCT"; "ASK"; "DESCRIBE";
   "FILTER"; "OPTIONAL"; "UNION"; "LIMIT"; "OFFSET";
   "ORDER BY"; "DISTINCT"; "REDUCED"].

(** [supports_feature(feature)] *)
Definition supports_feature (feature : string) : bool :=
  existsb (String.eqb (upper feature)) supported_features.

(** [set_rdf_loader(rdf_loader)] *)
Definition set_rdf_loader (loader : option RDFLoader.t) : M t Exn unit :=
  modify (fun self =>
    {| rdf_loader := loader;
       default_timeout := default_timeout self;
       query_count := query_count self;
       total_query_time := total_query_time self |}).

(** [reset_statistics()] *)
Definition reset_statistics : M t Exn unit :=
  modify (fun self =>
    {| rdf_loader := rdf_loader self;
       default_timeout := default_timeout self;
       query_count := 0%Z;
       total_query_time := 0%Q |}).

End QueryAPI.

Section ExecuteFacts.
Import PyStr Exc SPARQLQueryEngine QueryAPI.

(** What the evaluator of each query form returns for a format. *)
Definition placeholder_result (t : QueryType) (output_format : string) : option Value :=
  match t with
  | SELECT =>
      if String.eqb output_format "json" then Some (VStr select_json)
      else if String.eqb output_format "sparql_json" then Some (VSparqlJson [] [])
      else if String.eqb output_format "turtle" then None
      else Some (VBindings [])
  | CONSTRUCT =>
      if String.eqb output_format "json" then Some (VStr triples_json)
      else if String.eqb output_format "turtle" then
        Some (VStr ("# Constructed triples" +:+ String LF EmptyString))
      else Some (VTriples [])
  | ASK => Some (VBool false)
  | DESCRIBE =>
      if String.eqb output_format "json" then Some (VStr triples_json)
      else if String.eqb output_format "turtle" then
        Some (VStr ("# Description triples" +:+ String LF EmptyString))
      else Some (VTriples [])
  | UNKNOWN => None
  end.

(** [execute] once its syntax check is over. *)
Lemma execute_checked start_time end_time query timeout output_format validate self :
  (validate = true -> _validate_query_syntax query = Return tt) ->
  execute start_time end_time query timeout output_format validate self =
  match placeholder_result (_detect_query_type query) output_format with
  | Some v => (Return v, counted self start_time end_time)
  | None =>
      match _detect_query_type query with
      | SELECT =>
          (Raise (QueryExecutionError
             "Error executing SELECT query: Turtle format not supported for SELECT queries"),
           self)
      | _ => (Raise (QuerySyntaxError "Unsupported query type: QueryType.UNKNOWN"), self)
      end
  end.
Proof.
  intros Hv. unfold execute, try_except, bind at 1.
  assert (Hc : (if validate then lift (_validate_query_syntax query) else ret tt) self
               = (@Return Exn unit tt, self)).
  { destruct validate; [rewrite (Hv eq_refl)|]; reflexivity. }
  rewrite Hc. clear Hc.
  destruct (_detect_query_type query); cbn [placeholder_result].
  - unfold _execute_select_internal.
    destruct (String.eqb output_format "json"); [reflexivity|].
    destruct (String.eqb output_format "sparql_json"); [reflexivity|].
    destruct (String.eqb output_format "turtle"); reflexivity.
  - unfold _execute_construct_internal.
    destruct (String.eqb output_format "json"); [reflexivity|].
    destruct (String.eqb output_format "turtle"); reflexivity.
  - reflexivity.
  - unfold _execute_describe_internal.
    destruct (String.eqb output_format "json"); [reflexivity|].
    destruct (String.eqb output_format "turtle"); reflexivity.
  - reflexivity.
Qed.

(** [execute] when its syntax check fails. *)
Lemma execute_rejected start_time end_time query timeout output_format self m :
  _validate_query_syntax query = Raise (QuerySyntaxError m) ->
  execute start_time end_time query timeout output_format true self
  = (Raise (QuerySyntaxError m), self).
Proof.
  intros H. unfold execute, try_except, bind at 1, lift. rewrite H. reflexivity.
Qed.

Lemma placeholder_result_none t output_format :
  placeholder_result t output_format = None <->
  t = UNKNOWN \/ (t = SELECT /\ output_format = "turtle").
Proof.
  destruct t; cbn [placeholder_result];
    repeat match goal with
           | |- context [String.eqb ?a ?b] => destruct (String.eqb_spec a b)
           end;
    subst; split; try discriminate; try (intros [H|[H H']]; discriminate); auto.
  all: try (intros [H|[_ H]]; [discriminate | congruence]).
Qed.

End ExecuteFacts.

(** X9.  [execute] keeps its statistics on success only: when it returns,
    the engine has one more query counted and the elapsed time added; when
    it raises, the engine is as before, and the exception is a
    [QuerySyntaxError] or a [QueryExecutionError], never a
    [QueryTimeoutError]. *)
Theorem execute_counts_on_success_only
    (self : SPARQLQueryEngine.t) (start_time end_time : Q) (query : string)
    (timeout : option Q) (output_format : string) (validate : bool) :
  (exists v,
     SPARQLQueryEngine.execute start_time end_time query timeout output_format
       validate self
     = (Exc.Return v, counted self start_time end_time))
  \/ (exists m,
        SPARQLQueryEngine.execute start_time end_time query timeout output_format
          validate self
        = (Exc.Raise (SPARQLQueryEngine.QuerySyntaxError m), self)
        \/ SPARQLQueryEngine.execute start_time end_time query timeout output_format
             validate self
           = (Exc.Raise (SPARQLQueryEngine.QueryExecutionError m), self)).
Proof.
  assert (Hchecked :
    (validate = true -> SPARQLQueryEngine._validate_query_syntax query = Exc.Return tt) ->
    (exists v,
       SPARQLQueryEngine.execute start_time end_time query timeout output_format
         validate self
       = (Exc.Return v, counted self start_time end_time))
    \/ (exists m,
          SPARQLQueryEngine.execute start_time end_time query timeout output_format
            validate self
          = (Exc.Raise (SPARQLQueryEngine.QuerySyntaxError m), self)
          \/ SPARQLQueryEngine.execute start_time end_time query timeout output_format
               validate self
             = (Exc.Raise (SPARQLQueryEngine.QueryExecutionError m), self))).
  { intros Hv.
    rewrite (execute_checked _ _ _ _ _ _ _ Hv).
    destruct (placeholder_result _ _) as [v|]; [left; eexists; reflexivity|].
    right. destruct (SPARQLQueryEngine._detect_query_type query);
      eexists; (left; reflexivity) || (right; reflexivity). }
  destruct validate; [|apply Hchecked; discriminate].
  destruct (validate_query_syntax_cases query) as [[_ [m Hm]] | [_ Hok]].
  - right. exists m. left. apply execute_rejected, Hm.
  - apply Hchecked. intros _. exact Hok.
Qed.

(** X10.  [execute] raises exactly when the syntax check is requested and
    rejects the query, or the query has no recognised form (checked or not),
    or a SELECT query is asked for the format ["turtle"]. *)
Theorem execute_raises_iff
    (self : SPARQLQueryEngine.t) (start_time end_time : Q) (query : string)
    (timeout : option Q) (output_format : string) (validate : bool) :
  (exists e,
     fst (SPARQLQueryEngine.execute start_time end_time query timeout output_format
            validate self) = Exc.Raise e)
  <-> (validate = true /\ rejected query)
      \/ SPARQLQueryEngine._detect_query_type query = SPARQLQueryEngine.UNKNOWN
      \/ (SPARQLQueryEngine._detect_query_type query = SPARQLQueryEngine.SELECT
          /\ output_format = "turtle").
Proof.
  assert (Hchecked :
    (validate = true -> SPARQLQueryEngine._validate_query_syntax query = Exc.Return tt) ->
    (exists e,
       fst (SPARQLQueryEngine.execute start_time end_time query timeout output_format
              validate self) = Exc.Raise e)
    <-> SPARQLQueryEngine._detect_query_type query = SPARQLQueryEngine.UNKNOWN
        \/ (SPARQLQueryEngine._detect_query_type query = SPARQLQueryEngine.SELECT
            /\ output_format = "turtle")).
  { intros Hv. rewrite (execute_checked _ _ _ _ _ _ _ Hv).
    rewrite <- placeholder_result_none.
    destruct (placeholder_result _ _) as [v|]; cbn [fst].
    - split; [intros [e H]; discriminate H | discriminate].
    - split; [reflexivity|]. intros _.
      destruct (SPARQLQueryEngine._detect_query_type query); eexists; reflexivity. }
  destruct validate.
  - destruct (validate_query_syntax_cases query) as [[Hr [m Hm]] | [Hn Hok]].
    + rewrite (execute_rejected _ _ _ _ _ _ _ Hm). cbn [fst]. split.
      * intros _. left. split; [reflexivity | exact Hr].
      * intros _. eexists. reflexivity.
    + rewrite (Hchecked (fun _ => Hok)). split; [auto|].
      intros [[_ Hr] | H]; [contradiction | exact H].
  - rewrite (Hchecked ltac:(discriminate)). split; [auto|].
    intros [[H _] | H]; [discriminate H | exact H].
Qed.

(** X11.  The timeout is not used: [execute] gives the same outcome and the
    same engine for every [timeout] argument, and the same outcome whatever
    loader the engine has been given. *)
Theorem execute_ignores_timeout
    (self : SPARQLQueryEngine.t) (start_time end_time : Q) (query : string)
    (timeout timeout' : option Q) (output_format : string) (validate : bool)
    (loader : option RDFLoader.t) :
  SPARQLQueryEngine.execute start_time end_time query timeout output_format validate self
  = SPARQLQueryEngine.execute start_time end_time query timeout' output_format
      validate self
  /\ fst (SPARQLQueryEngine.execute start_time end_time query timeout output_format
            validate (snd (QueryAPI.set_rdf_loader loader self)))
     = fst (SPARQLQueryEngine.execute start_time end_time query timeout output_format
              validate self).
Proof.
  destruct validate.
  - destruct (validate_query_syntax_cases query) as [[_ [m Hm]] | [_ Hok]].
    + rewrite !(execute_rejected _ _ _ _ _ _ _ Hm). split; reflexivity.
    + rewrite !(execute_checked _ _ _ _ _ true _ (fun _ => Hok)).
      split; [reflexivity|].
      destruct (placeholder_result _ _);
        [|destruct (SPARQLQueryEngine._detect_query_type query)]; reflexivity.
  - rewrite !(execute_checked _ _ _ _ _ false _ ltac:(discriminate)).
    split; [reflexivity|].
    destruct (placeholder_result _ _);
      [|destruct (SPARQLQueryEngine._detect_query_type query)]; reflexivity.
Qed.

(** X12.  An output format that is none of ["json"], ["sparql_json"] and
    ["turtle"] is not refused: [execute] answers as for ["python"]. *)
Theorem execute_other_format_is_python
    (self : SPARQLQueryEngine.t) (start_time end_time : Q) (query : string)
    (timeout : option Q) (output_format : string) (validate : bool)
    (Hjson : output_format <> "json")
    (Hsparql : output_format <> "sparql_json")
    (Hturtle : output_format <> "turtle") :
  SPARQLQueryEngine.execute start_time end_time query timeout output_format validate self
  = SPARQLQueryEngine.execute start_time end_time query timeout "python" validate self.
Proof.
  assert (Hp : forall t, placeholder_result t output_format = placeholder_result t "python").
  { intros t. destruct t; cbn [placeholder_result];
      repeat match goal with
             | |- context [String.eqb output_format ?b] =>
                 destruct (String.eqb_spec output_format b); [contradiction|]
             end; reflexivity. }
  destruct validate.
  - destruct (validate_query_syntax_cases query) as [[_ [m Hm]] | [_ Hok]].
    + rewrite !(execute_rejected _ _ _ _ _ _ _ Hm). reflexivity.
    + rewrite !(execute_checked _ _ _ _ _ true _ (fun _ => Hok)), Hp. reflexivity.
  - rewrite !(execute_checked _ _ _ _ _ false _ ltac:(discriminate)), Hp. reflexivity.
Qed.

Lemma execute_other_format_is_python_witness :
  SPARQLQueryEngine.execute 0 1 "ASK { ?s ?p ?o }" None "xml" true
    (SPARQLQueryEngine.init None 30%Q)
  = SPARQLQueryEngine.execute 0 1 "ASK { ?s ?p ?o }" None "python" true
      (SPARQLQueryEngine.init None 30%Q).
Proof.
  apply (execute_other_format_is_python (SPARQLQueryEngine.init None 30%Q) 0 1
           "ASK { ?s ?p ?o }" None "xml" true); discriminate.
Defined.

Section WrapperFacts.
Import PyStr Exc SPARQLQueryEngine QueryAPI.

Lemma QueryType_eqb_spec a b : reflect (a = b) (QueryType_eqb a b).
Proof. destruct a, b; constructor; congruence. Qed.

(** What [execute] returns tells the form of the query. *)
Lemma execute_return_form start_time end_time query timeout output_format validate
    self v st :
  execute start_time end_time query timeout output_format validate self = (Return v, st) ->
  placeholder_result (_detect_query_type query) output_format = Some v
  /\ st = counted self start_time end_time.
Proof.
  intros H.
  assert (Hv : validate = true -> _validate_query_syntax query = Return tt).
  { intros ->. destruct (validate_query_syntax_cases query) as [[_ [m Hm]] | [_ Hok]];
      [|exact Hok].
    rewrite (execute_rejected _ _ _ _ _ _ _ Hm) in H. discriminate H. }
  rewrite (execute_checked _ _ _ _ _ _ _ Hv) in H.
  destruct (placeholder_result _ _) as [v'|].
  - injection H as -> <-. split; reflexivity.
  - destruct (_detect_query_type query); discriminate H.
Qed.

End WrapperFacts.

(** X13.  The typed entry points look at the form of the query first: a
    query of another form is refused with a [QuerySyntaxError] that names
    the form found, before any syntax check and without touching the
    statistics.  What they return has the shape of their form:
    [execute_ask] returns only the boolean [False], and [execute_select]
    only an empty binding list, the JSON text or the SPARQL JSON object of
    the empty result. *)
Theorem typed_entry_points
    (self : SPARQLQueryEngine.t) (start_time end_time : Q) (query : string)
    (timeout : option Q) (output_format : string) :
  (SPARQLQueryEngine._detect_query_type query <> SPARQLQueryEngine.SELECT ->
   QueryAPI.execute_select start_time end_time query timeout output_format self
   = (Exc.Raise (SPARQLQueryEngine.QuerySyntaxError
        ("Expected SELECT query, got " +:+
         SPARQLQueryEngine.value (SPARQLQueryEngine._detect_query_type query))), self))
  /\ (SPARQLQueryEngine._detect_query_type query <> SPARQLQueryEngine.CONSTRUCT ->
      QueryAPI.execute_construct start_time end_time query timeout output_format self
      = (Exc.Raise (SPARQLQueryEngine.QuerySyntaxError
           ("Expected CONSTRUCT query, got " +:+
            SPARQLQueryEngine.value (SPARQLQueryEngine._detect_query_type query))), self))
  /\ (SPARQLQueryEngine._detect_query_type query <> SPARQLQueryEngine.ASK ->
      QueryAPI.execute_ask start_time end_time query timeout self
      = (Exc.Raise (SPARQLQueryEngine.QuerySyntaxError
           ("Expected ASK query, got " +:+
            SPARQLQueryEngine.value (SPARQLQueryEngine._detect_query_type query))), self))
  /\ (forall v st,
        QueryAPI.execute_ask start_time end_time query timeout self = (Exc.Return v, st) ->
        v = SPARQLQueryEngine.VBool false /\ st = counted self start_time end_time)
  /\ (forall v st,
        QueryAPI.execute_select start_time end_time query timeout output_format self
        = (Exc.Return v, st) ->
        (v = SPARQLQueryEngine.VBindings []
         \/ v = SPARQLQueryEngine.VStr SPARQLQueryEngine.select_json
         \/ v = SPARQLQueryEngine.VSparqlJson [] [])
        /\ st = counted self start_time end_time).
Proof.
  unfold QueryAPI.execute_select, QueryAPI.execute_construct, QueryAPI.execute_ask.
  cbn zeta.
  split; [|split; [|split; [|split]]].
  - intros H. destruct (QueryType_eqb_spec
      (SPARQLQueryEngine._detect_query_type query) SPARQLQueryEngine.SELECT);
      [contradiction | reflexivity].
  - intros H. destruct (QueryType_eqb_spec
      (SPARQLQueryEngine._detect_query_type query) SPARQLQueryEngine.CONSTRUCT);
      [contradiction | reflexivity].
  - intros H. destruct (QueryType_eqb_spec
      (SPARQLQueryEngine._detect_query_type query) SPARQLQueryEngine.ASK);
      [contradiction | reflexivity].
  - intros v st. destruct (QueryType_eqb_spec
      (SPARQLQueryEngine._detect_query_type query) SPARQLQueryEngine.ASK) as [Ht|];
      [|discriminate].
    cbn [negb]. intros H. apply execute_return_form in H as [H ->].
    rewrite Ht in H. injection H as <-. split; reflexivity.
  - intros v st. destruct (QueryType_eqb_spec
      (SPARQLQueryEngine._detect_query_type query) SPARQLQueryEngine.SELECT) as [Ht|];
      [|discriminate].
    cbn [negb]. intros H. apply execute_return_form in H as [H ->].
    rewrite Ht in H. cbn [placeholder_result] in H. split; [|reflexivity].
    destruct (String.eqb output_format "json"); [injection H as <-; auto|].
    destruct (String.eqb output_format "sparql_json"); [injection H as <-; auto|].
    destruct (String.eqb output_format "turtle"); [discriminate H|].
    injection H as <-; auto.
Qed.

Lemma typed_entry_points_witness :
  QueryAPI.execute_select 0 1 "" None "python" (SPARQLQueryEngine.init None 30%Q)
  = (Exc.Raise (SPARQLQueryEngine.QuerySyntaxError
       ("Expected SELECT query, got " +:+
        SPARQLQueryEngine.value (SPARQLQueryEngine._detect_query_type ""))),
     SPARQLQueryEngine.init None 30%Q).
Proof.
  apply (proj1 (typed_entry_points (SPARQLQueryEngine.init None 30%Q) 0 1 "" None
                  "python")).
  discriminate.
Defined.

(** X14.  [validate_query] never raises.  It reports a query as valid
    exactly when none of the five grounds of rejection applies; then the
    reported type is one of the four query forms, never UNKNOWN, and
    [execute] with the default format returns for this query.  Otherwise
    the reported type is [None] and the message is that of the
    [QuerySyntaxError]. *)
Theorem validate_query_contract (query : string) :
  exists info,
    QueryAPI.validate_query query = Exc.Return info
    /\ (QueryAPI.valid info = true <-> ~ rejected query)
    /\ (QueryAPI.valid info = true ->
        (exists t, t <> SPARQLQueryEngine.UNKNOWN
                   /\ SPARQLQueryEngine._detect_query_type query = t
                   /\ QueryAPI.query_type info = Some (SPARQLQueryEngine.value t))
        /\ forall self start_time end_time timeout,
             exists v,
               SPARQLQueryEngine.execute start_time end_time query timeout "python"
                 true self
               = (Exc.Return v, counted self start_time end_time))
    /\ (QueryAPI.valid info = false ->
        QueryAPI.query_type info = None
        /\ SPARQLQueryEngine._validate_query_syntax query
           = Exc.Raise (SPARQLQueryEngine.QuerySyntaxError (QueryAPI.message info))).
Proof.
  unfold QueryAPI.validate_query.
  destruct (validate_query_syntax_cases query) as [[Hr [m Hm]] | [Hn Hok]].
  - rewrite Hm. eexists. split; [reflexivity|]. cbn.
    split; [split; [discriminate | contradiction]|].
    split; [discriminate|]. intros _. split; reflexivity.
  - rewrite Hok. eexists. split; [reflexivity|]. cbn.
    split; [split; [intros _; exact Hn | reflexivity]|].
    split; [|discriminate]. intros _.
    assert (Ht : SPARQLQueryEngine._detect_query_type query <> SPARQLQueryEngine.UNKNOWN).
    { intros H. apply Hn. right. left. exact H. }
    split; [eexists; repeat split; exact Ht|].
    intros self start_time end_time timeout.
    rewrite (execute_checked _ _ _ _ _ true _ (fun _ => Hok)).
    destruct (SPARQLQueryEngine._detect_query_type query);
      try contradiction; eexists; reflexivity.
Qed.

Section FeatureFacts.
Import PyStr QueryAPI.

Lemma upper_char_idempotent c : upper_char (upper_char c) = upper_char c.
Proof. destruct c as [[] [] [] [] [] [] [] []]; reflexivity. Qed.

Lemma upper_idempotent s : upper (upper s) = upper s.
Proof.
  induction s as [|c s IH]; [reflexivity|].
  cbn [upper]. rewrite upper_char_idempotent, IH. reflexivity.
Qed.

End FeatureFacts.

(** X15.  [supports_feature] does not depend on the letter case of the
    feature name: two names with the same upper-cased text get the same
    answer, and every query form that [_detect_query_type] can find is a
    supported feature. *)
Theorem supports_feature_case_insensitive (feature feature' : string)
    (Hcase : PyStr.upper feature' = PyStr.upper feature) :
  QueryAPI.supports_feature feature' = QueryAPI.supports_feature feature
  /\ QueryAPI.supports_feature (PyStr.upper feature) = QueryAPI.supports_feature feature
  /\ (forall query,
        SPARQLQueryEngine._detect_query_type query <> SPARQLQueryEngine.UNKNOWN ->
        QueryAPI.supports_feature
          (SPARQLQueryEngine.value (SPARQLQueryEngine._detect_query_type query)) = true).
Proof.
  unfold QueryAPI.supports_feature. rewrite Hcase, upper_idempotent.
  repeat split. intros query H.
  destruct (SPARQLQueryEngine._detect_query_type query); try contradiction; reflexivity.
Qed.

Lemma supports_feature_case_insensitive_witness :
  QueryAPI.supports_feature "Order By" = QueryAPI.supports_feature "order by".
Proof.
  apply (supports_feature_case_insensitive "order by" "Order By"). reflexivity.
Defined.

Section RawClassifyFacts.
Import PyStr Exc SPARQLQueryEngine.

(** Characters that the cleaning of a query leaves where they are: no white
    space and not the comment sign. *)
Definition plain (c : ascii) : bool := negb (isspace c) && negb (Ascii.eqb c "#").

Lemma plain_upper_char c : plain (upper_char c) = plain c.
Proof. destruct c as [[] [] [] [] [] [] [] []]; reflexivity. Qed.

Lemma all_chars_plain_upper s : all_chars plain (upper s) = all_chars plain s.
Proof.
  induction s as [|c s IH]; [reflexivity|].
  cbn [upper all_chars]. rewrite plain_upper_char, IH. reflexivity.
Qed.

Lemma upper_app a b : upper (a +:+ b) = upper a +:+ upper b.
Proof.
  induction a as [|c a IH]; [reflexivity|].
  change (String c a +:+ b) with (String c (a +:+ b)). cbn [upper].
  rewrite IH. reflexivity.
Qed.

Lemma plain_not_space k :
  all_chars plain k = true -> all_chars (fun c => negb (isspace c)) k = true.
Proof.
  apply all_chars_impl. intros c H. apply andb_true_iff in H as [H _]. exact H.
Qed.

(** [strip] keeps a leading run of characters that are not white space. *)
Lemma strip_app_keep k r :
  k <> "" -> all_chars (fun c => negb (isspace c)) k = true ->
  strip (k +:+ r) = k +:+ rstrip_by isspace r.
Proof.
  intros Hne Hk. unfold strip, strip_by. rewrite (rstrip_by_app_keep _ _ _ Hk).
  destruct k as [|c k]; [contradiction|].
  cbn [all_chars] in Hk. apply andb_true_iff in Hk as [Hc _].
  apply negb_true_iff in Hc.
  change (String c k +:+ rstrip_by isspace r)
    with (String c (k +:+ rstrip_by isspace r)).
  cbn [lstrip_by]. rewrite Hc. reflexivity.
Qed.

(** White space around a text does not change what [strip] returns. *)
Lemma rstrip_app_space q ws :
  all_chars isspace ws = true -> rstrip_by isspace (q +:+ ws) = rstrip_by isspace q.
Proof.
  intros Hws. induction q as [|c q IH].
  - apply (rstrip_by_all _ _ Hws).
  - change (String c q +:+ ws) with (String c (q +:+ ws)).
    cbn [rstrip_by]. rewrite IH. reflexivity.
Qed.

Lemma strip_space_app ws q :
  all_chars isspace ws = true -> strip (ws +:+ q) = strip q.
Proof.
  intros Hws. induction ws as [|c ws IH]; [reflexivity|].
  cbn [all_chars] in Hws. apply andb_true_iff in Hws as [Hc Hws].
  specialize (IH Hws). unfold strip, strip_by in *.
  change (String c ws +:+ q) with (String c (ws +:+ q)).
  cbn [rstrip_by]. destruct (rstrip_by isspace (ws +:+ q)) as [|d r].
  - rewrite Hc. exact IH.
  - cbn [lstrip_by]. rewrite Hc. exact IH.
Qed.

Lemma strip_app_space q ws :
  all_chars isspace ws = true -> strip (q +:+ ws) = strip q.
Proof.
  intros Hws. unfold strip, strip_by. rewrite (rstrip_app_space _ _ Hws). reflexivity.
Qed.

Lemma split_nonempty sep s : exists h t, split sep s = h :: t.
Proof.
  induction s as [|c s (h & t & IH)]; cbn [split]; [eauto|].
  destruct (Ascii.eqb c sep); [eauto|]. rewrite IH. eauto.
Qed.

(** [split] keeps a leading run without separator in the first item. *)
Lemma split_app_keep sep k s h t :
  all_chars (fun c => negb (Ascii.eqb c sep)) k = true ->
  split sep s = h :: t ->
  split sep (k +:+ s) = (k +:+ h) :: t.
Proof.
  intros Hk Hs. induction k as [|c k IH]; [exact Hs|].
  cbn [all_chars] in Hk. apply andb_true_iff in Hk as [Hc Hk].
  apply negb_true_iff in Hc.
  change (String c k +:+ s) with (String c (k +:+ s)).
  cbn [split]. rewrite Hc, (IH Hk). reflexivity.
Qed.

Lemma join_app_keep sep k a t :
  join sep ((k +:+ a) :: t) = k +:+ join sep (a :: t).
Proof.
  destruct t as [|b t]; [reflexivity|].
  cbn [join]. apply append_assoc.
Qed.

Lemma prefix_app k w : String.prefix k (k +:+ w) = true.
Proof.
  induction k as [|c k IH]; [apply prefix_nil|].
  change (String c k +:+ w) with (String c (k +:+ w)). cbn [String.prefix].
  destruct (ascii_dec c c); [exact IH | contradiction].
Qed.

(** The cleaned text of a query that begins with plain characters begins
    with their upper-case forms. *)
Lemma query_clean_keep k r :
  k <> "" -> all_chars plain k = true ->
  exists w, query_clean (k +:+ r) = upper k +:+ w.
Proof.
  intros Hne Hk. unfold query_clean.
  rewrite (strip_app_keep _ _ Hne (plain_not_space _ Hk)), upper_app.
  set (u := upper k).
  assert (Hu : all_chars plain u = true) by (unfold u; rewrite all_chars_plain_upper; exact Hk).
  assert (Hune : u <> "") by (unfold u; destruct k; [contradiction | discriminate]).
  destruct (split_nonempty LF (upper (rstrip_by isspace r))) as (h & t & Hs).
  rewrite (split_app_keep LF u _ h t); [|
    revert Hu; apply all_chars_impl; intros c H;
    apply andb_true_iff in H as [H _];
    destruct c as [[] [] [] [] [] [] [] []]; (reflexivity || discriminate H) | exact Hs].
  cbn [List.map].
  destruct (split_nonempty "#" h) as (h' & t' & Hh).
  rewrite (split_app_keep "#" u _ h' t'); [|
    revert Hu; apply all_chars_impl; intros c H;
    apply andb_true_iff in H as [_ H]; exact H | exact Hh].
  cbn [List.hd]. rewrite join_app_keep.
  rewrite (strip_app_keep _ _ Hune (plain_not_space _ Hu)). eexists. reflexivity.
Qed.

(** The form of a query that begins with a keyword, in any letter case. *)
Lemma detect_keyword_prefix (t : QueryType) kw rest :
  t <> UNKNOWN -> upper kw = value t -> _detect_query_type (kw +:+ rest) = t.
Proof.
  intros Ht Hkw.
  assert (Hk : all_chars plain kw = true).
  { rewrite <- all_chars_plain_upper, Hkw. destruct t; reflexivity. }
  assert (Hne : kw <> "").
  { intros ->. destruct t; discriminate Hkw. }
  destruct (query_clean_keep kw rest Hne Hk) as (w & Hw).
  apply detect_query_type_startswith; [exact Ht|].
  unfold startswith. rewrite Hw, Hkw. apply prefix_app.
Qed.

Lemma detect_strip_invariant q q' :
  strip q = strip q' -> _detect_query_type q = _detect_query_type q'.
Proof. intros H. unfold _detect_query_type. rewrite H. reflexivity. Qed.

End RawClassifyFacts.

(** X16.  A query whose first characters after any leading white space
    spell SELECT, CONSTRUCT, ASK or DESCRIBE, in any letter case, has that
    form whatever follows the keyword; white space before and after a query
    never changes its form. *)
Theorem detect_query_type_leading_keyword
    (t : SPARQLQueryEngine.QueryType) (ws kw rest : string)
    (Ht : t <> SPARQLQueryEngine.UNKNOWN)
    (Hkw : PyStr.upper kw = SPARQLQueryEngine.value t)
    (Hws : all_chars PyStr.isspace ws = true) :
  SPARQLQueryEngine._detect_query_type (ws +:+ kw +:+ rest) = t
  /\ (forall query,
        SPARQLQueryEngine._detect_query_type (ws +:+ query)
        = SPARQLQueryEngine._detect_query_type query
        /\ SPARQLQueryEngine._detect_query_type (query +:+ ws)
           = SPARQLQueryEngine._detect_query_type query).
Proof.
  split.
  - rewrite (detect_strip_invariant _ _ (strip_space_app ws (kw +:+ rest) Hws)).
    apply detect_keyword_prefix; assumption.
  - intros query. split; apply detect_strip_invariant;
      [apply strip_space_app | apply strip_app_space]; exact Hws.
Qed.

Lemma detect_query_type_leading_keyword_witness :
  SPARQLQueryEngine._detect_query_type ("  " +:+ "Describe" +:+ "<urn:x>")
  = SPARQLQueryEngine.DESCRIBE.
Proof.
  apply (detect_query_type_leading_keyword SPARQLQueryEngine.DESCRIBE
           "  " "Describe" "<urn:x>").
  - discriminate.
  - reflexivity.
  - reflexivity.
Defined.

Section DescribeFacts.
Import PyStr Exc SPARQLQueryEngine QueryAPI.

Lemma count_app c a b : count c (a +:+ b) = (count c a + count c b)%nat.
Proof.
  induction a as [|d a IH]; [reflexivity|].
  change (String d a +:+ b) with (String d (a +:+ b)). cbn [count].
  rewrite IH. lia.
Qed.

(** The query built for a resource is the keyword and a remainder with the
    braces of the resource. *)
Lemma describe_query_shape resource_uri :
  exists rest,
    describe_query resource_uri = "DESCRIBE" +:+ rest
    /\ count "{" rest = count "{" resource_uri
    /\ count "}" rest = count "}" resource_uri.
Proof.
  unfold describe_query.
  destruct (startswith "http://" resource_uri || startswith "https://" resource_uri).
  - exists (" <" +:+ resource_uri +:+ ">"). split; [reflexivity|].
    change (" <" +:+ resource_uri +:+ ">") with (String " " (String "<" (resource_uri +:+ ">"))).
    cbn [count]. rewrite !count_app. cbn. split; lia.
  - exists (" " +:+ resource_uri). split; [reflexivity|]. split; reflexivity.
Qed.

Lemma validate_describe_query resource_uri :
  _validate_query_syntax (describe_query resource_uri) =
  if Nat.eqb (count "{" resource_uri) (count "}" resource_uri) then Return tt
  else Raise (QuerySyntaxError "Unbalanced braces in query").
Proof.
  destruct (describe_query_shape resource_uri) as (rest & Hq & Ho & Hc).
  unfold _validate_query_syntax. rewrite Hq.
  rewrite (strip_app_keep "DESCRIBE" rest ltac:(discriminate) eq_refl).
  rewrite (detect_keyword_prefix DESCRIBE "DESCRIBE" rest ltac:(discriminate) eq_refl).
  change (String.eqb ("DESCRIBE" +:+ rstrip_by isspace rest) "") with false.
  cbn [QueryType_eqb orb andb].
  rewrite !(count_app _ "DESCRIBE"), Ho, Hc. cbn [count Nat.add].
  change (count "{" "DESCRIBE") with 0%nat. change (count "}" "DESCRIBE") with 0%nat.
  cbn [Nat.add].
  destruct (Nat.eqb _ _); reflexivity.
Qed.

End DescribeFacts.

(** X17.  [execute_describe] builds a query that always has the form
    DESCRIBE, whatever the resource.  It raises only when the resource has
    different numbers of opening and closing braces, with the
    [QuerySyntaxError] of unbalanced braces and the engine unchanged;
    otherwise it returns the empty description in the requested format (an
    empty triple list, its JSON text, or the Turtle comment line) and counts
    the query. *)
Theorem execute_describe_outcome
    (self : SPARQLQueryEngine.t) (start_time end_time : Q) (resource_uri : string)
    (timeout : option Q) (output_format : string) :
  SPARQLQueryEngine._detect_query_type (QueryAPI.describe_query resource_uri)
  = SPARQLQueryEngine.DESCRIBE
  /\ (PyStr.count "{" resource_uri <> PyStr.count "}" resource_uri ->
      QueryAPI.execute_describe start_time end_time resource_uri timeout output_format self
      = (Exc.Raise (SPARQLQueryEngine.QuerySyntaxError "Unbalanced braces in query"),
         self))
  /\ (PyStr.count "{" resource_uri = PyStr.count "}" resource_uri ->
      QueryAPI.execute_describe start_time end_time resource_uri timeout output_format self
      = (Exc.Return
           (if String.eqb output_format "json"
            then SPARQLQueryEngine.VStr SPARQLQueryEngine.triples_json
            else if String.eqb output_format "turtle"
            then SPARQLQueryEngine.VStr
                   ("# Description triples" +:+ String PyStr.LF EmptyString)
            else SPARQLQueryEngine.VTriples []),
         counted self start_time end_time)).
Proof.
  assert (Ht : SPARQLQueryEngine._detect_query_type (QueryAPI.describe_query resource_uri)
               = SPARQLQueryEngine.DESCRIBE).
  { destruct (describe_query_shape resource_uri) as (rest & -> & _).
    apply (detect_keyword_prefix SPARQLQueryEngine.DESCRIBE "DESCRIBE" rest);
      [discriminate | reflexivity]. }
  pose proof (validate_describe_query resource_uri) as Hv.
  unfold QueryAPI.execute_describe. split; [exact Ht|]. split.
  - intros Hne. apply Nat.eqb_neq in Hne. rewrite Hne in Hv.
    apply execute_rejected, Hv.
  - intros Heq. apply Nat.eqb_eq in Heq. rewrite Heq in Hv.
    rewrite (execute_checked _ _ _ _ _ true _ (fun _ => Hv)), Ht.
    cbn [placeholder_result].
    destruct (String.eqb output_format "json"); [reflexivity|].
    destruct (String.eqb output_format "turtle"); reflexivity.
Qed.

Lemma execute_describe_outcome_witness :
  QueryAPI.execute_describe 0 1 "http://example.org/ontology#Entity" None "turtle"
    (SPARQLQueryEngine.init None 30%Q)
  = (Exc.Return
       (SPARQLQueryEngine.VStr ("# Description triples" +:+ String PyStr.LF EmptyString)),
     counted (SPARQLQueryEngine.init None 30%Q) 0 1).
Proof.
  apply (proj2 (proj2 (execute_describe_outcome (SPARQLQueryEngine.init None 30%Q) 0 1
                         "http://example.org/ontology#Entity" None "turtle"))).
  reflexivity.
Defined.

(** ** query.py: parameterized queries *)

Module QueryBindings.
Import PyStr Exc SPARQLQueryEngine.

(** [s.replace(old, new)] for a non-empty [old], scanning from the left;
    [skip] counts the characters of a match that are still to be passed. *)
Fixpoint replace_from (old new : string) (skip : nat) (s : string) : string :=
  match s with
  | EmptyString => EmptyString
  | String c r =>
      match skip with
      | S k => replace_from old new k r
      | O =>
          if String.prefix old s
          then new +:+ replace_from old new (String.length old - 1) r
          else String c (replace_from old new 0 r)
      end
  end.

Definition replace (old new s : string) : string := replace_from old new 0 s.

(** The loop of [execute_with_bindings] over [bindings.items()]: each
    [?var] is replaced in the text that the bindings before it have left. *)
Definition substitute (bindings : list (string * string)) (query : string) : string :=
  fold_left
    (fun parameterized_query binding =>
       let placeholder := String "?" (fst binding) in
       replace placeholder (snd binding) parameterized_query)
    bindings query.

(** [execute_with_bindings(query, bindings, timeout, output_format)] *)
Definition execute_with_bindings (start_time end_time : Q) (query : string)
    (bindings : list (string * string)) (timeout : option Q) (output_format : string)
  : M t Exn Value :=
  execute start_time end_time (substitute bindings query) timeout output_format true.

End QueryBindings.

Section BindingFacts.
Import PyStr Exc SPARQLQueryEngine QueryBindings.

Lemma replace_absent old new s :
  contains old s = false -> replace old new s = s.
Proof.
  unfold replace. induction s as [|c s IH]; [reflexivity|].
  cbn [contains]. intros H. apply orb_false_iff in H as [Hp Hs].
  cbn [replace_from]. rewrite Hp, (IH Hs). reflexivity.
Qed.

Lemma replace_skip old new a post :
  replace_from old new (String.length a) (a +:+ post) = replace_from old new 0 post.
Proof.
  induction a as [|c a IH]; [reflexivity|].
  change (String c a +:+ post) with (String c (a +:+ post)).
  cbn [String.length replace_from]. exact IH.
Qed.

(** The first occurrence of a placeholder is replaced wherever it stands. *)
Lemma replace_first var new pre post :
  has_char "?" pre = false ->
  replace (String "?" var) new (pre +:+ String "?" var +:+ post)
  = pre +:+ new +:+ replace (String "?" var) new post.
Proof.
  unfold replace. intros Hpre. induction pre as [|c pre IH].
  - change ("" +:+ String "?" var +:+ post) with (String "?" (var +:+ post)).
    cbn [replace_from].
    change (String.prefix (String "?" var) (String "?" (var +:+ post)))
      with (String.prefix (String "?" var) (String "?" var +:+ post)).
    rewrite prefix_app. cbn [String.length Nat.sub].
    rewrite Nat.sub_0_r, replace_skip. reflexivity.
  - cbn [has_char] in Hpre. apply orb_false_iff in Hpre as [Hc Hpre].
    change (String c pre +:+ String "?" var +:+ post)
      with (String c (pre +:+ String "?" var +:+ post)).
    cbn [replace_from].
    assert (Hp : String.prefix (String "?" var)
                   (String c (pre +:+ String "?" var +:+ post)) = false).
    { cbn [String.prefix]. destruct (ascii_dec "?" c) as [<-|]; [|reflexivity].
      rewrite Ascii.eqb_refl in Hc. discriminate Hc. }
    rewrite Hp, (IH Hpre). reflexivity.
Qed.

Lemma substitute_absent bindings : forall query,
  Forall (fun b => contains (String "?" (fst b)) query = false) bindings ->
  substitute bindings query = query.
Proof.
  induction bindings as [|b bs IH]; intros query H; [reflexivity|].
  inversion_clear H as [|? ? Hb Hbs].
  unfold substitute. cbn [fold_left]. rewrite (replace_absent _ _ _ Hb).
  apply IH, Hbs.
Qed.

End BindingFacts.

(** X18.  [execute_with_bindings] substitutes by text.  When no placeholder
    [?var] of the bindings occurs in the query, the call is [execute] on the
    query as given.  With one binding, the first [?var] in the query is
    replaced by the value as written, whatever follows it (so also where
    [?var] is only the beginning of a longer variable name), nothing being
    escaped. *)
Theorem execute_with_bindings_textual
    (self : SPARQLQueryEngine.t) (start_time end_time : Q)
    (timeout : option Q) (output_format : string) :
  (forall query bindings,
     Forall (fun b => PyStr.contains (String "?" (fst b)) query = false) bindings ->
     QueryBindings.execute_with_bindings start_time end_time query bindings timeout
       output_format self
     = SPARQLQueryEngine.execute start_time end_time query timeout output_format true
         self)
  /\ (forall var value pre post,
        PyStr.has_char "?" pre = false ->
        QueryBindings.execute_with_bindings start_time end_time
          (pre +:+ String "?" var +:+ post) [(var, value)] timeout output_format self
        = SPARQLQueryEngine.execute start_time end_time
            (pre +:+ value +:+ QueryBindings.replace (String "?" var) value post)
            timeout output_format true self).
Proof.
  unfold QueryBindings.execute_with_bindings. split.
  - intros query bindings H. rewrite (substitute_absent _ _ H). reflexivity.
  - intros var value pre post H. unfold QueryBindings.substitute.
    cbn [fold_left fst snd]. rewrite (replace_first _ _ _ _ H). reflexivity.
Qed.

Lemma execute_with_bindings_textual_witness :
  QueryBindings.execute_with_bindings 0 1
    ("SELECT * WHERE { " +:+ String "?" "s" +:+ "ubject a owl:Class }")
    [("s", "<urn:x>")] None "python" (SPARQLQueryEngine.init None 30%Q)
  = SPARQLQueryEngine.execute 0 1
      ("SELECT * WHERE { " +:+ "<urn:x>" +:+
       QueryBindings.replace (String "?" "s") "<urn:x>" "ubject a owl:Class }")
      None "python" true (SPARQLQueryEngine.init None 30%Q).
Proof.
  apply (proj2 (execute_with_bindings_textual (SPARQLQueryEngine.init None 30%Q) 0 1
                  None "python") "s" "<urn:x>" "SELECT * WHERE { " "ubject a owl:Class }").
  reflexivity.
Defined.

Example replace_ex :
  QueryBindings.replace "?s" "X" "?s ?p ?s2 ??s" = "X ?p X2 ?X"
  /\ QueryBindings.replace "aa" "b" "aaaaa" = "bba".
Proof. split; reflexivity. Qed.

(** * Further properties of the validator *)

(** ** validator.py: grouping views *)

Module ReportViews.

(** [d[k].append(r)] on a [defaultdict(list)]; the dict keeps its keys in
    the order of their first insertion. *)
Fixpoint append_to (k : string) (r : ValidationResult.t)
    (d : list (string * list ValidationResult.t))
  : list (string * list ValidationResult.t) :=
  match d with
  | [] => [(k, [] ++ [r])]
  | (k', l) :: d' =>
      if String.eqb k' k then (k', l ++ [r]) :: d' else (k', l) :: append_to k r d'
  end.

(** [get_results_by_focus_node(report)] *)
Definition get_results_by_focus_node (report : ValidationReport.t)
  : list (string * list ValidationResult.t) :=
  fold_left (fun d result => append_to (ValidationResult.focus_node result) result d)
            (ValidationReport.results report) [].

(** [result.source_shape or "Unknown"]: [None] and the empty string are
    both false. *)
Definition shape_key (result : ValidationResult.t) : string :=
  match ValidationResult.source_shape result with
  | Some s => if String.eqb s "" then "Unknown" else s
  | None => "Unknown"
  end.

(** [get_results_by_shape(report)] *)
Definition get_results_by_shape (report : ValidationReport.t)
  : list (string * list ValidationResult.t) :=
  fold_left (fun d result => append_to (shape_key result) result d)
            (ValidationReport.results report) [].

End ReportViews.

Section GroupingFacts.
Import ReportViews.

Variable key : ValidationResult.t -> string.

(** The grouping loop for any key. *)
Definition group_by (rs : list ValidationResult.t)
  : list (string * list ValidationResult.t) :=
  fold_left (fun d r => append_to (key r) r d) rs [].

(** The results with a given key, in their order. *)
Definition with_key (k : string) (rs : list ValidationResult.t)
  : list ValidationResult.t :=
  List.filter (fun r => String.eqb (key r) k) rs.

(** What a well-formed grouping of [rs] is: distinct keys, in the order in
    which they first occur, each with exactly its results. *)
Definition groups_of (rs : list ValidationResult.t)
    (d : list (string * list ValidationResult.t)) : Prop :=
  List.NoDup (List.map fst d)
  /\ (forall k, In k (List.map fst d) <-> In k (List.map key rs))
  /\ (forall k l, In (k, l) d -> l = with_key k rs).

Lemma append_to_keys k r d :
  forall k', In k' (List.map fst (append_to k r d)) <-> k' = k \/ In k' (List.map fst d).
Proof.
  induction d as [|[k0 l0] d IH]; intros k'; cbn [append_to List.map fst In].
  - intuition congruence.
  - destruct (String.eqb_spec k0 k) as [->|Hne]; cbn [List.map fst In].
    + intuition congruence.
    + rewrite IH. intuition congruence.
Qed.

Lemma append_to_NoDup k r d :
  List.NoDup (List.map fst d) -> List.NoDup (List.map fst (append_to k r d)).
Proof.
  induction d as [|[k0 l0] d IH]; cbn [append_to List.map fst]; intros H.
  - constructor; [intros [] | constructor].
  - inversion_clear H as [|? ? Hk0 Hd].
    destruct (String.eqb_spec k0 k) as [->|Hne]; cbn [List.map fst].
    + constructor; assumption.
    + constructor; [|apply IH, Hd].
      rewrite append_to_keys. intros [H|H]; [congruence | contradiction].
Qed.

Lemma append_to_In k r d k' l' :
  List.NoDup (List.map fst d) ->
  In (k', l') (append_to k r d) ->
  (k' <> k /\ In (k', l') d)
  \/ (k' = k /\ ((exists l, In (k, l) d /\ l' = l ++ [r])
                 \/ (~ In k (List.map fst d) /\ l' = [r]))).
Proof.
  induction d as [|[k0 l0] d IH]; cbn [append_to List.map fst]; intros Hnd H.
  - destruct H as [H|[]]. injection H as <- <-. right. split; [reflexivity|].
    right. split; [intros [] | reflexivity].
  - inversion_clear Hnd as [|? ? Hk0 Hd].
    destruct (String.eqb_spec k0 k) as [->|Hne].
    + destruct H as [H|H].
      * injection H as <- <-. right. split; [reflexivity|]. left.
        exists l0. split; [left; reflexivity | reflexivity].
      * left. split; [|right; exact H].
        intros ->. apply Hk0. apply (in_map fst) in H. exact H.
    + destruct H as [H|H].
      * injection H as <- <-. left. split; [exact Hne | left; reflexivity].
      * destruct (IH Hd H) as [[Hk Hin] | [-> [(l & Hin & ->) | [Hnot ->]]]].
        -- left. split; [exact Hk | right; exact Hin].
        -- right. split; [reflexivity|]. left. exists l.
           split; [right; exact Hin | reflexivity].
        -- right. split; [reflexivity|]. right. split; [|reflexivity].
           cbn [In]. intros [Heq|Hin]; [congruence | contradiction].
Qed.

Lemma group_by_snoc rs r :
  group_by (rs ++ [r]) = append_to (key r) r (group_by rs).
Proof. unfold group_by. rewrite fold_left_app. reflexivity. Qed.

Lemma with_key_snoc k rs r :
  with_key k (rs ++ [r]) = with_key k rs ++ (if String.eqb (key r) k then [r] else []).
Proof.
  unfold with_key. rewrite List.filter_app. cbn [List.filter].
  destruct (String.eqb (key r) k); reflexivity.
Qed.

Lemma with_key_nil k rs : ~ In k (List.map key rs) -> with_key k rs = [].
Proof.
  induction rs as [|r rs IH]; [reflexivity|]. cbn [List.map In].
  intros H. unfold with_key in *. cbn [List.filter].
  destruct (String.eqb_spec (key r) k) as [Heq|_]; [exfalso; auto|].
  apply IH. auto.
Qed.

Lemma group_by_groups rs : groups_of rs (group_by rs).
Proof.
  induction rs as [|r rs (Hnd & Hkeys & Hgroups)] using rev_ind.
  - repeat split; try constructor; intros; contradiction.
  - rewrite group_by_snoc. split; [|split].
    + apply append_to_NoDup, Hnd.
    + intros k. rewrite append_to_keys, Hkeys, List.map_app, in_app_iff.
      cbn [List.map In]. split; intros [H|H]; auto.
      * destruct H as [H|[]]. auto.
    + intros k l Hin. rewrite with_key_snoc.
      destruct (append_to_In _ _ _ _ _ Hnd Hin)
        as [[Hk Hin'] | [-> [(l0 & Hin' & ->) | [Hnot ->]]]].
      * rewrite (Hgroups _ _ Hin').
        destruct (String.eqb_spec (key r) k); [congruence|].
        rewrite app_nil_r. reflexivity.
      * rewrite (Hgroups _ _ Hin'), String.eqb_refl. reflexivity.
      * rewrite String.eqb_refl.
        rewrite (with_key_nil (key r) rs); [reflexivity|].
        rewrite <- Hkeys. exact Hnot.
Qed.

End GroupingFacts.

(** X19.  The two grouping views are faithful: in
    [get_results_by_focus_node] the keys are distinct and are exactly the
    focus nodes that occur, and the list under a key holds exactly the
    results with that focus node, in report order; the same holds for
    [get_results_by_shape] with the source shape as key, where a result
    without shape, or with the empty string as shape, is filed under
    ["Unknown"], together with any result whose shape is literally
    ["Unknown"]. *)
Theorem grouping_views_faithful (report : ValidationReport.t) :
  groups_of ValidationResult.focus_node (ValidationReport.results report)
    (ReportViews.get_results_by_focus_node report)
  /\ groups_of ReportViews.shape_key (ValidationReport.results report)
       (ReportViews.get_results_by_shape report)
  /\ (forall r,
        ReportViews.shape_key r = "Unknown" <->
        ValidationResult.source_shape r = None
        \/ ValidationResult.source_shape r = Some ""
        \/ ValidationResult.source_shape r = Some "Unknown")
  /\ (forall k l, In (k, l) (ReportViews.get_results_by_focus_node report) -> l <> [])
  /\ (forall k l, In (k, l) (ReportViews.get_results_by_shape report) -> l <> []).
Proof.
  pose proof (group_by_groups ValidationResult.focus_node
                (ValidationReport.results report)) as Hf.
  pose proof (group_by_groups ReportViews.shape_key
                (ValidationReport.results report)) as Hs.
  assert (Hne : forall key d k l,
            groups_of key (ValidationReport.results report) d -> In (k, l) d -> l <> []).
  { intros key d k l (_ & Hkeys & Hgroups) Hin.
    rewrite (Hgroups _ _ Hin).
    assert (Hk : In k (List.map key (ValidationReport.results report))).
    { apply Hkeys. apply (in_map fst) in Hin. exact Hin. }
    apply in_map_iff in Hk as (r & Hr & Hin').
    intros Hnil.
    assert (Hmem : In r (with_key key k (ValidationReport.results report))).
    { unfold with_key. apply List.filter_In. split; [exact Hin'|].
      rewrite Hr. apply String.eqb_refl. }
    rewrite Hnil in Hmem. exact Hmem. }
  split; [exact Hf|]. split; [exact Hs|]. split; [|split].
  - intros r. unfold ReportViews.shape_key.
    destruct (ValidationResult.source_shape r) as [s|].
    + destruct (String.eqb_spec s "") as [->|Hs'].
      * split; auto.
      * split.
        -- intros ->. auto.
        -- intros [H|[H|H]]; congruence.
    + split; auto.
  - intros k l. apply (Hne _ _ k l Hf).
  - intros k l. apply (Hne _ _ k l Hs).
Qed.

Section CountFacts.

(** A focus node with the number of its results. *)
Definition tally (g : string * list ValidationResult.t) : string * Z :=
  (fst g, ValidationReport.len (snd g)).

Lemma incr_append_to k r d :
  SHACLValidator.incr k (List.map tally d)
  = List.map tally (ReportViews.append_to k r d).
Proof.
  induction d as [|[k0 l0] d IH]; [reflexivity|].
  cbn [List.map ReportViews.append_to SHACLValidator.incr tally fst snd].
  destruct (String.eqb k0 k); cbn [List.map tally fst snd].
  - unfold tally, ValidationReport.len. cbn [fst snd].
    rewrite length_app. cbn [length]. rewrite Nat2Z.inj_add. reflexivity.
  - rewrite IH. reflexivity.
Qed.

(** The counting loop of [get_summary] counts the groups of the grouping
    view. *)
Lemma count_focus_nodes_groups rs :
  SHACLValidator.count_focus_nodes rs
  = List.map tally (group_by ValidationResult.focus_node rs).
Proof.
  unfold SHACLValidator.count_focus_nodes.
  induction rs as [|r rs IH] using rev_ind; [reflexivity|].
  rewrite group_by_snoc, fold_left_app. cbn [fold_left].
  rewrite IH. apply incr_append_to.
Qed.

Lemma map_fst_tally d : List.map fst (List.map tally d) = List.map fst d.
Proof. rewrite List.map_map. reflexivity. Qed.

(** The first largest item keeps its place: nothing before it is as large,
    nothing after it is larger. *)
Lemma max_from_first items : forall best,
  exists pre post,
    best :: items = pre ++ SHACLValidator.max_from best items :: post
    /\ (forall x, In x pre -> (snd x < snd (SHACLValidator.max_from best items))%Z)
    /\ (forall x, In x post -> (snd x <= snd (SHACLValidator.max_from best items))%Z).
Proof.
  induction items as [|x items IH]; intros best; cbn [SHACLValidator.max_from].
  - exists [], []. repeat split; intros ? [].
  - destruct (Z.ltb_spec (snd best) (snd x)) as [Hlt|Hge].
    + destruct (IH x) as (pre & post & Heq & Hpre & Hpost).
      remember (SHACLValidator.max_from x items) as m eqn:Em. clear Em.
      exists (best :: pre), post. split; [cbn [app]; f_equal; exact Heq|].
      split; [|exact Hpost].
      assert (Hx : (snd x <= snd m)%Z).
      { assert (Hin : In x (pre ++ m :: post)) by (rewrite <- Heq; left; reflexivity).
        apply in_app_iff in Hin as [Hin|[Hm|Hin]];
          [apply Z.lt_le_incl, Hpre, Hin | rewrite Hm; lia | apply Hpost, Hin]. }
      intros y [Hy|Hy]; [rewrite <- Hy; lia | apply Hpre, Hy].
    + destruct (IH best) as (pre & post & Heq & Hpre & Hpost).
      remember (SHACLValidator.max_from best items) as m eqn:Em. clear Em.
      destruct pre as [|b pre]; cbn [app] in Heq; injection Heq as Hb Hi.
      * exists [], (x :: post). split; [cbn [app]; congruence|].
        split; [intros ? []|].
        intros y [Hy|Hy]; [rewrite <- Hy, <- Hb; exact Hge | apply Hpost, Hy].
      * exists (best :: x :: pre), post.
        split; [cbn [app]; rewrite Hi; reflexivity|]. split; [|exact Hpost].
        assert (Hbest : (snd best < snd m)%Z).
        { apply Hpre. left. symmetry. exact Hb. }
        intros y [Hy|[Hy|Hy]];
          [rewrite <- Hy; exact Hbest | rewrite <- Hy; lia | apply Hpre; right; exact Hy].
Qed.

(** The keys and counts of the counting dict. *)
Lemma focus_node_counts_keys rs :
  (forall k, In k (List.map fst (SHACLValidator.count_focus_nodes rs))
             <-> In k (List.map ValidationResult.focus_node rs))
  /\ (forall k n, In (k, n) (SHACLValidator.count_focus_nodes rs) ->
        n = ValidationReport.len (with_key ValidationResult.focus_node k rs)).
Proof.
  destruct (group_by_groups ValidationResult.focus_node rs) as (_ & Hkeys & Hgroups).
  rewrite count_focus_nodes_groups, map_fst_tally. split; [exact Hkeys|].
  intros k n Hin. apply in_map_iff in Hin as ([k' l] & Heq & Hin).
  unfold tally in Heq. cbn [fst snd] in Heq. injection Heq as -> <-.
  rewrite <- (Hgroups _ _ Hin). reflexivity.
Qed.

Lemma incr_sum k d :
  fold_right Z.add 0%Z (List.map snd (SHACLValidator.incr k d))
  = (fold_right Z.add 0%Z (List.map snd d) + 1)%Z.
Proof.
  induction d as [|[k0 n0] d IH]; [reflexivity|].
  cbn [SHACLValidator.incr]. destruct (String.eqb k0 k);
    cbn [List.map snd fold_right]; [|rewrite IH]; lia.
Qed.

Lemma count_focus_nodes_sum rs :
  fold_right Z.add 0%Z (List.map snd (SHACLValidator.count_focus_nodes rs))
  = ValidationReport.len rs.
Proof.
  unfold SHACLValidator.count_focus_nodes, ValidationReport.len.
  induction rs as [|r rs IH] using rev_ind; [reflexivity|].
  rewrite fold_left_app. cbn [fold_left]. rewrite incr_sum, IH, length_app.
  cbn [length]. lia.
Qed.

End CountFacts.

(** X20.  The counting dict of [get_summary] has one entry for each focus
    node that occurs among the results, and the count in it is the number of
    results with that focus node, at least one.  So [affected_nodes] is the
    number of distinct focus nodes, and the counts add up to
    [total_results]. *)
Theorem focus_node_counts (report : ValidationReport.t) :
  let rs := ValidationReport.results report in
  let d := SHACLValidator.count_focus_nodes rs in
  List.NoDup (List.map fst d)
  /\ (forall k, In k (List.map fst d) <-> In k (List.map ValidationResult.focus_node rs))
  /\ (forall k n, In (k, n) d ->
        n = ValidationReport.len (with_key ValidationResult.focus_node k rs)
        /\ (1 <= n)%Z)
  /\ SHACLValidator.affected_nodes (SHACLValidator.get_summary report)
     = Z.of_nat (length (List.nodup string_dec
                           (List.map ValidationResult.focus_node rs)))
  /\ fold_right Z.add 0%Z (List.map snd d)
     = ValidationReport.total_results
         (SHACLValidator.base (SHACLValidator.get_summary report)).
Proof.
  intros rs d. subst d.
  destruct (group_by_groups ValidationResult.focus_node rs) as (Hnd & Hkeys & Hgroups).
  split; [|split; [|split; [|split]]]; [| | | |apply count_focus_nodes_sum];
    rewrite ?count_focus_nodes_groups, ?map_fst_tally;
    [exact Hnd | exact Hkeys | |].
  - intros k n Hin. apply in_map_iff in Hin as ([k' l] & Heq & Hin).
    unfold tally in Heq. cbn [fst snd] in Heq. injection Heq as -> <-.
    rewrite <- (Hgroups _ _ Hin). split; [reflexivity|].
    assert (Hne : l <> []).
    { rewrite (Hgroups _ _ Hin).
      assert (Hk : In k (List.map ValidationResult.focus_node rs)).
      { apply Hkeys. apply (in_map fst) in Hin. exact Hin. }
      apply in_map_iff in Hk as (r & Hr & Hin').
      intros Hnil.
      assert (Hmem : In r (with_key ValidationResult.focus_node k rs)).
      { unfold with_key. apply List.filter_In. split; [exact Hin'|].
        rewrite Hr. apply String.eqb_refl. }
      rewrite Hnil in Hmem. exact Hmem. }
    unfold ValidationReport.len. destruct l; [contradiction|]. cbn [length]. lia.
  - unfold SHACLValidator.get_summary. cbn [SHACLValidator.affected_nodes].
    fold rs. rewrite count_focus_nodes_groups.
    unfold ValidationReport.len. rewrite length_map. f_equal.
    rewrite <- (length_map fst).
    apply Permutation.Permutation_length, Permutation.NoDup_Permutation.
    + exact Hnd.
    + apply List.NoDup_nodup.
    + intros k. rewrite Hkeys, List.nodup_In. reflexivity.
Qed.

Section FirstOccurrenceFacts.
Import ReportViews.

Variable key : ValidationResult.t -> string.

(** A key that is already filed keeps its place; a new key goes last. *)
Lemma append_to_keys_order k r d :
  (In k (List.map fst d) /\ List.map fst (append_to k r d) = List.map fst d)
  \/ (~ In k (List.map fst d)
      /\ List.map fst (append_to k r d) = List.map fst d ++ [k]).
Proof.
  induction d as [|[k0 l0] d IH]; cbn [append_to List.map fst In app].
  - right. split; [intros [] | reflexivity].
  - destruct (String.eqb_spec k0 k) as [->|Hne]; cbn [List.map fst].
    + left. split; [left; reflexivity | reflexivity].
    + destruct IH as [[Hin Heq] | [Hnin Heq]]; rewrite Heq.
      * left. split; [right; exact Hin | reflexivity].
      * right. split; [|reflexivity]. intros [H|H]; [exact (Hne H) | exact (Hnin H)].
Qed.

(** The keys of a grouping stand in the order in which they first occur:
    the results before the first one with a given key have keys that stand
    before it. *)
Lemma group_by_first_occurrence rs : forall ks1 k ks2,
  List.map fst (group_by key rs) = ks1 ++ k :: ks2 ->
  exists pre r post,
    rs = pre ++ r :: post /\ key r = k
    /\ forall r', In r' pre -> In (key r') ks1.
Proof.
  induction rs as [|x rs IH] using rev_ind; intros ks1 k ks2 H.
  - destruct ks1; discriminate H.
  - rewrite group_by_snoc in H.
    destruct (append_to_keys_order (key x) x (group_by key rs))
      as [[_ Heq] | [_ Heq]]; rewrite Heq in H.
    + destruct (IH _ _ _ H) as (pre & r & post & -> & Hr & Hpre).
      exists pre, r, (post ++ [x]). rewrite <- app_assoc. auto.
    + destruct ks2 as [|z ks2].
      * apply app_inj_tail in H as [Hks <-].
        exists rs, x, []. split; [reflexivity|]. split; [reflexivity|].
        intros r' Hr'. rewrite <- Hks.
        apply (proj1 (proj2 (group_by_groups key rs))).
        apply in_map, Hr'.
      * destruct (exists_last (l := z :: ks2)) as (ks2' & z' & Hz); [discriminate|].
        rewrite Hz in H.
        change (ks1 ++ k :: ks2' ++ [z']) with (ks1 ++ (k :: ks2') ++ [z']) in H.
        rewrite app_assoc in H. apply app_inj_tail in H as [Hks _].
        destruct (IH _ _ _ Hks) as (pre & r & post & -> & Hr & Hpre).
        exists pre, r, (post ++ [x]). rewrite <- app_assoc. auto.
Qed.

End FirstOccurrenceFacts.

Section MostAffectedFacts.

(** The place of the most affected node in the counting dict. *)
Lemma most_affected_place rs k :
  SHACLValidator.most_affected (SHACLValidator.count_focus_nodes rs) = Some k ->
  exists pre post,
    SHACLValidator.count_focus_nodes rs
    = pre ++ (k, ValidationReport.len (with_key ValidationResult.focus_node k rs))
             :: post
    /\ (forall x, In x pre ->
          (snd x < ValidationReport.len
                     (with_key ValidationResult.focus_node k rs))%Z)
    /\ (forall x, In x post ->
          (snd x <= ValidationReport.len
                      (with_key ValidationResult.focus_node k rs))%Z).
Proof.
  destruct (focus_node_counts_keys rs) as (Hkeys & Hcount).
  unfold SHACLValidator.most_affected.
  destruct (SHACLValidator.count_focus_nodes rs) as [|best items] eqn:Ed;
    [discriminate|].
  intros Hk. injection Hk as <-.
  destruct (max_from_first items best) as (pre & post & Heq & Hpre & Hpost).
  assert (Hn : snd (SHACLValidator.max_from best items)
               = ValidationReport.len
                   (with_key ValidationResult.focus_node
                      (fst (SHACLValidator.max_from best items)) rs)).
  { apply Hcount. rewrite Heq. apply in_app_iff. right. left.
    destruct (SHACLValidator.max_from best items). reflexivity. }
  exists pre, post. rewrite <- Hn. split; [|split; assumption].
  rewrite Heq. destruct (SHACLValidator.max_from best items). reflexivity.
Qed.

(** The counting dict keeps the order of first occurrence in the report. *)
Lemma count_focus_nodes_order rs pre k n post :
  SHACLValidator.count_focus_nodes rs = pre ++ (k, n) :: post ->
  exists rpre r rpost,
    rs = rpre ++ r :: rpost /\ ValidationResult.focus_node r = k
    /\ forall r', In r' rpre ->
         exists n', In (ValidationResult.focus_node r', n') pre.
Proof.
  intros Hd.
  assert (Hkeys : List.map fst (group_by ValidationResult.focus_node rs)
                  = List.map fst pre ++ k :: List.map fst post).
  { rewrite <- map_fst_tally, <- count_focus_nodes_groups, Hd, List.map_app.
    reflexivity. }
  destruct (group_by_first_occurrence _ _ _ _ _ Hkeys)
    as (rpre & r & rpost & Hrs & Hr & Hpre).
  exists rpre, r, rpost. split; [exact Hrs|]. split; [exact Hr|].
  intros r' Hr'. apply Hpre in Hr'. apply in_map_iff in Hr' as ([k' n'] & Hk' & Hin).
  cbn [fst] in Hk'. subst k'. exists n'. exact Hin.
Qed.

End MostAffectedFacts.

(** X21.  [most_affected_node] is [None] exactly for a report without
    results.  Otherwise it is a focus node whose number of results is the
    largest, and among the nodes with that number the one that occurs first
    in the report: every result before its first result has a focus node
    with fewer results, and no focus node has more.  In the counting dict
    every entry before it has a smaller count, every entry after it a count
    that is not larger. *)
Theorem most_affected_node_first_maximum (report : ValidationReport.t) :
  let rs := ValidationReport.results report in
  let count := fun k => ValidationReport.len (with_key ValidationResult.focus_node k rs) in
  (SHACLValidator.most_affected_node (SHACLValidator.get_summary report) = None
   <-> rs = [])
  /\ (forall k,
        SHACLValidator.most_affected_node (SHACLValidator.get_summary report) = Some k ->
        (exists before r after,
           rs = before ++ r :: after
           /\ ValidationResult.focus_node r = k
           /\ (forall r', In r' before ->
                 (count (ValidationResult.focus_node r') < count k)%Z)
           /\ (forall r', In r' rs ->
                 (count (ValidationResult.focus_node r') <= count k)%Z))
        /\ (exists pre post,
              SHACLValidator.count_focus_nodes rs = pre ++ (k, count k) :: post
              /\ (forall x, In x pre -> (snd x < count k)%Z)
              /\ (forall x, In x post -> (snd x <= count k)%Z))).
Proof.
  intros rs count. unfold SHACLValidator.get_summary.
  cbn [SHACLValidator.most_affected_node]. fold rs.
  destruct (focus_node_counts_keys rs) as (Hkeys & Hcount).
  split.
  - unfold SHACLValidator.most_affected.
    destruct (SHACLValidator.count_focus_nodes rs) as [|best items] eqn:Ed.
    + split; [|reflexivity]. intros _.
      destruct rs as [|r rs']; [reflexivity|].
      exfalso. apply (Hkeys (ValidationResult.focus_node r)). left. reflexivity.
    + split; [discriminate|]. intros Hrs. exfalso.
      assert (Hin : In (fst best) (List.map ValidationResult.focus_node rs)).
      { apply Hkeys. left. reflexivity. }
      rewrite Hrs in Hin. exact Hin.
  - intros k Hk.
    destruct (most_affected_place rs k Hk) as (pre & post & Hd & Hpre & Hpost).
    split; [|exists pre, post; repeat split; assumption].
    destruct (count_focus_nodes_order rs _ _ _ _ Hd)
      as (before & r & after & Hrs & Hr & Hbefore).
    exists before, r, after. split; [exact Hrs|]. split; [exact Hr|]. split.
    + intros r' Hr'. destruct (Hbefore r' Hr') as [n' Hin].
      assert (Hn' : n' = count (ValidationResult.focus_node r')).
      { apply Hcount. rewrite Hd. apply in_app_iff. left. exact Hin. }
      rewrite <- Hn'. apply (Hpre _ Hin).
    + intros r' Hr'.
      assert (Hk' : In (ValidationResult.focus_node r')
                      (List.map fst (SHACLValidator.count_focus_nodes rs))).
      { apply Hkeys. apply in_map, Hr'. }
      apply in_map_iff in Hk' as ([k' n'] & Hfst & Hin). cbn [fst] in Hfst. subst k'.
      assert (Hn' : n' = count (ValidationResult.focus_node r')).
      { apply Hcount. exact Hin. }
      rewrite <- Hn'. rewrite Hd in Hin. apply in_app_iff in Hin as [Hin | [Heq | Hin]].
      * apply Z.lt_le_incl. apply (Hpre _ Hin).
      * injection Heq as _ <-. apply Z.le_refl.
      * apply (Hpost _ Hin).
Qed.

Lemma most_affected_node_first_maximum_witness :
  exists before r after,
    [sample_violation; sample_warning] = before ++ r :: after
    /\ ValidationResult.focus_node r = ValidationResult.focus_node sample_violation.
Proof.
  destruct (proj1 (proj2 (most_affected_node_first_maximum
              (ValidationReport.add_results (ValidationReport.init true 0)
                 [sample_violation; sample_warning]))
              (ValidationResult.focus_node sample_violation) eq_refl))
    as (before & r & after & Hrs & Hr & _).
  exists before, r, after. split; [exact Hrs | exact Hr].
Defined.

Section ConformsFacts.
Import ValidationReport.

(** Whether a result is a violation. *)
Definition is_violation (r : ValidationResult.t) : bool :=
  String.eqb (ValidationResult.severity r) SeverityLevel.VIOLATION.

Lemma add_result_conforms rep r :
  conforms (add_result rep r) = conforms rep && negb (is_violation r).
Proof.
  unfold add_result, is_violation.
  destruct (String.eqb _ _); cbn; [rewrite andb_false_r | rewrite andb_true_r];
    reflexivity.
Qed.

Lemma add_results_conforms rs : forall rep,
  conforms (add_results rep rs)
  = conforms rep && forallb (fun r => negb (is_violation r)) rs.
Proof.
  induction rs as [|r rs IH]; intros rep; cbn [add_results fold_left forallb].
  - rewrite andb_true_r. reflexivity.
  - fold (add_results (add_result rep r) rs).
    rewrite IH, add_result_conforms, andb_assoc. reflexivity.
Qed.

Lemma forallb_filter_nil {A} (f : A -> bool) l :
  forallb (fun x => negb (f x)) l = true <-> List.filter f l = [].
Proof.
  induction l as [|x l IH]; cbn [forallb List.filter]; [split; reflexivity|].
  destruct (f x); cbn [negb andb]; [split; discriminate | exact IH].
Qed.

End ConformsFacts.

(** X22.  For a report made by [ValidationReport(conforms)] and any
    sequence of [add_result] calls, [conforms] is true exactly when the
    report was created with [True] and holds no result of Violation
    severity.  So for a report created with [True], [is_valid] is the same
    as [conforms]; for one created with [False], [is_valid] is false even
    when there is no violation. *)
Theorem conforms_iff_no_violation
    (initial : bool) (now : Z) (rs : list ValidationResult.t) :
  let report := ValidationReport.add_results (ValidationReport.init initial now) rs in
  ValidationReport.results report = rs
  /\ (ValidationReport.conforms report = true <->
      initial = true /\ ValidationReport.get_violations report = [])
  /\ SHACLValidator.is_valid report = ValidationReport.conforms report.
Proof.
  intros report. subst report.
  assert (Hres : ValidationReport.results
                   (ValidationReport.add_results (ValidationReport.init initial now) rs)
                 = rs).
  { rewrite add_results_results. reflexivity. }
  assert (Hiff : ValidationReport.conforms
                   (ValidationReport.add_results (ValidationReport.init initial now) rs)
                 = true <->
                 initial = true
                 /\ ValidationReport.get_violations
                      (ValidationReport.add_results (ValidationReport.init initial now) rs)
                    = []).
  { unfold ValidationReport.get_violations, ValidationReport.get_results_by_severity.
    rewrite Hres, add_results_conforms, andb_true_iff.
    rewrite (forallb_filter_nil is_violation). reflexivity. }
  split; [exact Hres|]. split; [exact Hiff|].
  unfold SHACLValidator.is_valid.
  destruct (ValidationReport.conforms _) eqn:Hc; [|reflexivity].
  destruct Hiff as [Hiff _]. destruct (Hiff eq_refl) as [_ Hv].
  rewrite Hv. reflexivity.
Qed.

Section SeverityFacts.
Import ValidationReport.

(** A result whose severity is none of the three levels. *)
Definition other_severity (r : ValidationResult.t) : bool :=
  String.eqb (SeverityLevel.get_label (ValidationResult.severity r)) "Unknown".

Lemma severity_classes (s : string) :
  ((if String.eqb s SeverityLevel.VIOLATION then 1 else 0)
   + (if String.eqb s SeverityLevel.WARNING then 1 else 0)
   + (if String.eqb s SeverityLevel.INFO then 1 else 0)
   + (if String.eqb (SeverityLevel.get_label s) "Unknown" then 1 else 0) = 1)%nat.
Proof.
  unfold SeverityLevel.get_label.
  destruct (String.eqb_spec s SeverityLevel.VIOLATION) as [->|Hv]; [reflexivity|].
  destruct (String.eqb_spec s SeverityLevel.WARNING) as [->|Hw]; [reflexivity|].
  destruct (String.eqb_spec s SeverityLevel.INFO) as [->|Hi]; reflexivity.
Qed.

Lemma filter_length_cons {A} (f : A -> bool) x l :
  length (List.filter f (x :: l)) = ((if f x then 1 else 0) + length (List.filter f l))%nat.
Proof. cbn [List.filter]. destruct (f x); reflexivity. Qed.

Lemma severity_partition rs :
  (length (List.filter (fun r => String.eqb (ValidationResult.severity r)
                                   SeverityLevel.VIOLATION) rs)
   + length (List.filter (fun r => String.eqb (ValidationResult.severity r)
                                     SeverityLevel.WARNING) rs)
   + length (List.filter (fun r => String.eqb (ValidationResult.severity r)
                                     SeverityLevel.INFO) rs)
   + length (List.filter other_severity rs) = length rs)%nat.
Proof.
  induction rs as [|r rs IH]; [reflexivity|].
  rewrite !filter_length_cons. cbn [length]. unfold other_severity at 1.
  pose proof (severity_classes (ValidationResult.severity r)). lia.
Qed.

End SeverityFacts.

(** X23.  In [get_summary] the three counts are counts of disjoint sets of
    results, and [total_results] is their sum plus the number of results
    whose severity is none of the three level IRIs (the ones that
    [get_label] calls ["Unknown"]): such a result is counted in the total, in
    no category, and does not affect [conforms]. *)
Theorem summary_counts_partition (report : ValidationReport.t) :
  let s := ValidationReport.get_summary report in
  ValidationReport.total_results s
  = (ValidationReport.violation_count s + ValidationReport.warning_count s
     + ValidationReport.info_count s
     + ValidationReport.len (List.filter other_severity
                               (ValidationReport.results report)))%Z
  /\ (forall r, other_severity r = true ->
        ValidationReport.conforms (ValidationReport.add_result report r)
        = ValidationReport.conforms report
        /\ ValidationReport.get_summary (ValidationReport.add_result report r)
           = {| ValidationReport.s_conforms := ValidationReport.s_conforms s;
                ValidationReport.total_results := (ValidationReport.total_results s + 1)%Z;
                ValidationReport.violation_count := ValidationReport.violation_count s;
                ValidationReport.warning_count := ValidationReport.warning_count s;
                ValidationReport.info_count := ValidationReport.info_count s;
                ValidationReport.s_timestamp := ValidationReport.s_timestamp s;
                ValidationReport.s_shapes_loaded := ValidationReport.s_shapes_loaded s;
                ValidationReport.s_data_sources := ValidationReport.s_data_sources s |}).
Proof.
  intros s. subst s. split.
  - cbn. unfold ValidationReport.get_violations, ValidationReport.get_warnings,
      ValidationReport.get_info, ValidationReport.get_results_by_severity,
      ValidationReport.len.
    pose proof (severity_partition (ValidationReport.results report)). lia.
  - intros r Hr. unfold other_severity, SeverityLevel.get_label in Hr.
    destruct (String.eqb_spec (ValidationResult.severity r) SeverityLevel.VIOLATION)
      as [Hv|Hv]; [discriminate Hr|].
    destruct (String.eqb_spec (ValidationResult.severity r) SeverityLevel.WARNING)
      as [Hw|Hw]; [discriminate Hr|].
    destruct (String.eqb_spec (ValidationResult.severity r) SeverityLevel.INFO)
      as [Hi|Hi]; [discriminate Hr|].
    assert (Hc : ValidationReport.conforms (ValidationReport.add_result report r)
                 = ValidationReport.conforms report)
      by (apply add_result_other; exact Hv).
    split; [exact Hc|].
    unfold ValidationReport.get_summary, ValidationReport.get_violations,
      ValidationReport.get_warnings, ValidationReport.get_info,
      ValidationReport.get_results_by_severity.
    rewrite Hc, add_result_results, !List.filter_app. cbn [List.filter].
    apply String.eqb_neq in Hv, Hw, Hi. rewrite Hv, Hw, Hi, !app_nil_r.
    assert (Hrest : ValidationReport.timestamp (ValidationReport.add_result report r)
                    = ValidationReport.timestamp report
                    /\ ValidationReport.shapes_loaded (ValidationReport.add_result report r)
                       = ValidationReport.shapes_loaded report
                    /\ ValidationReport.data_sources (ValidationReport.add_result report r)
                       = ValidationReport.data_sources report).
    { unfold ValidationReport.add_result. rewrite Hv. repeat split. }
    destruct Hrest as (-> & -> & ->).
    cbn. f_equal. unfold ValidationReport.len. rewrite length_app. cbn [length]. lia.
Qed.

Definition sample_unknown : ValidationResult.t :=
  {| ValidationResult.focus_node := "http://example.org/Bob";
     ValidationResult.result_path := None;
     ValidationResult.value := None;
     ValidationResult.message := "Deprecated";
     ValidationResult.severity := "http://example.org/Deprecated";
     ValidationResult.source_constraint := None;
     ValidationResult.source_shape := Some "";
     ValidationResult.timestamp := 3%Z |}.

Lemma summary_counts_partition_witness :
  ValidationReport.conforms
    (ValidationReport.add_result (ValidationReport.init true 0) sample_unknown)
  = ValidationReport.conforms (ValidationReport.init true 0).
Proof.
  apply (proj2 (summary_counts_partition (ValidationReport.init true 0)) sample_unknown).
  reflexivity.
Defined.

(** ** validator.py: the validator object *)

(** [class SHACLValidator]: the attributes and the methods that change
    them. *)
Module SHACLValidatorState.
Import PyStr Exc.

(** The exception classes of validator.py; the last two derive from
    [SHACLValidationError].  [BuiltinError] stands for any other exception
    with its [str()]. *)
Inductive Exn : Type :=
| BuiltinError (msg : string)
| SHACLValidationError (msg : string)
| ShapeLoadError (msg : string)
| ValidationExecutionError (msg : string).

(** [str(e)] *)
Definition str_exn (e : Exn) : string :=
  match e with
  | BuiltinError m | SHACLValidationError m | ShapeLoadError m
  | ValidationExecutionError m => m
  end.

(** [isinstance(e, ShapeLoadError)] *)
Definition is_ShapeLoadError (e : Exn) : bool :=
  match e with
  | ShapeLoadError _ => true
  | _ => false
  end.

(** The file system as the validator observes it.  [load_shapes] opens
    whatever exists, so [open_special] says what opening and reading a path
    that exists and is no regular file does: it raises (a directory) with the
    given [str()], or it yields a text. *)
Record Env : Type := {
  dirs : RDFLoaderDirs.DirEnv;
  open_special : string -> outcome string string
}.

Definition files (env : Env) : RDFLoader.Env := RDFLoaderDirs.files (dirs env).

(** The attributes of a [SHACLValidator].  [rdf_loader] is the loader that
    the attribute refers to, as it is when a method runs; no method of the
    validator changes it. *)
Record t : Type := {
  rdf_loader : option RDFLoader.t;
  shapes_data : list RDFLoader.Entry;
  loaded_shape_files : list string;
  validation_count : Z
}.

(** [SHACLValidator(rdf_loader)] *)
Definition init (rdf_loader : option RDFLoader.t) : t :=
  {| rdf_loader := rdf_loader;
     shapes_data := [];
     loaded_shape_files := [];
     validation_count := 0 |}.

(** [set_rdf_loader(rdf_loader)] *)
Definition set_rdf_loader (rdf_loader : option RDFLoader.t) : M t Exn unit :=
  modify (fun self =>
    {| rdf_loader := rdf_loader;
       shapes_data := shapes_data self;
       loaded_shape_files := loaded_shape_files self;
       validation_count := validation_count self |}).

(** [Path.exists()] *)
Definition exists_ (env : Env) (p : string) : outcome Exn bool :=
  match RDFLoader.node (files env) p with
  | RDFLoader.StatError err => Raise (BuiltinError err)
  | RDFLoader.Absent => Return false
  | _ => Return true
  end.

(** [with open(file_path) as f: content = f.read()].  [load_shapes] opens
    only a path that exists; on the others [open] raises the error of the
    missing file, or the one that [exists()] raised. *)
Definition read_text (env : Env) (file_path : string) : outcome Exn string :=
  match RDFLoader.node (files env) file_path with
  | RDFLoader.Regular c => Return c
  | RDFLoader.Unreadable err => Raise (BuiltinError err)
  | RDFLoader.NotRegular =>
      match open_special env file_path with
      | Return c => Return c
      | Raise err => Raise (BuiltinError err)
      end
  | RDFLoader.Absent =>
      Raise (BuiltinError
               ("[Errno 2] No such file or directory: '" +:+ file_path +:+ "'"))
  | RDFLoader.StatError err => Raise (BuiltinError err)
  end.

(** [list(directory_path.glob(pattern))] *)
Definition list_glob (env : Env) (directory_path pattern : string)
  : outcome Exn (list string) :=
  match RDFLoaderDirs.glob (dirs env) directory_path pattern with
  | Return file_paths => Return file_paths
  | Raise msg => Raise (BuiltinError msg)
  end.

(** [self.shapes_data.append({'file': f, 'content': c})] *)
Definition append_shapes_data (f c : string) : M t Exn unit :=
  modify (fun self =>
    {| rdf_loader := rdf_loader self;
       shapes_data := shapes_data self
                      ++ [{| RDFLoader.file := f; RDFLoader.content := c |}];
       loaded_shape_files := loaded_shape_files self;
       validation_count := validation_count self |}).

(** [self.loaded_shape_files.append(f)] *)
Definition append_loaded_shape_file (f : string) : M t Exn unit :=
  modify (fun self =>
    {| rdf_loader := rdf_loader self;
       shapes_data := shapes_data self;
       loaded_shape_files := loaded_shape_files self ++ [f];
       validation_count := validation_count self |}).

(** [load_shapes(file_path)]; the test [exists()] stands before the
    [try]. *)
Definition load_shapes (env : Env) (file_path : string) : M t Exn bool :=
  let file_path := RDFLoader.path_str (files env) file_path in
  found <- lift (exists_ env file_path) ;;
  if negb found then
    raise (ShapeLoadError ("Shapes file not found: " +:+ file_path))
  else
    try_except
      (content <- lift (read_text env file_path) ;;
       append_shapes_data file_path content ;;;
       append_loaded_shape_file file_path ;;;
       ret true)
      (fun e =>
         raise (ShapeLoadError
                  ("Error loading shapes from " +:+ file_path +:+ ": " +:+ str_exn e))).

(** The [for] loop of [load_shapes_directory], with its two local lists. *)
Fixpoint load_shapes_loop (env : Env) (file_paths : list string)
    (successful_files failed_files : list string)
  : M t Exn (list string * list string) :=
  match file_paths with
  | [] => ret (successful_files, failed_files)
  | file_path :: rest =>
      lists <- try_except
                 (load_shapes env file_path ;;;
                  ret (successful_files ++ [file_path], failed_files))
                 (fun e =>
                    if is_ShapeLoadError e
                    then ret (successful_files, failed_files ++ [file_path])
                    else raise e) ;;
      load_shapes_loop env rest (fst lists) (snd lists)
  end.

(** [load_shapes_directory(directory_path, pattern)]; only the calls of
    [load_shapes] stand in a [try]. *)
Definition load_shapes_directory (env : Env) (directory_path pattern : string)
  : M t Exn (list string * list string) :=
  let directory_path := RDFLoader.path_str (files env) directory_path in
  found <- lift (exists_ env directory_path) ;;
  if negb found then
    raise (ShapeLoadError ("Directory not found: " +:+ directory_path))
  else
    file_paths <- lift (list_glob env directory_path pattern) ;;
    load_shapes_loop env file_paths [] [].

(** [_simulate_validation(report)]: its body is [pass]. *)
Definition _simulate_validation (report : ValidationReport.t) : ValidationReport.t :=
  report.

(** [self.validation_count += 1] *)
Definition count_validation : M t Exn unit :=
  modify (fun self =>
    {| rdf_loader := rdf_loader self;
       shapes_data := shapes_data self;
       loaded_shape_files := loaded_shape_files self;
       validation_count := (validation_count self + 1)%Z |}).

(** [validate(data_graph)] at time [now]; of [data_graph] the method only
    asks whether it is [None]. *)
Definition validate {G : Type} (now : Z) (data_graph : option G)
  : M t Exn ValidationReport.t :=
  self <- get ;;
  match shapes_data self with
  | [] =>
      raise (ValidationExecutionError
               "No SHACL shapes loaded. Call load_shapes() first.")
  | _ :: _ =>
      match data_graph, rdf_loader self with
      | None, None =>
          raise (ValidationExecutionError "No RDF data available for validation")
      | _, _ =>
          try_except
            (let report := ValidationReport.init true now in
             let report :=
               {| ValidationReport.conforms := ValidationReport.conforms report;
                  ValidationReport.results := ValidationReport.results report;
                  ValidationReport.timestamp := ValidationReport.timestamp report;
                  ValidationReport.shapes_loaded := loaded_shape_files self;
                  ValidationReport.data_sources := ValidationReport.data_sources report |} in
             let report :=
               match rdf_loader self with
               | Some loader =>
                   {| ValidationReport.conforms := ValidationReport.conforms report;
                      ValidationReport.results := ValidationReport.results report;
                      ValidationReport.timestamp := ValidationReport.timestamp report;
                      ValidationReport.shapes_loaded := ValidationReport.shapes_loaded report;
                      ValidationReport.data_sources := RDFLoader.get_loaded_files loader |}
               | None => report
               end in
             let report := _simulate_validation report in
             count_validation ;;;
             ret report)
            (fun e =>
               raise (ValidationExecutionError
                        ("Error executing validation: " +:+ str_exn e)))
      end
  end.

(** The body of the loop of [validate_node] for one result. *)
Definition keep_result (node_uri : string) (shape_uri : option string)
    (node_report : ValidationReport.t) (result : ValidationResult.t)
  : ValidationReport.t :=
  if String.eqb (ValidationResult.focus_node result) node_uri then
    if match shape_uri, ValidationResult.source_shape result with
       | None, _ => true
       | Some s, Some s' => String.eqb s' s
       | Some _, None => false
       end
    then ValidationReport.add_result node_report result
    else node_report
  else node_report.

(** The report that [validate_node] makes of the full report, at time
    [now]. *)
Definition node_report_of (now : Z) (node_uri : string) (shape_uri : option string)
    (full_report : ValidationReport.t) : ValidationReport.t :=
  let node_report := ValidationReport.init true now in
  let node_report :=
    {| ValidationReport.conforms := ValidationReport.conforms node_report;
       ValidationReport.results := ValidationReport.results node_report;
       ValidationReport.timestamp := ValidationReport.timestamp node_report;
       ValidationReport.shapes_loaded := ValidationReport.shapes_loaded full_report;
       ValidationReport.data_sources := ValidationReport.data_sources full_report |} in
  fold_left (keep_result node_uri shape_uri) (ValidationReport.results full_report)
            node_report.

(** [validate_node(node_uri, shape_uri)]; the full report is made at time
    [now] and the node's report at time [now']. *)
Definition validate_node (now now' : Z) (node_uri : string) (shape_uri : option string)
  : M t Exn ValidationReport.t :=
  try_except
    (full_report <- validate now (@None unit) ;;
     ret (node_report_of now' node_uri shape_uri full_report))
    (fun e =>
       raise (ValidationExecutionError
                ("Error validating node " +:+ node_uri +:+ ": " +:+ str_exn e))).

(** [clear_shapes()] *)
Definition clear_shapes : M t Exn unit :=
  modify (fun self =>
    {| rdf_loader := rdf_loader self;
       shapes_data := [];
       loaded_shape_files := [];
       validation_count := validation_count self |}).

(** [get_loaded_shapes()] *)
Definition get_loaded_shapes (self : t) : list string := loaded_shape_files self.

(** The dict returned by [get_statistics()]. *)
Record Statistics : Type := {
  st_shapes_loaded : Z;
  st_validation_count : Z;
  st_shape_files : list string
}.

(** [get_statistics()] *)
Definition get_statistics (self : t) : Statistics :=
  {| st_shapes_loaded := ValidationReport.len (loaded_shape_files self);
     st_validation_count := validation_count self;
     st_shape_files := loaded_shape_files self |}.

(** [create_validator(ontology_dir, validation_dir, data_dir)]: the
    validator it returns, or the exception that leaves it, which is one of
    the loader or one of the validator.  The call of [load_ontology_files]
    and the test [validation_path.exists()] stand outside the [try]. *)
Definition create_validator (env : Env) (ontology_dir validation_dir data_dir : string)
  : outcome (RDFLoader.Exn + Exn) t :=
  match RDFLoaderDirs.load_ontology_files (dirs env) ontology_dir validation_dir data_dir with
  | Raise e => Raise (inl e)
  | Return loader =>
      let validator := init (Some loader) in
      match exists_ env (RDFLoader.path_str (files env) validation_dir) with
      | Raise e => Raise (inr e)
      | Return true =>
          match try_except
                  (load_shapes_directory env validation_dir "*.ttl" ;;; ret tt)
                  (fun _ => ret tt) validator with
          | (Return _, validator) => Return validator
          | (Raise e, _) => Raise (inr e)
          end
      | Return false => Return validator
      end
  end.

End SHACLValidatorState.

Section ShapeFacts.
Import PyStr Exc SHACLValidatorState.

Variable env : Env.

(** The validator after a successful [load_shapes] of [content] under the
    name [file_path]. *)
Definition add_shape (file_path content : string) (self : t) : t :=
  {| rdf_loader := rdf_loader self;
     shapes_data := shapes_data self
                    ++ [{| RDFLoader.file := file_path; RDFLoader.content := content |}];
     loaded_shape_files := loaded_shape_files self ++ [file_path];
     validation_count := validation_count self |}.

(** What [load_shapes] makes of a path, as far as the file system decides
    it: the content it will store, or the exception it will raise. *)
Definition shape_outcome (file_path : string) : outcome Exn string :=
  let fp := RDFLoader.path_str (files env) file_path in
  match exists_ env fp with
  | Raise e => Raise e
  | Return false => Raise (ShapeLoadError ("Shapes file not found: " +:+ fp))
  | Return true =>
      match read_text env fp with
      | Return c => Return c
      | Raise e =>
          Raise (ShapeLoadError
                   ("Error loading shapes from " +:+ fp +:+ ": " +:+ str_exn e))
      end
  end.

(** Whether [load_shapes] returns on a path. *)
Definition readable (file_path : string) : bool :=
  match shape_outcome file_path with
  | Return _ => true
  | Raise _ => false
  end.

(** Whether [Path.exists()] answers on a path, instead of raising. *)
Definition examinable (file_path : string) : bool :=
  match exists_ env (RDFLoader.path_str (files env) file_path) with
  | Return _ => true
  | Raise _ => false
  end.

(** The paths before the first one on which [exists()] raises. *)
Fixpoint until_unexaminable (file_paths : list string) : list string :=
  match file_paths with
  | [] => []
  | p :: rest => if examinable p then p :: until_unexaminable rest else []
  end.

(** The validator after a call of [load_shapes], whatever its outcome. *)
Definition load_shape (self : t) (file_path : string) : t :=
  match shape_outcome file_path with
  | Return c => add_shape (RDFLoader.path_str (files env) file_path) c self
  | Raise _ => self
  end.

(** The validator after [load_shapes] has been called on each path. *)
Definition load_shapes_all (file_paths : list string) (self : t) : t :=
  fold_left load_shape file_paths self.

(** The paths that [load_shapes_directory] finds: none when the path does
    not exist or the listing raises. *)
Definition shape_listing (directory pattern : string) : list string :=
  let d := RDFLoader.path_str (files env) directory in
  match exists_ env d with
  | Return true =>
      match list_glob env d pattern with
      | Return file_paths => file_paths
      | Raise _ => []
      end
  | _ => []
  end.

Lemma load_shapes_spec p self :
  load_shapes env p self =
  match shape_outcome p with
  | Return c => (Return true, add_shape (RDFLoader.path_str (files env) p) c self)
  | Raise e => (Raise e, self)
  end.
Proof.
  unfold load_shapes, shape_outcome. cbn zeta. unfold bind at 1. unfold lift at 1.
  destruct (exists_ env _) as [[|]|e]; [|reflexivity|reflexivity].
  cbn [negb]. unfold try_except, bind, lift.
  destruct (read_text env _) as [c|e]; reflexivity.
Qed.

Lemma load_shapes_state p self : snd (load_shapes env p self) = load_shape self p.
Proof.
  rewrite load_shapes_spec. unfold load_shape.
  destruct (shape_outcome p); reflexivity.
Qed.

Lemma shape_outcome_error_class p e :
  examinable p = true -> shape_outcome p = Raise e -> is_ShapeLoadError e = true.
Proof.
  unfold examinable, shape_outcome. cbn zeta.
  destruct (exists_ env _) as [[|]|e']; intros Hx; try discriminate Hx.
  - destruct (read_text env _); [discriminate|]. intros H. injection H as <-. reflexivity.
  - intros H. injection H as <-. reflexivity.
Qed.

Lemma exists_stat_error_shape p err :
  RDFLoader.node (files env) (RDFLoader.path_str (files env) p) = RDFLoader.StatError err ->
  exists_ env (RDFLoader.path_str (files env) p) = Raise (BuiltinError err).
Proof. unfold exists_. intros ->. reflexivity. Qed.

Lemma shape_outcome_unexaminable p :
  examinable p = false ->
  exists err,
    RDFLoader.node (files env) (RDFLoader.path_str (files env) p) = RDFLoader.StatError err
    /\ shape_outcome p = Raise (BuiltinError err).
Proof.
  unfold examinable, shape_outcome, exists_. cbn zeta.
  destruct (RDFLoader.node (files env) _) as [| |e|c|err]; try discriminate.
  intros _. exists err. split; reflexivity.
Qed.

(** When [exists()] answers on every path, the loop does not raise and
    sorts the paths. *)
Lemma load_shapes_loop_spec ps : forall succ fail self,
  Forall (fun p => examinable p = true) ps ->
  load_shapes_loop env ps succ fail self =
  (Return (succ ++ List.filter readable ps,
           fail ++ List.filter (fun p => negb (readable p)) ps),
   load_shapes_all ps self).
Proof.
  induction ps as [|p ps IH]; intros succ fail self Hps.
  - cbn. rewrite !app_nil_r. reflexivity.
  - inversion_clear Hps as [|? ? Hp Hps'].
    cbn [load_shapes_loop List.filter load_shapes_all fold_left].
    unfold bind at 1. unfold try_except, bind. rewrite load_shapes_spec.
    unfold readable, load_shape.
    destruct (shape_outcome p) as [c|e] eqn:E; cbn [ret fst snd negb].
    + rewrite (IH _ _ _ Hps'). unfold load_shapes_all. rewrite <- !app_assoc.
      reflexivity.
    + rewrite (shape_outcome_error_class _ _ Hp E). cbn [ret fst snd].
      rewrite (IH _ _ _ Hps'). unfold load_shapes_all. rewrite <- !app_assoc.
      reflexivity.
Qed.

(** The loop ends at the first path on which [exists()] raises: the
    [OSError] is no [ShapeLoadError] and is not caught. *)
Lemma load_shapes_loop_escape pre p post err : forall succ fail self,
  Forall (fun q => examinable q = true) pre ->
  RDFLoader.node (files env) (RDFLoader.path_str (files env) p) = RDFLoader.StatError err ->
  load_shapes_loop env (pre ++ p :: post) succ fail self =
  (Raise (BuiltinError err), load_shapes_all pre self).
Proof.
  induction pre as [|q pre IH]; intros succ fail self Hpre Hp.
  - cbn [app load_shapes_loop]. unfold bind at 1. unfold try_except, bind.
    rewrite load_shapes_spec. unfold shape_outcome. cbn zeta.
    rewrite (exists_stat_error_shape _ _ Hp). reflexivity.
  - inversion_clear Hpre as [|? ? Hq Hpre'].
    cbn [app load_shapes_loop load_shapes_all fold_left].
    unfold bind at 1. unfold try_except, bind. rewrite load_shapes_spec.
    unfold load_shape.
    destruct (shape_outcome q) as [c|e] eqn:E; cbn [ret fst snd].
    + apply IH; assumption.
    + rewrite (shape_outcome_error_class _ _ Hq E). cbn [ret fst snd].
      apply IH; assumption.
Qed.

Lemma until_unexaminable_all ps :
  Forall (fun p => examinable p = true) ps -> until_unexaminable ps = ps.
Proof.
  induction 1 as [|p ps Hp _ IH]; [reflexivity|].
  cbn [until_unexaminable]. rewrite Hp, IH. reflexivity.
Qed.

Lemma until_unexaminable_split ps :
  Forall (fun p => examinable p = true) ps
  \/ exists p post,
       ps = until_unexaminable ps ++ p :: post /\ examinable p = false.
Proof.
  induction ps as [|q ps IH]; [left; constructor|].
  cbn [until_unexaminable]. destruct (examinable q) eqn:Hq.
  - destruct IH as [IH | (p & post & Heq & Hp)].
    + left. constructor; assumption.
    + right. exists p, post. split; [|exact Hp]. cbn [app]. f_equal. exact Heq.
  - right. exists q, ps. split; [reflexivity | exact Hq].
Qed.

Lemma until_unexaminable_ok ps :
  Forall (fun p => examinable p = true) (until_unexaminable ps).
Proof.
  induction ps as [|q ps IH]; [constructor|].
  cbn [until_unexaminable]. destruct (examinable q) eqn:Hq; constructor; assumption.
Qed.

(** The validator that the loop leaves behind, whether it returns or not. *)
Lemma load_shapes_loop_state ps succ fail self :
  snd (load_shapes_loop env ps succ fail self)
  = load_shapes_all (until_unexaminable ps) self.
Proof.
  destruct (until_unexaminable_split ps) as [Hall | (p & post & Heq & Hp)].
  - rewrite (load_shapes_loop_spec _ _ _ _ Hall), (until_unexaminable_all _ Hall).
    reflexivity.
  - destruct (shape_outcome_unexaminable _ Hp) as (err & Hn & _).
    pose proof (load_shapes_loop_escape _ p post err succ fail self
                  (until_unexaminable_ok ps) Hn) as Hrun.
    rewrite <- Heq in Hrun. rewrite Hrun. reflexivity.
Qed.

Lemma load_shapes_all_files ps : forall self,
  loaded_shape_files (load_shapes_all ps self)
  = loaded_shape_files self
    ++ List.map (RDFLoader.path_str (files env)) (List.filter readable ps).
Proof.
  induction ps as [|p ps IH]; intros self; cbn [load_shapes_all fold_left List.filter].
  - cbn. rewrite app_nil_r. reflexivity.
  - fold (load_shapes_all ps (load_shape self p)). rewrite IH.
    unfold load_shape, readable.
    destruct (shape_outcome p) as [c|e]; cbn [List.map add_shape loaded_shape_files];
      rewrite <- ?app_assoc; reflexivity.
Qed.

Lemma load_shapes_all_rest ps : forall self,
  rdf_loader (load_shapes_all ps self) = rdf_loader self
  /\ validation_count (load_shapes_all ps self) = validation_count self.
Proof.
  induction ps as [|p ps IH]; intros self; cbn [load_shapes_all fold_left].
  - split; reflexivity.
  - fold (load_shapes_all ps (load_shape self p)).
    destruct (IH (load_shape self p)) as [-> ->].
    unfold load_shape.
    destruct (shape_outcome p) as [c|e]; split; reflexivity.
Qed.

Lemma load_shapes_directory_spec directory pattern self :
  load_shapes_directory env directory pattern self =
  let d := RDFLoader.path_str (files env) directory in
  match exists_ env d with
  | Raise e => (Raise e, self)
  | Return false => (Raise (ShapeLoadError ("Directory not found: " +:+ d)), self)
  | Return true =>
      match list_glob env d pattern with
      | Raise e => (Raise e, self)
      | Return file_paths => load_shapes_loop env file_paths [] [] self
      end
  end.
Proof.
  unfold load_shapes_directory. cbn zeta. unfold bind at 1. unfold lift at 1.
  destruct (exists_ env _) as [[|]|e]; [|reflexivity|reflexivity].
  cbn [negb]. unfold bind, lift.
  destruct (list_glob env _ pattern) as [file_paths|e]; reflexivity.
Qed.

(** The validator after [load_shapes_directory], whatever its outcome: the
    shapes found are loaded up to the first path on which [exists()]
    raises. *)
Lemma load_shapes_directory_state directory pattern self :
  snd (load_shapes_directory env directory pattern self)
  = load_shapes_all (until_unexaminable (shape_listing directory pattern)) self.
Proof.
  rewrite load_shapes_directory_spec. unfold shape_listing. cbn zeta.
  destruct (exists_ env _) as [[|]|e]; [|reflexivity|reflexivity].
  destruct (list_glob env _ pattern) as [file_paths|e]; [|reflexivity].
  apply load_shapes_loop_state.
Qed.

(** The two lists of shapes name the same files. *)
Definition consistent (self : t) : Prop :=
  List.map RDFLoader.file (shapes_data self) = loaded_shape_files self.

Lemma load_shape_consistent self p : consistent self -> consistent (load_shape self p).
Proof.
  unfold consistent, load_shape. intros H.
  destruct (shape_outcome p) as [c|e]; try exact H.
  cbn [add_shape shapes_data loaded_shape_files]. rewrite List.map_app, H. reflexivity.
Qed.

Lemma load_shapes_all_consistent ps : forall self,
  consistent self -> consistent (load_shapes_all ps self).
Proof.
  induction ps as [|p ps IH]; intros self H; [exact H|].
  cbn [load_shapes_all fold_left]. apply IH, load_shape_consistent, H.
Qed.

End ShapeFacts.

(** X24.  [load_shapes] stores any regular file it can read, whatever its
    content: there is no syntax check, so a text that [load_file] rejects is
    accepted as shapes, and a file loaded twice is stored twice.  A missing
    path raises [ShapeLoadError].  An exception that leaves the method
    leaves the validator as it was, and is a [ShapeLoadError], except the
    [OSError] that [exists()] itself raises before the [try], which comes
    out as it is.  A call that returns gives [True] and has appended one
    entry to each of the two lists. *)
Theorem load_shapes_outcome
    (env : SHACLValidatorState.Env) (file_path : string) (self : SHACLValidatorState.t) :
  let fp := RDFLoader.path_str (SHACLValidatorState.files env) file_path in
  (forall c, RDFLoader.node (SHACLValidatorState.files env) fp = RDFLoader.Regular c ->
     SHACLValidatorState.load_shapes env file_path self
     = (Exc.Return true, add_shape fp c self))
  /\ (RDFLoader.node (SHACLValidatorState.files env) fp = RDFLoader.Absent ->
      SHACLValidatorState.load_shapes env file_path self
      = (Exc.Raise (SHACLValidatorState.ShapeLoadError
                      ("Shapes file not found: " +:+ fp)), self))
  /\ (forall err,
        RDFLoader.node (SHACLValidatorState.files env) fp = RDFLoader.StatError err ->
        SHACLValidatorState.load_shapes env file_path self
        = (Exc.Raise (SHACLValidatorState.BuiltinError err), self))
  /\ (forall e st,
        SHACLValidatorState.load_shapes env file_path self = (Exc.Raise e, st) ->
        st = self
        /\ (SHACLValidatorState.is_ShapeLoadError e = true
            \/ exists err,
                 RDFLoader.node (SHACLValidatorState.files env) fp
                 = RDFLoader.StatError err
                 /\ e = SHACLValidatorState.BuiltinError err))
  /\ (forall b st,
        SHACLValidatorState.load_shapes env file_path self = (Exc.Return b, st) ->
        b = true /\ exists c, st = add_shape fp c self).
Proof.
  intros fp. subst fp. rewrite load_shapes_spec.
  unfold shape_outcome, SHACLValidatorState.exists_, SHACLValidatorState.read_text.
  cbn zeta.
  split; [|split; [|split; [|split]]].
  - intros c ->. reflexivity.
  - intros ->. reflexivity.
  - intros err ->. reflexivity.
  - intros e st.
    destruct (RDFLoader.node _ _) as [| |err|c|err];
      [| destruct (SHACLValidatorState.open_special env _) | | |];
      intros H; inversion H; subst; (split; [reflexivity|]);
      try (left; reflexivity).
    right. exists err. split; reflexivity.
  - intros b st.
    destruct (RDFLoader.node _ _) as [| |err|c|err];
      [| destruct (SHACLValidatorState.open_special env _) as [c|err] | | |];
      intros H; inversion H; subst; (split; [reflexivity|]); eexists; reflexivity.
Qed.

(** The sample directories, where opening a directory fails. *)
Definition sample_shapes_env : SHACLValidatorState.Env :=
  {| SHACLValidatorState.dirs := sample_dirs;
     SHACLValidatorState.open_special := fun p =>
       Exc.Raise ("[Errno 21] Is a directory: '" +:+ p +:+ "'") |}.

Lemma load_shapes_outcome_witness :
  SHACLValidatorState.load_shapes sample_shapes_env "bad.ttl"
    (SHACLValidatorState.init None)
  = (Exc.Return true,
     add_shape "bad.ttl" "@prefix ex <http://example.org/>"
       (SHACLValidatorState.init None)).
Proof.
  apply (proj1 (load_shapes_outcome sample_shapes_env "bad.ttl"
                  (SHACLValidatorState.init None))).
  reflexivity.
Defined.

(** X25.  [load_shapes_directory] raises [ShapeLoadError] when the path does
    not exist, and lets out the [OSError] of [exists()] and whatever the
    listing raises (an empty pattern); it changes nothing then.  There is
    no check that the path is a directory.  On the paths found it calls
    [load_shapes] in order.  When [exists()] answers on each of them the
    call returns, without a flag to ask for it: the two lists split the
    paths into those on which [load_shapes] returns and the others, and the
    validator has gained the first ones.  At the first path on which
    [exists()] raises the call ends with that [OSError], keeping the shapes
    loaded before it. *)
Theorem load_shapes_directory_partition
    (env : SHACLValidatorState.Env) (directory pattern : string)
    (self : SHACLValidatorState.t) :
  let d := RDFLoader.path_str (SHACLValidatorState.files env) directory in
  let call := SHACLValidatorState.load_shapes_directory env directory pattern self in
  (forall e, SHACLValidatorState.exists_ env d = Exc.Raise e -> call = (Exc.Raise e, self))
  /\ (SHACLValidatorState.exists_ env d = Exc.Return false ->
      call = (Exc.Raise (SHACLValidatorState.ShapeLoadError
                           ("Directory not found: " +:+ d)), self))
  /\ (SHACLValidatorState.exists_ env d = Exc.Return true ->
      (forall e,
         SHACLValidatorState.list_glob env d pattern = Exc.Raise e ->
         call = (Exc.Raise e, self))
      /\ (forall found,
            SHACLValidatorState.list_glob env d pattern = Exc.Return found ->
            (Forall (fun p => examinable env p = true) found ->
             fst call = Exc.Return (List.filter (readable env) found,
                                    List.filter (fun p => negb (readable env p)) found)
             /\ SHACLValidatorState.loaded_shape_files (snd call)
                = SHACLValidatorState.loaded_shape_files self
                  ++ List.map (RDFLoader.path_str (SHACLValidatorState.files env))
                       (List.filter (readable env) found)
             /\ SHACLValidatorState.rdf_loader (snd call)
                = SHACLValidatorState.rdf_loader self
             /\ SHACLValidatorState.validation_count (snd call)
                = SHACLValidatorState.validation_count self)
            /\ (forall pre p post err,
                  found = pre ++ p :: post ->
                  Forall (fun q => examinable env q = true) pre ->
                  RDFLoader.node (SHACLValidatorState.files env)
                    (RDFLoader.path_str (SHACLValidatorState.files env) p)
                  = RDFLoader.StatError err ->
                  call = (Exc.Raise (SHACLValidatorState.BuiltinError err),
                          load_shapes_all env pre self))))
  /\ (forall p st,
        readable env p = true <->
        exists st', SHACLValidatorState.load_shapes env p st = (Exc.Return true, st')).
Proof.
  intros d call. subst d call. rewrite load_shapes_directory_spec. cbn zeta.
  split; [|split; [|split]].
  - intros e ->. reflexivity.
  - intros ->. reflexivity.
  - intros ->. split.
    + intros e ->. reflexivity.
    + intros found ->. split.
      * intros Hall. rewrite (load_shapes_loop_spec env _ _ _ _ Hall). cbn [fst snd app].
        split; [reflexivity|].
        split; [apply load_shapes_all_files|]. apply load_shapes_all_rest.
      * intros pre p post err -> Hpre Hp. apply load_shapes_loop_escape; assumption.
  - intros p st. rewrite load_shapes_spec. unfold readable.
    destruct (shape_outcome env p) as [c|e]; split;
      try discriminate; try (intros [st' H]; discriminate H);
      try (intros _; eexists; reflexivity); reflexivity.
Qed.

Lemma load_shapes_directory_partition_witness :
  fst (SHACLValidatorState.load_shapes_directory sample_shapes_env "ontology" "*.ttl"
         (SHACLValidatorState.init None))
  = Exc.Return (["bad.ttl"; "core.ttl"], []).
Proof.
  assert (Hall : Forall (fun p => examinable sample_shapes_env p = true)
                   ["bad.ttl"; "core.ttl"])
    by (repeat constructor).
  exact (proj1 (proj1 (proj2 (proj1 (proj2 (proj2
           (load_shapes_directory_partition sample_shapes_env "ontology" "*.ttl"
              (SHACLValidatorState.init None)))) eq_refl)
           ["bad.ttl"; "core.ttl"] eq_refl) Hall)).
Defined.

Section ValidateRunFacts.
Import PyStr Exc SHACLValidatorState.

(** The validator after a validation that returned. *)
Definition counted_validation (self : t) : t :=
  {| rdf_loader := rdf_loader self;
     shapes_data := shapes_data self;
     loaded_shape_files := loaded_shape_files self;
     validation_count := (validation_count self + 1)%Z |}.

(** The report that [validate] returns. *)
Definition empty_report (now : Z) (self : t) : ValidationReport.t :=
  {| ValidationReport.conforms := true;
     ValidationReport.results := [];
     ValidationReport.timestamp := now;
     ValidationReport.shapes_loaded := loaded_shape_files self;
     ValidationReport.data_sources :=
       match rdf_loader self with
       | Some loader => RDFLoader.loaded_files loader
       | None => []
       end |}.

Lemma validate_spec {G : Type} now (data_graph : option G) self :
  validate now data_graph self =
  match shapes_data self with
  | [] => (Raise (ValidationExecutionError
                    "No SHACL shapes loaded. Call load_shapes() first."), self)
  | _ :: _ =>
      match data_graph, rdf_loader self with
      | None, None =>
          (Raise (ValidationExecutionError "No RDF data available for validation"), self)
      | _, _ => (Return (empty_report now self), counted_validation self)
      end
  end.
Proof.
  unfold validate, bind, get, empty_report.
  destruct (shapes_data self); [reflexivity|].
  destruct data_graph, (rdf_loader self); reflexivity.
Qed.

Lemma validate_node_spec now now' node_uri shape_uri self :
  validate_node now now' node_uri shape_uri self =
  match shapes_data self with
  | [] => (Raise (ValidationExecutionError
                    ("Error validating node " +:+ node_uri +:+ ": " +:+
                     "No SHACL shapes loaded. Call load_shapes() first.")), self)
  | _ :: _ =>
      match rdf_loader self with
      | None =>
          (Raise (ValidationExecutionError
                    ("Error validating node " +:+ node_uri +:+ ": " +:+
                     "No RDF data available for validation")), self)
      | Some _ => (Return (empty_report now' self), counted_validation self)
      end
  end.
Proof.
  unfold validate_node, try_except, bind. rewrite validate_spec.
  destruct (shapes_data self); [reflexivity|].
  destruct (rdf_loader self); reflexivity.
Qed.

End ValidateRunFacts.

(** X26.  [validate] raises [ValidationExecutionError] when no shapes are
    loaded, and when neither a data graph is given nor a loader is set; the
    validator is unchanged then.  In every other case it returns a report
    that conforms and has no result, whatever the shapes and the data are,
    names the shape files and the loader's files, and it counts one
    validation. *)
Theorem validate_outcome
    (G : Type) (now : Z) (data_graph : option G) (self : SHACLValidatorState.t) :
  (SHACLValidatorState.shapes_data self = [] ->
   SHACLValidatorState.validate now data_graph self
   = (Exc.Raise (SHACLValidatorState.ValidationExecutionError
                   "No SHACL shapes loaded. Call load_shapes() first."), self))
  /\ (SHACLValidatorState.shapes_data self <> [] ->
      data_graph = None -> SHACLValidatorState.rdf_loader self = None ->
      SHACLValidatorState.validate now data_graph self
      = (Exc.Raise (SHACLValidatorState.ValidationExecutionError
                      "No RDF data available for validation"), self))
  /\ (SHACLValidatorState.shapes_data self <> [] ->
      data_graph <> None \/ SHACLValidatorState.rdf_loader self <> None ->
      exists report,
        SHACLValidatorState.validate now data_graph self
        = (Exc.Return report, counted_validation self)
        /\ ValidationReport.results report = []
        /\ ValidationReport.conforms report = true
        /\ SHACLValidator.is_valid report = true
        /\ ValidationReport.timestamp report = now
        /\ ValidationReport.shapes_loaded report
           = SHACLValidatorState.loaded_shape_files self
        /\ ValidationReport.data_sources report
           = match SHACLValidatorState.rdf_loader self with
             | Some loader => RDFLoader.get_loaded_files loader
             | None => []
             end).
Proof.
  rewrite validate_spec. split; [|split].
  - intros ->. reflexivity.
  - intros Hs -> ->. destruct (SHACLValidatorState.shapes_data self); [contradiction|].
    reflexivity.
  - intros Hs Hd. destruct (SHACLValidatorState.shapes_data self); [contradiction|].
    exists (empty_report now self).
    split; [|repeat split].
    destruct data_graph, (SHACLValidatorState.rdf_loader self); try reflexivity.
    destruct Hd as [Hd|Hd]; contradiction.
Qed.

(** A validator with one shape file and no loader. *)
Definition sample_validator : SHACLValidatorState.t :=
  add_shape "bad.ttl" "@prefix ex <http://example.org/>" (SHACLValidatorState.init None).

Lemma validate_outcome_witness :
  SHACLValidatorState.validate 7 (@None unit) sample_validator
  = (Exc.Raise (SHACLValidatorState.ValidationExecutionError
                  "No RDF data available for validation"), sample_validator).
Proof.
  apply (proj1 (proj2 (validate_outcome unit 7 None sample_validator))).
  - discriminate.
  - reflexivity.
  - reflexivity.
Defined.

(** X27.  [validate_node] runs [validate] without a data graph, so it needs
    shapes and a loader; the error of [validate] comes back as a
    [ValidationExecutionError] whose message is the inner one behind
    ["Error validating node <node>: "], and the validator is unchanged.
    Otherwise the call returns a conforming report without results for any
    node and shape, and counts one validation. *)
Theorem validate_node_outcome
    (now now' : Z) (node_uri : string) (shape_uri : option string)
    (self : SHACLValidatorState.t) :
  (SHACLValidatorState.shapes_data self = [] ->
   SHACLValidatorState.validate_node now now' node_uri shape_uri self
   = (Exc.Raise (SHACLValidatorState.ValidationExecutionError
                   ("Error validating node " +:+ node_uri +:+ ": " +:+
                    "No SHACL shapes loaded. Call load_shapes() first.")), self))
  /\ (SHACLValidatorState.shapes_data self <> [] ->
      SHACLValidatorState.rdf_loader self = None ->
      SHACLValidatorState.validate_node now now' node_uri shape_uri self
      = (Exc.Raise (SHACLValidatorState.ValidationExecutionError
                      ("Error validating node " +:+ node_uri +:+ ": " +:+
                       "No RDF data available for validation")), self))
  /\ (SHACLValidatorState.shapes_data self <> [] ->
      SHACLValidatorState.rdf_loader self <> None ->
      exists report,
        SHACLValidatorState.validate_node now now' node_uri shape_uri self
        = (Exc.Return report, counted_validation self)
        /\ ValidationReport.results report = []
        /\ ValidationReport.conforms report = true
        /\ ValidationReport.timestamp report = now'
        /\ ValidationReport.shapes_loaded report
           = SHACLValidatorState.loaded_shape_files self).
Proof.
  rewrite validate_node_spec. split; [|split].
  - intros ->. reflexivity.
  - intros Hs ->. destruct (SHACLValidatorState.shapes_data self); [contradiction|].
    reflexivity.
  - intros Hs Hl. destruct (SHACLValidatorState.shapes_data self); [contradiction|].
    destruct (SHACLValidatorState.rdf_loader self) eqn:Hr; [|contradiction].
    exists (empty_report now' self). repeat split.
Qed.

Lemma validate_node_outcome_witness :
  SHACLValidatorState.validate_node 7 8 "http://example.org/Alice" None
    (SHACLValidatorState.init None)
  = (Exc.Raise (SHACLValidatorState.ValidationExecutionError
                  "Error validating node http://example.org/Alice: No SHACL shapes loaded. Call load_shapes() first."),
     SHACLValidatorState.init None).
Proof.
  apply (proj1 (validate_node_outcome 7 8 "http://example.org/Alice" None
                  (SHACLValidatorState.init None))).
  reflexivity.
Defined.

Section NodeReportFacts.
Import SHACLValidatorState.

Variable node_uri : string.
Variable shape_uri : option string.

(** The results that [validate_node] keeps. *)
Definition selected (r : ValidationResult.t) : bool :=
  String.eqb (ValidationResult.focus_node r) node_uri
  && match shape_uri with
     | None => true
     | Some s =>
         match ValidationResult.source_shape r with
         | Some s' => String.eqb s' s
         | None => false
         end
     end.

Lemma keep_result_selected rep r :
  keep_result node_uri shape_uri rep r
  = if selected r then ValidationReport.add_result rep r else rep.
Proof.
  unfold keep_result, selected.
  destruct (String.eqb _ node_uri); [|reflexivity].
  destruct shape_uri as [s|]; [|reflexivity].
  destruct (ValidationResult.source_shape r); reflexivity.
Qed.

Lemma fold_keep_result rs : forall rep,
  fold_left (keep_result node_uri shape_uri) rs rep
  = ValidationReport.add_results rep (List.filter selected rs).
Proof.
  induction rs as [|r rs IH]; intros rep; cbn [fold_left List.filter]; [reflexivity|].
  rewrite IH, keep_result_selected. destruct (selected r); reflexivity.
Qed.

Lemma add_results_sources rs : forall rep,
  ValidationReport.shapes_loaded (ValidationReport.add_results rep rs)
  = ValidationReport.shapes_loaded rep
  /\ ValidationReport.data_sources (ValidationReport.add_results rep rs)
     = ValidationReport.data_sources rep
  /\ ValidationReport.timestamp (ValidationReport.add_results rep rs)
     = ValidationReport.timestamp rep.
Proof.
  induction rs as [|r rs IH]; intros rep; [repeat split|].
  cbn [ValidationReport.add_results fold_left].
  fold (ValidationReport.add_results (ValidationReport.add_result rep r) rs).
  destruct (IH (ValidationReport.add_result rep r)) as (-> & -> & ->).
  unfold ValidationReport.add_result.
  destruct (String.eqb _ _); repeat split.
Qed.

End NodeReportFacts.

(** X28.  The report that [validate_node] makes of a full report holds
    exactly the results of the node, and with a shape the ones whose
    [source_shape] is that shape, in the order of the full report; without a
    shape it is the node's list in [get_results_by_focus_node].  Its
    [conforms] is computed anew: it is true exactly when none of the kept
    results is a violation, whatever [conforms] is in the full report.  A
    result without source shape is kept for no shape, not even for
    ["Unknown"], the key under which [get_results_by_shape] files it. *)
Theorem node_report_projection
    (now : Z) (node_uri : string) (shape_uri : option string)
    (full_report : ValidationReport.t) :
  let report := SHACLValidatorState.node_report_of now node_uri shape_uri full_report in
  ValidationReport.results report
  = List.filter (selected node_uri shape_uri) (ValidationReport.results full_report)
  /\ (shape_uri = None ->
      ValidationReport.results report
      = with_key ValidationResult.focus_node node_uri
          (ValidationReport.results full_report))
  /\ (ValidationReport.conforms report = true <->
      ValidationReport.get_violations report = [])
  /\ (forall r s,
        shape_uri = Some s -> ValidationResult.source_shape r = None ->
        ReportViews.shape_key r = "Unknown" /\ ~ In r (ValidationReport.results report))
  /\ ValidationReport.shapes_loaded report = ValidationReport.shapes_loaded full_report
  /\ ValidationReport.data_sources report = ValidationReport.data_sources full_report
  /\ ValidationReport.timestamp report = now.
Proof.
  intros report. subst report. unfold SHACLValidatorState.node_report_of. cbn zeta.
  rewrite fold_keep_result.
  set (base := {| ValidationReport.conforms := _ |}).
  assert (Hres : ValidationReport.results
                   (ValidationReport.add_results base
                      (List.filter (selected node_uri shape_uri)
                         (ValidationReport.results full_report)))
                 = List.filter (selected node_uri shape_uri)
                     (ValidationReport.results full_report)).
  { rewrite add_results_results. reflexivity. }
  split; [exact Hres|]. split; [|split; [|split]].
  - intros ->. rewrite Hres. unfold with_key, selected.
    apply List.filter_ext. intros r. apply andb_true_r.
  - unfold ValidationReport.get_violations, ValidationReport.get_results_by_severity.
    rewrite Hres, add_results_conforms. cbn [base ValidationReport.conforms andb].
    apply (forallb_filter_nil is_violation).
  - intros r s -> Hnone. split.
    + unfold ReportViews.shape_key. rewrite Hnone. reflexivity.
    + rewrite Hres. intros Hin. apply List.filter_In in Hin as [_ Hsel].
      unfold selected in Hsel. rewrite Hnone, andb_false_r in Hsel. discriminate Hsel.
  - destruct (add_results_sources
                (List.filter (selected node_uri shape_uri)
                   (ValidationReport.results full_report)) base) as (-> & -> & ->).
    repeat split.
Qed.

Lemma node_report_projection_witness :
  ValidationReport.results
    (SHACLValidatorState.node_report_of 9 "http://example.org/Alice" None
       (ValidationReport.add_results (ValidationReport.init true 0)
          [sample_violation; sample_warning; sample_unknown]))
  = with_key ValidationResult.focus_node "http://example.org/Alice"
      [sample_violation; sample_warning; sample_unknown].
Proof.
  apply (proj1 (proj2 (node_report_projection 9 "http://example.org/Alice" None
                         (ValidationReport.add_results (ValidationReport.init true 0)
                            [sample_violation; sample_warning; sample_unknown])))).
  reflexivity.
Defined.

Section ReachableFacts.
Import PyStr Exc SHACLValidatorState.

Variable env : Env.

(** A call of a method of the validator. *)
Inductive call : Type :=
| LoadShapes (file_path : string)
| LoadShapesDirectory (directory_path pattern : string)
| Validate (now : Z) (data_graph : option unit)
| ValidateNode (now now' : Z) (node_uri : string) (shape_uri : option string)
| ClearShapes
| SetRdfLoader (rdf_loader : option RDFLoader.t).

(** Whether a call returned. *)
Definition returns {E A S : Type} (r : outcome E A * S) : bool :=
  match fst r with
  | Return _ => true
  | Raise _ => false
  end.

(** The validator after a call, whatever its outcome. *)
Definition run (self : t) (c : call) : t :=
  match c with
  | LoadShapes p => snd (load_shapes env p self)
  | LoadShapesDirectory d pattern => snd (load_shapes_directory env d pattern self)
  | Validate now data_graph => snd (validate now data_graph self)
  | ValidateNode now now' node_uri shape_uri =>
      snd (validate_node now now' node_uri shape_uri self)
  | ClearShapes => snd (clear_shapes self)
  | SetRdfLoader rdf_loader => snd (set_rdf_loader rdf_loader self)
  end.

(** Whether a call is a validation that returned. *)
Definition validated (self : t) (c : call) : Z :=
  match c with
  | Validate now data_graph =>
      if returns (validate now data_graph self) then 1 else 0
  | ValidateNode now now' node_uri shape_uri =>
      if returns (validate_node now now' node_uri shape_uri self) then 1 else 0
  | _ => 0
  end.

(** The validator after a sequence of calls. *)
Definition run_all (calls : list call) (self : t) : t := fold_left run calls self.

(** The number of validations that returned in a sequence of calls. *)
Fixpoint validations (calls : list call) (self : t) : Z :=
  match calls with
  | [] => 0
  | c :: rest => validated self c + validations rest (run self c)
  end.

Lemma run_consistent self c :
  consistent self ->
  consistent (run self c)
  /\ validation_count (run self c) = (validation_count self + validated self c)%Z.
Proof.
  intros H. destruct c as [p|d pattern|now dg|now now' n sh| |l]; cbn [run validated].
  - rewrite load_shapes_state. split; [apply load_shape_consistent, H|].
    unfold load_shape.
    destruct (shape_outcome env p) as [c|e]; cbn; lia.
  - rewrite load_shapes_directory_state.
    split; [apply load_shapes_all_consistent, H|].
    rewrite (proj2 (load_shapes_all_rest env _ self)). lia.
  - rewrite validate_spec. unfold returns.
    destruct (shapes_data self) eqn:Hs; [split; [exact H|cbn; lia]|].
    destruct dg, (rdf_loader self); cbn [fst snd];
      (split; [unfold consistent in *; cbn; rewrite ?Hs; exact H || (rewrite Hs in H; exact H)
              | cbn; lia]).
  - rewrite validate_node_spec. unfold returns.
    destruct (shapes_data self) eqn:Hs; [split; [exact H|cbn; lia]|].
    destruct (rdf_loader self); cbn [fst snd];
      (split; [unfold consistent in *; cbn; rewrite ?Hs; exact H || (rewrite Hs in H; exact H)
              | cbn; lia]).
  - split; [reflexivity|cbn; lia].
  - split; [exact H|cbn; lia].
Qed.

Lemma run_all_consistent calls : forall self,
  consistent self ->
  consistent (run_all calls self)
  /\ validation_count (run_all calls self)
     = (validation_count self + validations calls self)%Z.
Proof.
  induction calls as [|c calls IH]; intros self H; cbn [run_all fold_left validations].
  - split; [exact H|lia].
  - destruct (run_consistent self c H) as [Hc Hn].
    destruct (IH _ Hc) as [Hc' Hn']. fold (run_all calls (run self c)).
    split; [exact Hc'|]. rewrite Hn', Hn. lia.
Qed.

End ReachableFacts.

(** X29.  After any sequence of calls of [load_shapes],
    [load_shapes_directory], [validate], [validate_node], [clear_shapes] and
    [set_rdf_loader] on a new validator, whatever their outcomes,
    [shapes_data] and [loaded_shape_files] name the same files in the same
    order, and [validation_count] is the number of validations that
    returned.  So [get_statistics] counts the stored shapes, and a report
    that [validate] returns names at least one shape file. *)
Theorem validator_invariant
    (env : SHACLValidatorState.Env) (rdf_loader : option RDFLoader.t)
    (calls : list call) :
  let self := run_all env calls (SHACLValidatorState.init rdf_loader) in
  List.map RDFLoader.file (SHACLValidatorState.shapes_data self)
  = SHACLValidatorState.loaded_shape_files self
  /\ SHACLValidatorState.validation_count self
     = validations env calls (SHACLValidatorState.init rdf_loader)
  /\ SHACLValidatorState.st_shapes_loaded (SHACLValidatorState.get_statistics self)
     = ValidationReport.len (SHACLValidatorState.shapes_data self)
  /\ SHACLValidatorState.get_loaded_shapes self
     = List.map RDFLoader.file (SHACLValidatorState.shapes_data self)
  /\ (forall now (data_graph : option unit) report st,
        SHACLValidatorState.validate now data_graph self = (Exc.Return report, st) ->
        ValidationReport.shapes_loaded report <> []).
Proof.
  intros self. subst self.
  destruct (run_all_consistent env calls (SHACLValidatorState.init rdf_loader) eq_refl)
    as [Hc Hn].
  set (self := run_all env calls (SHACLValidatorState.init rdf_loader)) in *.
  unfold consistent in Hc.
  split; [exact Hc|]. split; [rewrite Hn; cbn; lia|]. split; [|split].
  - unfold SHACLValidatorState.get_statistics, ValidationReport.len. cbn.
    rewrite <- Hc, length_map. reflexivity.
  - unfold SHACLValidatorState.get_loaded_shapes. rewrite Hc. reflexivity.
  - intros now dg report st. rewrite validate_spec.
    destruct (SHACLValidatorState.shapes_data self) as [|e l] eqn:Hs; [discriminate|].
    assert (Hne : SHACLValidatorState.loaded_shape_files self <> []).
    { rewrite <- Hc. discriminate. }
    destruct dg, (SHACLValidatorState.rdf_loader self); intros H; inversion H; subst;
      exact Hne.
Qed.

Lemma validator_invariant_witness :
  ValidationReport.shapes_loaded
    (empty_report 7
       (run_all sample_shapes_env [LoadShapes "core.ttl"]
          (SHACLValidatorState.init (Some RDFLoader.init))))
  <> [].
Proof.
  apply (proj2 (proj2 (proj2 (proj2
           (validator_invariant sample_shapes_env (Some RDFLoader.init)
              [LoadShapes "core.ttl"]))))
           7%Z None _
           (counted_validation
              (run_all sample_shapes_env [LoadShapes "core.ttl"]
                 (SHACLValidatorState.init (Some RDFLoader.init))))).
  reflexivity.
Defined.

Section CreateFacts.
Import PyStr Exc SHACLValidatorState.

Variable env : Env.

(** The shapes that [create_validator] tries: the ones found in the
    validation directory, up to the first on which [exists()] raises. *)
Definition tried_shapes (validation_dir : string) : list string :=
  until_unexaminable env (shape_listing env validation_dir "*.ttl").

Lemma exists_examinable name :
  stats (files env) name = true ->
  exists b, exists_ env (RDFLoader.path_str (files env) name) = Return b.
Proof.
  unfold stats, exists_.
  destruct (RDFLoader.node (files env) _); try discriminate;
    intros _; eexists; reflexivity.
Qed.

Lemma create_validator_returns ontology_dir validation_dir data_dir :
  Forall (fun name => stats (files env) name = true)
    [ontology_dir; validation_dir; data_dir] ->
  create_validator env ontology_dir validation_dir data_dir
  = Return (load_shapes_all env (tried_shapes validation_dir)
              (init (Some (load_all (files env) true
                             (tried (dirs env) ontology_dir
                              ++ tried (dirs env) validation_dir
                              ++ tried (dirs env) data_dir)
                             RDFLoader.init)))).
Proof.
  intros Hall. unfold create_validator.
  rewrite (load_ontology_files_returns (dirs env) _ _ _ Hall).
  inversion_clear Hall as [|? ? _ Hall']. inversion_clear Hall' as [|? ? Hv _].
  set (validator := init _).
  pose proof (load_shapes_directory_state env validation_dir "*.ttl" validator) as Hst.
  unfold tried_shapes, shape_listing in *. cbn zeta in *.
  destruct (exists_examinable _ Hv) as [[|] Hex]; rewrite Hex in *; [|reflexivity].
  unfold try_except, bind.
  destruct (load_shapes_directory env validation_dir "*.ttl" validator) as [[lists|e] st];
    cbn [snd] in Hst; subst st; reflexivity.
Qed.

End CreateFacts.

(** X30.  [create_validator] raises only when [exists()] raises on one of
    the three directory names: the call of [load_ontology_files] stands
    outside the [try], and the [OSError] of the first such name leaves the
    function.  Otherwise it returns a validator that holds the loader that
    [load_ontology_files] returns, has counted no validation, and has as
    shapes the readable files that [*.ttl] matches in the validation
    directory, in order, up to the first file on which [exists()] raises:
    also those that the loader skipped for a syntax error.  A call of
    [validate] on it returns exactly when there is such a file. *)
Theorem create_validator_outcome
    (env : SHACLValidatorState.Env) (ontology_dir validation_dir data_dir : string) :
  let names := [ontology_dir; validation_dir; data_dir] in
  let shapes := List.filter (readable env) (tried_shapes env validation_dir) in
  (Forall (fun name => stats (SHACLValidatorState.files env) name = true) names ->
   exists validator loader,
     SHACLValidatorState.create_validator env ontology_dir validation_dir data_dir
     = Exc.Return validator
     /\ RDFLoaderDirs.load_ontology_files (SHACLValidatorState.dirs env)
          ontology_dir validation_dir data_dir = Exc.Return loader
     /\ SHACLValidatorState.rdf_loader validator = Some loader
     /\ SHACLValidatorState.validation_count validator = 0%Z
     /\ SHACLValidatorState.loaded_shape_files validator
        = List.map (RDFLoader.path_str (SHACLValidatorState.files env)) shapes
     /\ List.map RDFLoader.file (SHACLValidatorState.shapes_data validator)
        = SHACLValidatorState.loaded_shape_files validator
     /\ (forall now,
           (exists report st,
              SHACLValidatorState.validate now (@None unit) validator
              = (Exc.Return report, st))
           <-> shapes <> []))
  /\ (forall before name after err,
        names = before ++ name :: after ->
        Forall (fun name => stats (SHACLValidatorState.files env) name = true) before ->
        RDFLoader.node (SHACLValidatorState.files env)
          (RDFLoader.path_str (SHACLValidatorState.files env) name)
        = RDFLoader.StatError err ->
        SHACLValidatorState.create_validator env ontology_dir validation_dir data_dir
        = Exc.Raise (inl (RDFLoader.BuiltinError err))).
Proof.
  intros names shapes. subst names shapes. split.
  - intros Hall. rewrite (create_validator_returns env _ _ _ Hall).
    rewrite (load_ontology_files_returns (SHACLValidatorState.dirs env) _ _ _ Hall).
    eexists. eexists. split; [reflexivity|]. split; [reflexivity|].
    set (loader := load_all _ _ _ _).
    set (ps := tried_shapes env validation_dir).
    destruct (load_shapes_all_rest env ps (SHACLValidatorState.init (Some loader)))
      as [Hl Hn].
    pose proof (load_shapes_all_files env ps (SHACLValidatorState.init (Some loader)))
      as Hf.
    pose proof (load_shapes_all_consistent env ps (SHACLValidatorState.init (Some loader))
                  eq_refl) as Hc.
    cbn [SHACLValidatorState.init SHACLValidatorState.loaded_shape_files
         SHACLValidatorState.rdf_loader SHACLValidatorState.validation_count app]
      in Hl, Hn, Hf.
    unfold consistent in Hc.
    split; [exact Hl|]. split; [exact Hn|]. split; [exact Hf|]. split; [exact Hc|].
    intros now. rewrite validate_spec, Hl.
    destruct (SHACLValidatorState.shapes_data _) as [|e l] eqn:Hs.
    + split.
      * intros (report & st & H). discriminate H.
      * intros Hne. exfalso. rewrite Hf in Hc. cbn [List.map] in Hc.
        destruct (List.filter (readable env) ps); [apply Hne; reflexivity|].
        discriminate Hc.
    + split.
      * intros _ Hnil. rewrite Hf, Hnil in Hc. discriminate Hc.
      * intros _. do 2 eexists. reflexivity.
  - intros before name after err Heq Hbefore Hname.
    unfold SHACLValidatorState.create_validator.
    rewrite (load_ontology_files_stat_error (SHACLValidatorState.dirs env)
               _ _ _ _ _ _ _ Heq Hbefore Hname).
    reflexivity.
Qed.

(** The sample directories behind names of any length, for the validator. *)
Definition posix_shapes_env : SHACLValidatorState.Env :=
  {| SHACLValidatorState.dirs := posix_dirs;
     SHACLValidatorState.open_special :=
       SHACLValidatorState.open_special sample_shapes_env |}.

Lemma create_validator_outcome_witness :
  SHACLValidatorState.create_validator posix_shapes_env "ontology" "ontology" long_name
  = Exc.Raise (inl (RDFLoader.BuiltinError
                      ("[Errno 36] File name too long: '" +:+ long_name +:+ "'"))).
Proof.
  assert (Hbefore : Forall (fun name => stats (SHACLValidatorState.files posix_shapes_env)
                                          name = true) ["ontology"; "ontology"])
    by (repeat constructor).
  exact (proj2 (create_validator_outcome posix_shapes_env "ontology" "ontology" long_name)
           ["ontology"; "ontology"] long_name [] _ eq_refl Hbefore eq_refl).
Defined.
